(** * AIH attendance front end: a shallow embedding and its properties

    The repository holds three revisions of the browser script and the
    PostgreSQL schema of the attendance system:

    - [src/static/main.js], lines 1-393: the revision that locates the
      device through the Google geolocation API only ([MainJsGoogle]);
    - [src/static/main.js], lines 394-739: the revision that asks the
      browser for a coarse position and escalates to a high-accuracy
      watch ([MainJsBrowser]);
    - [src/static/main.js], lines 739-973: the SQL schema ([Schema]);
    - [src/unnamed/part_000]: the revision with the two-step location
      check and the device fingerprint ([TwoStep]), with its dashboard and
      its report page ([Controller]; [MainJsReport] holds the report page
      of main.js).

    Browser facilities the script calls (strings of UTF-16 code units,
    [JSON.stringify], [TextEncoder], [crypto.subtle.digest], timers,
    [fetch], geolocation, the DOM) are modelled in [Js], [Sha256] and
    [Browser].

    The second half of the file states and proves properties of these
    programs.  Its vocabulary is defined first ([Logic], [StudentPage],
    [Fingerprint], [Constraints], [Properties], [Integrity]), with concrete
    pages and worlds to run the scripts on ([Samples], [MoreSamples]).  The proofs about the schema are by
    invariant over sequences of statements; the proofs about the pages use
    a small program logic (frames, invariants, counting of platform calls)
    and an evaluator that follows one path of a script. *)

From Stdlib Require Import ZArith QArith Lia List Bool.
From Stdlib Require Import Strings.String Strings.Ascii.
From stdpp Require Import base option list strings gmap.

Local Open Scope Z_scope.

(* ===================================================================== *)
(** ** The script's view of JavaScript values *)
(* ===================================================================== *)

Module Js.

(** A JavaScript string is a sequence of UTF-16 code units. *)
Definition JsString : Type := list Z.

(** A literal of the script, written in ASCII. *)
Definition js (s : string) : JsString :=
  List.map (fun a => Z.of_N (N_of_ascii a)) (list_ascii_of_string s).

(** [String.prototype.length]. *)
Definition jslength (s : JsString) : Z := Z.of_nat (List.length s).

(** Truthiness of a string: only the empty string is falsy. *)
Definition truthy_string (s : JsString) : bool :=
  match s with [] => false | _ => true end.

(** ECMAScript [WhiteSpace] and [LineTerminator] code units, the ones
    [String.prototype.trim] strips. *)
Definition is_js_space (c : Z) : bool :=
  (c =? 9) || (c =? 10) || (c =? 11) || (c =? 12) || (c =? 13) || (c =? 32)
  || (c =? 160) || (c =? 5760) || ((8192 <=? c) && (c <=? 8202))
  || (c =? 8232) || (c =? 8233) || (c =? 8239) || (c =? 8287)
  || (c =? 12288) || (c =? 65279).

Fixpoint trim_start (s : JsString) : JsString :=
  match s with
  | c :: r => if is_js_space c then trim_start r else s
  | [] => []
  end.

(** [String.prototype.trim]. *)
Definition trim (s : JsString) : JsString :=
  List.rev (trim_start (List.rev (trim_start s))).

Fixpoint starts_with (p s : JsString) : bool :=
  match p, s with
  | [], _ => true
  | a :: p', b :: s' => (a =? b) && starts_with p' s'
  | _ :: _, [] => false
  end.

(** [String.prototype.includes]. *)
Fixpoint includes (s p : JsString) : bool :=
  starts_with p s ||
  match s with
  | [] => false
  | _ :: r => includes r p
  end.

(** Digits of a non-negative integer in [base], most significant first;
    [fuel] bounds the number of digits. *)
Fixpoint digits (fuel : nat) (base n : Z) : list Z :=
  match fuel with
  | O => [n mod base]
  | S f => if n <? base then [n] else digits f base (n / base) ++ [n mod base]
  end.

Definition digit_char (d : Z) : Z :=
  if d <? 10 then 48 + d else 87 + d.

(** [Number.prototype.toString(radix)] on an integer value. *)
Definition number_to_string (radix n : Z) : JsString :=
  let body := List.map digit_char (digits (Z.to_nat (Z.log2 (Z.abs n))) radix (Z.abs n)) in
  if n <? 0 then 45 :: body else body.

(** The default [ToString] of an integer-valued number (decimal; exact for
    magnitudes below 10^21, where JavaScript does not switch to exponent
    notation). *)
Definition to_string (n : Z) : JsString := number_to_string 10 n.

Fixpoint cycle_take (n : nat) (pad cur : JsString) : JsString :=
  match n with
  | O => []
  | S m =>
      match cur with
      | c :: r => c :: cycle_take m pad r
      | [] => match pad with
              | c :: r => c :: cycle_take m pad r
              | [] => []
              end
      end
  end.

(** [String.prototype.padStart(target, pad)]. *)
Definition padStart (target : nat) (pad s : JsString) : JsString :=
  cycle_take (target - List.length s) pad pad ++ s.

(** [Array.prototype.length]. *)
Definition jslength_list {A} (l : list A) : Z := Z.of_nat (List.length l).

(** [Array.prototype.join('')] over strings. *)
Definition join_empty (l : list JsString) : JsString := List.concat l.

(* --------------------------------------------------------------------- *)
(** *** JSON.stringify on strings and integers *)

Definition is_high_surrogate (c : Z) : bool := (55296 <=? c) && (c <=? 56319).
Definition is_low_surrogate (c : Z) : bool := (56320 <=? c) && (c <=? 57343).

(** [\uXXXX] with four lowercase hexadecimal digits. *)
Definition unicode_escape (c : Z) : JsString :=
  92 :: 117 :: padStart 4 [48] (number_to_string 16 c).

(** ECMA-262 QuoteJSONString, on the code units between the quotes. *)
Fixpoint quote_units (s : JsString) : JsString :=
  match s with
  | [] => []
  | c :: r =>
      if c =? 8 then 92 :: 98 :: quote_units r
      else if c =? 9 then 92 :: 116 :: quote_units r
      else if c =? 10 then 92 :: 110 :: quote_units r
      else if c =? 12 then 92 :: 102 :: quote_units r
      else if c =? 13 then 92 :: 114 :: quote_units r
      else if c =? 34 then 92 :: 34 :: quote_units r
      else if c =? 92 then 92 :: 92 :: quote_units r
      else if c <? 32 then unicode_escape c ++ quote_units r
      else if is_high_surrogate c then
        match r with
        | d :: r' =>
            if is_low_surrogate d then c :: d :: quote_units r'
            else unicode_escape c ++ quote_units r
        | [] => unicode_escape c
        end
      else if is_low_surrogate c then unicode_escape c ++ quote_units r
      else c :: quote_units r
  end.

Definition json_string (s : JsString) : JsString :=
  34 :: quote_units s ++ [34].

(** A property value as [JSON.stringify] sees it. *)
Inductive JsonValue : Type :=
  | JString (s : JsString)
  | JInteger (n : Z).

Definition json_value (v : JsonValue) : JsString :=
  match v with
  | JString s => json_string s
  | JInteger n => to_string n
  end.

Definition json_member (kv : string * JsonValue) : JsString :=
  json_string (js (fst kv)) ++ 58 :: json_value (snd kv).

Fixpoint json_members (l : list (string * JsonValue)) : JsString :=
  match l with
  | [] => []
  | [kv] => json_member kv
  | kv :: r => json_member kv ++ 44 :: json_members r
  end.

(** [JSON.stringify] of an object literal whose properties, in insertion
    order, are [l]. *)
Definition json_stringify (l : list (string * JsonValue)) : JsString :=
  123 :: json_members l ++ [125].

(* --------------------------------------------------------------------- *)
(** *** TextEncoder: UTF-16 code units to UTF-8 bytes *)

Definition utf8_of_code_point (u : Z) : list Z :=
  if u <? 128 then [u]
  else if u <? 2048 then [192 + u / 64; 128 + u mod 64]
  else if u <? 65536 then [224 + u / 4096; 128 + (u / 64) mod 64; 128 + u mod 64]
  else [240 + u / 262144; 128 + (u / 4096) mod 64; 128 + (u / 64) mod 64; 128 + u mod 64].

(** [new TextEncoder().encode(s)]: surrogate pairs are combined, a lone
    surrogate is replaced by U+FFFD. *)
Fixpoint text_encode (s : JsString) : list Z :=
  match s with
  | [] => []
  | c :: r =>
      if is_high_surrogate c then
        match r with
        | d :: r' =>
            if is_low_surrogate d
            then utf8_of_code_point (65536 + (c - 55296) * 1024 + (d - 56320)) ++ text_encode r'
            else utf8_of_code_point 65533 ++ text_encode r
        | [] => utf8_of_code_point 65533
        end
      else if is_low_surrogate c then utf8_of_code_point 65533 ++ text_encode r
      else utf8_of_code_point c ++ text_encode r
  end.

End Js.

(* ===================================================================== *)
(** ** SHA-256, the digest behind [crypto.subtle.digest('SHA-256', _)] *)
(* ===================================================================== *)

Module Sha256.

(** 32-bit words are integers in [0, 2^32); bytes are integers in [0, 256). *)
Definition word (x : Z) : Z := x mod 4294967296.
Definition add32 (a b : Z) : Z := word (a + b).
Definition rotr (n x : Z) : Z := word (Z.lor (Z.shiftr x n) (Z.shiftl x (32 - n))).
Definition shr (n x : Z) : Z := Z.shiftr x n.
Definition not32 (x : Z) : Z := Z.lxor x 4294967295.

Definition Ch (x y z : Z) : Z := Z.lxor (Z.land x y) (Z.land (not32 x) z).
Definition Maj (x y z : Z) : Z :=
  Z.lxor (Z.lxor (Z.land x y) (Z.land x z)) (Z.land y z).
Definition Sigma0 (x : Z) : Z := Z.lxor (Z.lxor (rotr 2 x) (rotr 13 x)) (rotr 22 x).
Definition Sigma1 (x : Z) : Z := Z.lxor (Z.lxor (rotr 6 x) (rotr 11 x)) (rotr 25 x).
Definition sigma0 (x : Z) : Z := Z.lxor (Z.lxor (rotr 7 x) (rotr 18 x)) (shr 3 x).
Definition sigma1 (x : Z) : Z := Z.lxor (Z.lxor (rotr 17 x) (rotr 19 x)) (shr 10 x).

(** The round constants, in the eight rows of FIPS 180-4, 4.2.2. *)
Definition K_rows : list (list Z) :=
  [ [0x428a2f98; 0x71374491; 0xb5c0fbcf; 0xe9b5dba5; 0x3956c25b; 0x59f111f1; 0x923f82a4; 0xab1c5ed5];
    [0xd807aa98; 0x12835b01; 0x243185be; 0x550c7dc3; 0x72be5d74; 0x80deb1fe; 0x9bdc06a7; 0xc19bf174];
    [0xe49b69c1; 0xefbe4786; 0x0fc19dc6; 0x240ca1cc; 0x2de92c6f; 0x4a7484aa; 0x5cb0a9dc; 0x76f988da];
    [0x983e5152; 0xa831c66d; 0xb00327c8; 0xbf597fc7; 0xc6e00bf3; 0xd5a79147; 0x06ca6351; 0x14292967];
    [0x27b70a85; 0x2e1b2138; 0x4d2c6dfc; 0x53380d13; 0x650a7354; 0x766a0abb; 0x81c2c92e; 0x92722c85];
    [0xa2bfe8a1; 0xa81a664b; 0xc24b8b70; 0xc76c51a3; 0xd192e819; 0xd6990624; 0xf40e3585; 0x106aa070];
    [0x19a4c116; 0x1e376c08; 0x2748774c; 0x34b0bcb5; 0x391c0cb3; 0x4ed8aa4a; 0x5b9cca4f; 0x682e6ff3];
    [0x748f82ee; 0x78a5636f; 0x84c87814; 0x8cc70208; 0x90befffa; 0xa4506ceb; 0xbef9a3f7; 0xc67178f2] ].

Definition K : list Z := List.concat K_rows.

(** The eight working words. *)
Record Hash : Type := mkHash {
  ha : Z; hb : Z; hc : Z; hd : Z; he : Z; hf : Z; hg : Z; hh : Z
}.

Definition H0 : Hash :=
  mkHash 0x6a09e667 0xbb67ae85 0x3c6ef372 0xa54ff53a
         0x510e527f 0x9b05688c 0x1f83d9ab 0x5be0cd19.

(** Padding: a one bit, zeros up to 56 modulo 64, the bit length on 8 bytes. *)
Definition be_bytes (n : nat) (x : Z) : list Z :=
  List.map (fun i => (x / 2 ^ (8 * Z.of_nat i)) mod 256) (List.rev (List.seq 0 n)).

Definition pad (msg : list Z) : list Z :=
  let len := Z.of_nat (List.length msg) in
  let zeros := Z.to_nat ((55 - len) mod 64) in
  msg ++ 128 :: List.repeat 0 zeros ++ be_bytes 8 (8 * len).

Definition be_word (b0 b1 b2 b3 : Z) : Z :=
  ((b0 * 256 + b1) * 256 + b2) * 256 + b3.

Fixpoint words_of_bytes (fuel : nat) (bs : list Z) : list Z :=
  match fuel, bs with
  | S f, b0 :: b1 :: b2 :: b3 :: r => be_word b0 b1 b2 b3 :: words_of_bytes f r
  | _, _ => []
  end.

(** The message schedule, newest word first: [extend n w] adds [n] words. *)
Fixpoint extend (n : nat) (w : list Z) : list Z :=
  match n with
  | O => w
  | S m =>
      let x := add32 (add32 (sigma1 (List.nth 1 w 0)) (List.nth 6 w 0))
                     (add32 (sigma0 (List.nth 14 w 0)) (List.nth 15 w 0)) in
      extend m (x :: w)
  end.

Definition schedule (block : list Z) : list Z :=
  List.rev (extend 48 (List.rev block)).

Definition round (s : Hash) (kw : Z * Z) : Hash :=
  let t1 := add32 (add32 (add32 (hh s) (Sigma1 (he s))) (Ch (he s) (hf s) (hg s)))
                  (add32 (fst kw) (snd kw)) in
  let t2 := add32 (Sigma0 (ha s)) (Maj (ha s) (hb s) (hc s)) in
  mkHash (add32 t1 t2) (ha s) (hb s) (hc s) (add32 (hd s) t1) (he s) (hf s) (hg s).

Definition compress (h : Hash) (block : list Z) : Hash :=
  let s := List.fold_left round (List.combine K (schedule block)) h in
  mkHash (add32 (ha h) (ha s)) (add32 (hb h) (hb s)) (add32 (hc h) (hc s))
         (add32 (hd h) (hd s)) (add32 (he h) (he s)) (add32 (hf h) (hf s))
         (add32 (hg h) (hg s)) (add32 (hh h) (hh s)).

Fixpoint blocks (fuel : nat) (ws : list Z) : list (list Z) :=
  match fuel, ws with
  | S f, _ :: _ => List.firstn 16 ws :: blocks f (List.skipn 16 ws)
  | _, _ => []
  end.

Definition hash_bytes (h : Hash) : list Z :=
  be_bytes 4 (ha h) ++ be_bytes 4 (hb h) ++ be_bytes 4 (hc h) ++ be_bytes 4 (hd h)
  ++ be_bytes 4 (he h) ++ be_bytes 4 (hf h) ++ be_bytes 4 (hg h) ++ be_bytes 4 (hh h).

(** The 32-byte digest of a byte sequence. *)
Definition digest (msg : list Z) : list Z :=
  let bs := pad msg in
  let ws := words_of_bytes (List.length bs) bs in
  hash_bytes (List.fold_left compress (blocks (List.length ws) ws) H0).

End Sha256.

(* ===================================================================== *)
(** ** The browser: DOM, timers, geolocation, fetch *)
(* ===================================================================== *)

Module Browser.
Import Js.
Local Open Scope string_scope.
Local Open Scope list_scope.

(** Finite numbers ([double]) are modelled by the rationals they denote;
    [x < y] on them is exact. *)
Definition Qlt_bool (x y : Q) : bool := negb (Qle_bool y x).

(** Truthiness of a number: zero is falsy. *)
Definition truthy_number (x : Q) : bool := negb (Qeq_bool x 0).

(** The child nodes that an assignment to [innerHTML] leaves: the
    browser parses the assigned markup as a fragment and puts the nodes it
    finds in the place of the children.  The nodes are kept as the markup
    they were parsed from, not as its text: where the markup carries [<],
    [>] or [&] in what was meant as data, the nodes are not the ones the
    text suggests, and reading [innerHTML] back gives another string.  The
    script only ever assigns the property. *)
Inductive Fragment : Type := parse_fragment (markup : JsString).

(** The mutable properties of a DOM element that the script reads or
    writes.  [style_display] and [style_color] are [style.display] and
    [style.color]; [children] is what the last assignment to [innerHTML]
    left. *)
Record Element : Type := mkElement {
  textContent : JsString;
  className : JsString;
  style_display : JsString;
  style_color : JsString;
  disabled : bool;
  children : Fragment;
  value : JsString
}.

Definition set_textContent (s : JsString) (e : Element) : Element :=
  mkElement s (className e) (style_display e) (style_color e) (disabled e) (children e) (value e).
Definition set_className (s : JsString) (e : Element) : Element :=
  mkElement (textContent e) s (style_display e) (style_color e) (disabled e) (children e) (value e).
Definition set_display (s : JsString) (e : Element) : Element :=
  mkElement (textContent e) (className e) s (style_color e) (disabled e) (children e) (value e).
Definition set_color (s : JsString) (e : Element) : Element :=
  mkElement (textContent e) (className e) (style_display e) s (disabled e) (children e) (value e).
Definition set_disabled (b : bool) (e : Element) : Element :=
  mkElement (textContent e) (className e) (style_display e) (style_color e) b (children e) (value e).
Definition set_innerHTML (s : JsString) (e : Element) : Element :=
  mkElement (textContent e) (className e) (style_display e) (style_color e) (disabled e)
            (parse_fragment s) (value e).
Definition set_value (s : JsString) (e : Element) : Element :=
  mkElement (textContent e) (className e) (style_display e) (style_color e) (disabled e) (children e) s.

(** *** Geolocation *)

Record PositionOptions : Type := mkOptions {
  enableHighAccuracy : bool;
  timeout : option Z;
  maximumAge : option Z
}.

Record Coords : Type := mkCoords {
  latitude : Q;
  longitude : Q;
  accuracy : Q
}.

(** A position object, [{ coords: ... }]. *)
Record Position : Type := mkPosition { coords : Coords }.

Record PositionError : Type := mkPositionError {
  error_code : Z;
  error_message : JsString
}.

Definition PERMISSION_DENIED : Z := 1.
Definition POSITION_UNAVAILABLE : Z := 2.
Definition TIMEOUT : Z := 3.

Inductive GeoResult : Type :=
  | GeoSuccess (pos : Position)
  | GeoError (err : PositionError).

(** *** fetch *)

Inductive Method : Type := GET | POST | DELETE.

(** A value handed to [URLSearchParams]; numbers are turned into text by
    the platform when the body is serialised. *)
Inductive FormValue : Type :=
  | FormText (s : JsString)
  | FormInteger (n : Z)
  | FormNumber (x : Q).

Inductive Body : Type :=
  | NoBody
  | FormBody (fields : list (string * FormValue))
  | TextBody (s : JsString).

Record Request : Type := mkRequest {
  url : JsString;
  method : Method;
  headers : list (string * string);
  body : Body
}.

(** The parsed JSON of a response, as far as the script reads it:
    [success] is the truthiness of [data.success]; an absent member is
    [None]. *)
Record Payload : Type := mkPayload {
  success : bool;
  students : option (list JsString);
  name : option JsString;
  message : JsString;
  category : JsString;
  location : option (Q * Q);
  data_accuracy : option Q;
  api_error_message : option JsString
}.

(** What a [fetch] settles to: a rejected promise, or a response whose
    body may fail to parse as JSON ([None]). *)
Inductive FetchResult : Type :=
  | NetworkError
  | Response (ok : bool) (status : Z) (json : option Payload).

(** *** The device and the window *)

Record Device : Type := mkDevice {
  userAgent : JsString;
  screen_width : Z;
  screen_height : Z;
  colorDepth : Z;
  timezoneOffset : Z;
  language : JsString;
  platform : JsString;
  geolocation : bool
}.

Record SessionData : Type := mkSession {
  session_id : Z;
  end_time : JsString
}.

(** Everything outside the page: the device, the globals the server
    rendered into the page, and how the platform answers requests. *)
Record World : Type := mkWorld {
  device : Device;
  GOOGLE_MAPS_API_KEY : option JsString;
  activeSessionDataStudent : option SessionData;
  geo_current : PositionOptions -> GeoResult;
  geo_watch : PositionOptions -> GeoResult;
  net : Request -> FetchResult;
  date_parse : JsString -> option Z
}.

(** *** Timers and the page *)

Inductive Callback : Type :=
  | HideStatus
  | PollPresentStudents (sessionId : Z)
  | RobustTick (endTime : option Z) (timerElement : string)
  | EnrollmentLookup.

Record Timer : Type := mkTimer {
  timer_id : nat;
  due : Z;
  period : option Z;
  callback : Callback
}.

Inductive Listener : Type := OnInput | OnSubmit | OnRetryClick.

(** Calls into the platform, in the order they were made. *)
Inductive Effect : Type :=
  | GetCurrentPosition (o : PositionOptions)
  | WatchPosition (o : PositionOptions) (watchId : nat)
  | ClearWatch (watchId : nat)
  | Fetch (r : Request)
  | ConsoleLog (s : JsString)
  | ConsoleWarn (s : JsString)
  | ConsoleError (s : JsString)
  | PreventDefault
  | Reload.

Record Page : Type := mkPage {
  dom : gmap string Element;
  modal_open : bool;
  timers : list Timer;
  next_timer : nat;
  next_watch : nat;
  now : Z;
  log : list Effect;
  listeners : list Listener;
  lookup_timeout : option nat
}.

Definition with_dom (d : gmap string Element) (p : Page) : Page :=
  mkPage d (modal_open p) (timers p) (next_timer p) (next_watch p) (now p) (log p)
         (listeners p) (lookup_timeout p).
Definition with_modal_open (b : bool) (p : Page) : Page :=
  mkPage (dom p) b (timers p) (next_timer p) (next_watch p) (now p) (log p)
         (listeners p) (lookup_timeout p).
Definition with_timers (t : list Timer) (n : nat) (p : Page) : Page :=
  mkPage (dom p) (modal_open p) t n (next_watch p) (now p) (log p)
         (listeners p) (lookup_timeout p).
Definition with_next_watch (n : nat) (p : Page) : Page :=
  mkPage (dom p) (modal_open p) (timers p) (next_timer p) n (now p) (log p)
         (listeners p) (lookup_timeout p).
Definition with_now (t : Z) (p : Page) : Page :=
  mkPage (dom p) (modal_open p) (timers p) (next_timer p) (next_watch p) t (log p)
         (listeners p) (lookup_timeout p).
Definition with_log (l : list Effect) (p : Page) : Page :=
  mkPage (dom p) (modal_open p) (timers p) (next_timer p) (next_watch p) (now p) l
         (listeners p) (lookup_timeout p).
Definition with_listeners (l : list Listener) (p : Page) : Page :=
  mkPage (dom p) (modal_open p) (timers p) (next_timer p) (next_watch p) (now p) (log p)
         l (lookup_timeout p).
Definition with_lookup_timeout (t : option nat) (p : Page) : Page :=
  mkPage (dom p) (modal_open p) (timers p) (next_timer p) (next_watch p) (now p) (log p)
         (listeners p) t.

(** *** Script code: state over the page, the world read-only, exceptions

    A piece of script runs from a page to a page and either returns or
    throws.  What the platform answers is read from the world, at the
    point of the call: an [await] is resumed at once, so a handler and the
    continuations of its promises run as one piece, no other event comes
    in between, and the clock of the page stands still meanwhile.  The
    order of the platform calls and of the writes to the page is the one
    of the source. *)

Inductive Exn : Type :=
  | TypeError
  | SyntaxError
  | NetworkFailure
  | Rejected (reason : JsString)
  | JsError (msg : JsString).

Inductive Result (A : Type) : Type :=
  | Ok (a : A)
  | Throw (e : Exn).
Arguments Ok {A} a.
Arguments Throw {A} e.

Definition M (A : Type) : Type := World -> Page -> Result A * Page.

Definition ret {A} (a : A) : M A := fun _ p => (Ok a, p).
Definition throw {A} (e : Exn) : M A := fun _ p => (Throw e, p).
Definition bind {A B} (m : M A) (k : A -> M B) : M B :=
  fun w p =>
    match m w p with
    | (Ok a, p') => k a w p'
    | (Throw e, p') => (Throw e, p')
    end.
(** [try { m } catch (e) { h e }]. *)
Definition try_catch {A} (m : M A) (h : Exn -> M A) : M A :=
  fun w p =>
    match m w p with
    | (Ok a, p') => (Ok a, p')
    | (Throw e, p') => h e w p'
    end.
(** A call whose promise nobody awaits: a rejection is lost. *)
Definition detached (m : M unit) : M unit := try_catch m (fun _ => ret tt).

Definition world : M World := fun w p => (Ok w, p).
Definition page : M Page := fun _ p => (Ok p, p).
Definition modify (f : Page -> Page) : M unit := fun _ p => (Ok tt, f p).

(** The page a piece of script leaves behind. *)
Definition exec {A} (m : M A) (w : World) (p : Page) : Page := snd (m w p).
Definition outcome {A} (m : M A) (w : World) (p : Page) : Result A := fst (m w p).

Notation "'let*' x ':=' m 'in' k" := (bind m (fun x => k))
  (at level 10, x name, m at level 100, k at level 200).
Notation "m '>>' k" := (bind m (fun _ => k))
  (at level 100, k at level 200, right associativity).

(** [a === b] on strings. *)
Definition jseq (a b : JsString) : bool := bool_decide (a = b).

(** *** DOM access through element handles

    A handle is the id the element was looked up by; [null] is an id the
    document has no element for.  The script never removes an element of
    the student page. *)

Definition getElementById (id : string) : M (option Element) :=
  fun _ p => (Ok (dom p !! id), p).

(** Property assignment through a handle: a [TypeError] on [null]. *)
Definition assign (id : string) (f : Element -> Element) : M unit :=
  fun _ p =>
    match dom p !! id with
    | Some e => (Ok tt, with_dom (<[id := f e]> (dom p)) p)
    | None => (Throw TypeError, p)
    end.

(** Property read through a handle: a [TypeError] on [null]. *)
Definition read {A} (id : string) (f : Element -> A) : M A :=
  fun _ p =>
    match dom p !! id with
    | Some e => (Ok (f e), p)
    | None => (Throw TypeError, p)
    end.

(** [handle.querySelector('span').textContent = s]; the span of the
    element [id] is kept under the key [id ++ " span"]. *)
Definition span_of (id : string) : string := id +:+ " span".
Definition assign_span_text (id : string) (s : JsString) : M unit :=
  read id (fun _ => tt) >> assign (span_of id) (set_textContent s).

Definition addEventListener (id : string) (l : Listener) : M unit :=
  read id (fun _ => tt) >> modify (fun p => with_listeners (listeners p ++ [l]) p).

(** *** Platform calls *)

Definition emit (e : Effect) : M unit :=
  modify (fun p => with_log (log p ++ [e]) p).

Record FetchResponse : Type := mkResponse {
  response_ok : bool;
  response_status : Z;
  response_body : option Payload
}.

(** [await fetch(...)]: the request is issued; a network failure rejects. *)
Definition fetch (r : Request) : M FetchResponse :=
  emit (Fetch r) >>
  let* w := world in
  match net w r with
  | NetworkError => throw NetworkFailure
  | Response ok st j => ret (mkResponse ok st j)
  end.

(** [await response.json()]. *)
Definition response_json (r : FetchResponse) : M Payload :=
  match response_body r with
  | Some d => ret d
  | None => throw SyntaxError
  end.

Definition getCurrentPosition (o : PositionOptions) : M GeoResult :=
  emit (GetCurrentPosition o) >>
  let* w := world in ret (geo_current w o).

(** [watchPosition] returns the watch id; the result is the first
    callback the watch makes. *)
Definition watchPosition (o : PositionOptions) : M (nat * GeoResult) :=
  let* p := page in
  let watchId := next_watch p in
  modify (with_next_watch (S watchId)) >>
  emit (WatchPosition o watchId) >>
  let* w := world in ret (watchId, geo_watch w o).

Definition clearWatch (watchId : nat) : M unit := emit (ClearWatch watchId).

Definition reload : M unit := emit Reload.

(** *** Timers *)

Definition add_timer (cb : Callback) (delay : Z) (per : option Z) : M nat :=
  fun _ p =>
    (Ok (next_timer p),
     with_timers (timers p ++ [mkTimer (next_timer p) (now p + delay) per cb])
                 (S (next_timer p)) p).

Definition setTimeout (cb : Callback) (delay : Z) : M nat := add_timer cb delay None.
Definition setInterval (cb : Callback) (delay : Z) : M nat := add_timer cb delay (Some delay).

Definition remove_timer (id : nat) (l : list Timer) : list Timer :=
  List.filter (fun t => negb (Nat.eqb (timer_id t) id)) l.

(** [clearTimeout] and [clearInterval] share one pool of ids; clearing
    [undefined] does nothing. *)
Definition clearTimeout (id : option nat) : M unit :=
  match id with
  | Some i => modify (fun p => with_timers (remove_timer i (timers p)) (next_timer p) p)
  | None => ret tt
  end.
Definition clearInterval (id : nat) : M unit := clearTimeout (Some id).

(** The closure [debounce(func, delay)] returns; [lookup_timeout] is its
    [timeout] variable. *)
Definition debounce (func : Callback) (delay : Z) : M unit :=
  let* p := page in
  clearTimeout (lookup_timeout p) >>
  let* t := setTimeout func delay in
  modify (with_lookup_timeout (Some t)).

(** The page is gone once a reload was asked for. *)
Definition alive (p : Page) : Prop := ~ In Reload (log p).

End Browser.

(* ===================================================================== *)
(** ** [src/unnamed/part_000]: two-step location and device fingerprint *)
(* ===================================================================== *)

Module TwoStep.
Import Js Browser.
Local Open Scope string_scope.
Local Open Scope list_scope.

(** part_000:10-17 *)
Definition showStatusMessage (message type : JsString) : M unit :=
  let* statusDiv := getElementById "status-message" in
  match statusDiv with
  | None => ret tt
  | Some _ =>
      assign "status-message" (set_textContent message) >>
      assign "status-message" (set_className (js "status-message " ++ type)) >>
      assign "status-message" (set_display (js "block")) >>
      let* _ := setTimeout HideStatus 6000 in
      ret tt
  end.

(** part_000:24-32, the object literal [components]. *)
Definition components (d : Device) : list (string * JsonValue) :=
  [ ("userAgent", JString (userAgent d));
    ("screenWidth", JInteger (screen_width d));
    ("screenHeight", JInteger (screen_height d));
    ("colorDepth", JInteger (colorDepth d));
    ("timezone", JInteger (timezoneOffset d));
    ("language", JString (language d));
    ("platform", JString (platform d)) ].

(** [b.toString(16).padStart(2, '0')] *)
Definition hex_byte (b : Z) : JsString :=
  padStart 2 (js "0") (number_to_string 16 b).

(** part_000:23-40 *)
Definition getDeviceFingerprint (d : Device) : JsString :=
  let jsonString := json_stringify (components d) in
  let data := text_encode jsonString in
  let hashBuffer := Sha256.digest data in
  let hashArray := hashBuffer in
  join_empty (List.map hex_byte hashArray).

(** part_000:45-66 *)
Definition getBrowserGpsLocation : M Position :=
  let* w := world in
  if negb (geolocation (device w)) then
    throw (Rejected (js "Geolocation is not supported by your browser."))
  else
    let options := mkOptions true (Some 8000) (Some 0) in
    let* r := getCurrentPosition options in
    match r with
    | GeoSuccess position => ret position
    | GeoError error =>
        let message := js "GPS Error: " in
        let message :=
          if (error_code error =? PERMISSION_DENIED)%Z then message ++ js "Permission denied."
          else if (error_code error =? POSITION_UNAVAILABLE)%Z then message ++ js "Position unavailable."
          else if (error_code error =? TIMEOUT)%Z then message ++ js "Request timed out."
          else message ++ js "Unknown error." in
        throw (Rejected message)
    end.

(** part_000:68-81 *)
Definition getGoogleApiLocation : M Position :=
  let* w := world in
  match GOOGLE_MAPS_API_KEY w with
  | None => throw (JsError (js "Configuration error: Google Maps API key is not set."))
  | Some key =>
      if negb (truthy_string key) || jseq key (js "YOUR_GOOGLE_MAPS_API_KEY") then
        throw (JsError (js "Configuration error: Google Maps API key is not set."))
      else
        let apiUrl := js "https://www.googleapis.com/geolocation/v1/geolocate?key=" ++ key in
        let* response :=
          fetch (mkRequest apiUrl POST [("Content-Type", "application/json")] NoBody) in
        if negb (response_ok response) then
          throw (JsError (js "Google API responded with status "
                          ++ to_string (response_status response)))
        else
          let* data := response_json response in
          match location data, data_accuracy data with
          | Some (lat, lng), Some acc =>
              if truthy_number acc then ret (mkPosition (mkCoords lat lng acc))
              else throw (JsError (js "Could not determine location from Google's response."))
          | _, _ =>
              throw (JsError (js "Could not determine location from Google's response."))
          end
  end.

(** part_000:88-99, the interval callback of [startRobustTimer];
    [timerInterval] is the id of the interval itself. *)
Definition robust_tick (timerInterval : nat) (endTime : option Z) (timerElement : string)
  : M unit :=
  let* p := page in
  match endTime with
  | Some e =>
      let remaining := e - now p in
      if (remaining <=? 0)%Z then
        clearInterval timerInterval >>
        assign timerElement (set_textContent (js "Session Ended")) >>
        let* form := getElementById "attendance-form" in
        match form with
        | Some _ => reload
        | None => ret tt
        end
      else
        let minutes := remaining / 60000 in
        let seconds := (remaining mod 60000) / 1000 in
        assign timerElement
          (set_textContent (to_string minutes ++ js "m "
                            ++ padStart 2 (js "0") (to_string seconds) ++ js "s"))
  | None =>
      (* an unparsable end time: every number involved is NaN *)
      assign timerElement (set_textContent (js "NaNm NaNs"))
  end.

(** part_000:85-100 *)
Definition startRobustTimer (endTimeIsoString : JsString) (timerElement : string) : M unit :=
  let* el := getElementById timerElement in
  match el with
  | None => ret tt
  | Some _ =>
      if negb (truthy_string endTimeIsoString) then ret tt
      else
        let* w := world in
        let endTime := date_parse w endTimeIsoString in
        let* _ := setInterval (RobustTick endTime timerElement) 1000 in
        ret tt
  end.

(** part_000:408-411 *)
Definition openModal (modalElement : string) : M unit :=
  let* el := getElementById modalElement in
  match el with
  | Some _ => assign modalElement (set_display (js "block"))
  | None => ret tt
  end >>
  modify (with_modal_open true).

(** part_000:413-416 *)
Definition closeModal (modalElement : string) : M unit :=
  let* el := getElementById modalElement in
  match el with
  | Some _ => assign modalElement (set_display (js "none"))
  | None => ret tt
  end >>
  modify (with_modal_open false).

(** The handles [initStudentPage] looks up (part_000:121-128). *)
Definition attendanceForm : string := "attendance-form".
Definition markButton : string := "mark-btn".
Definition enrollmentInput : string := "enrollment_no".
Definition spinner : string := "button-spinner".
Definition wifiModal : string := "wifi-prompt-modal".
Definition retryWithGoogleBtn : string := "retry-with-google-btn".

Definition present_students_url (sessionId : Z) : JsString :=
  js "/api/get_present_students/" ++ to_string sessionId.

(** part_000:130-142 *)
Definition fetchPresentStudents (sessionId : Z) : M unit :=
  let* presentListElement := getElementById "present-students-list" in
  match presentListElement with
  | None => ret tt
  | Some _ =>
      try_catch
        (let* response := fetch (mkRequest (present_students_url sessionId) GET [] NoBody) in
         let* data := response_json response in
         match students data with
         | Some l =>
             if success data then
               assign "present-students-list"
                 (set_innerHTML
                    (if (0 <? jslength_list l)%Z
                     then join_empty (List.map (fun s => js "<li>" ++ s ++ js "</li>") l)
                     else js "<li>No one has marked attendance yet.</li>"))
             else ret tt
         | None => ret tt
         end)
        (fun error => emit (ConsoleError (js "Could not fetch present students:")))
  end.

(** part_000:151-165, the function handed to [debounce]. *)
Definition enrollment_lookup : M unit :=
  let studentNameDisplay := "student-name-display" in
  let* v := read enrollmentInput value in
  let enrollmentNo := trim v in
  if (5 <=? jslength enrollmentNo)%Z then
    assign studentNameDisplay (set_textContent (js "Searching...")) >>
    assign studentNameDisplay (set_color (js "var(--text-muted)")) >>
    let* response :=
      fetch (mkRequest (js "/api/get_student_name/" ++ enrollmentNo) GET [] NoBody) in
    let* data := response_json response in
    let found := match name data with Some n => truthy_string n | None => false end in
    assign studentNameDisplay
      (set_textContent
         (match name data with
          | Some n => if truthy_string n then js "Name: " ++ n else js "Student not found."
          | None => js "Student not found."
          end)) >>
    assign studentNameDisplay
      (set_color (if found then js "var(--primary-blue)" else js "var(--danger-red)"))
  else
    assign studentNameDisplay (set_textContent []).

(** part_000:167-171 *)
Definition resetSubmitButton : M unit :=
  assign markButton (set_disabled false) >>
  assign spinner (set_display (js "none")) >>
  assign_span_text markButton (js "Mark My Attendance").

(** part_000:177-184, the fields of the form post. *)
Definition formData (enrollment : JsString) (sessionId : Z) (position : Position)
    (method : JsString) (fingerprint : JsString) : list (string * FormValue) :=
  [ ("enrollment_no", FormText enrollment);
    ("session_id", FormInteger sessionId);
    ("latitude", FormNumber (latitude (coords position)));
    ("longitude", FormNumber (longitude (coords position)));
    ("location_method", FormText method);
    ("fingerprint", FormText fingerprint) ].

(** part_000:173-203 *)
Definition handleAttendanceSubmission (position : Position) (method : JsString) : M unit :=
  let* w := world in
  let fingerprint := getDeviceFingerprint (device w) in
  let* enrollment := read enrollmentInput value in
  match activeSessionDataStudent w with
  | None => throw TypeError
  | Some session =>
      let* response :=
        fetch (mkRequest (js "/api/mark_attendance") POST []
                 (FormBody (formData enrollment (session_id session) position method
                              fingerprint))) in
      let* result := response_json response in
      if success result then
        showStatusMessage (message result) (category result) >>
        assign attendanceForm (set_display (js "none")) >>
        detached (fetchPresentStudents (session_id session))
      else if jseq (category result) (js "retry_high_accuracy") then
        showStatusMessage (message result) (js "info") >>
        openModal wifiModal
      else
        showStatusMessage (message result) (category result) >>
        resetSubmitButton >>
        if includes (message result) (js "away") then
          assign "troubleshooting-tips" (set_display (js "block"))
        else ret tt
  end.

(** part_000:205-221 *)
Definition on_submit : M unit :=
  emit PreventDefault >>
  assign markButton (set_disabled true) >>
  assign spinner (set_display (js "inline-block")) >>
  assign_span_text markButton (js "Getting GPS Location...") >>
  assign "troubleshooting-tips" (set_display (js "none")) >>
  try_catch
    (let* gpsPosition := getBrowserGpsLocation in
     handleAttendanceSubmission gpsPosition (js "gps"))
    (fun gpsError =>
       emit (ConsoleWarn (js "Initial GPS failed:")) >>
       showStatusMessage (js "GPS failed. Please enable Wi-Fi for a more precise check.")
                         (js "info") >>
       openModal wifiModal).

(** part_000:223-234 *)
Definition on_retry_click : M unit :=
  closeModal wifiModal >>
  assign_span_text markButton (js "Getting Wi-Fi Location...") >>
  try_catch
    (let* googlePosition := getGoogleApiLocation in
     handleAttendanceSubmission googlePosition (js "google"))
    (fun googleError =>
       showStatusMessage (js "Advanced location check failed. Please check your connection.")
                         (js "error") >>
       assign "troubleshooting-tips" (set_display (js "block")) >>
       resetSubmitButton).

(** part_000:151 and 165: the listener is the debounced lookup. *)
Definition on_input : M unit := debounce EnrollmentLookup 250.

(** part_000:120-235 *)
Definition initStudentPage : M unit :=
  let* form := getElementById attendanceForm in
  match form with
  | None => ret tt
  | Some _ =>
      let* w := world in
      match activeSessionDataStudent w with
      | Some session =>
          if negb (session_id session =? 0)%Z then
            let sessionId := session_id session in
            startRobustTimer (end_time session) "timer-student" >>
            detached (fetchPresentStudents sessionId) >>
            let* _ := setInterval (PollPresentStudents sessionId) 10000 in
            ret tt
          else ret tt
      | None => ret tt
      end >>
      addEventListener enrollmentInput OnInput >>
      addEventListener attendanceForm OnSubmit >>
      addEventListener retryWithGoogleBtn OnRetryClick
  end.

(** What a timer runs when it fires; [self] is the timer's id. *)
Definition run_callback (self : nat) (cb : Callback) : M unit :=
  match cb with
  | HideStatus => assign "status-message" (set_display (js "none"))
  | PollPresentStudents sessionId => detached (fetchPresentStudents sessionId)
  | RobustTick endTime timerElement => robust_tick self endTime timerElement
  | EnrollmentLookup => detached enrollment_lookup
  end.

(** The timer [t] fires at [time]: a timeout is spent, an interval is
    scheduled again, then the callback runs. *)
Definition fire (w : World) (t : Timer) (time : Z) (p : Page) : Page :=
  let rest := remove_timer (timer_id t) (timers p) in
  let again :=
    match period t with
    | Some d => rest ++ [mkTimer (timer_id t) (time + d) (Some d) (callback t)]
    | None => rest
    end in
  exec (detached (run_callback (timer_id t) (callback t))) w
       (with_timers again (next_timer p) (with_now time p)).

(** The user edits the enrollment field. *)
Definition type_enrollment (v : JsString) : M unit :=
  assign enrollmentInput (set_value v) >> on_input.

(** One turn of the event loop of the student page. *)
Inductive step : Page -> Page -> Prop :=
  | step_input w v p :
      alive p -> In OnInput (listeners p) ->
      step p (exec (detached (type_enrollment v)) w p)
  | step_submit w p :
      alive p -> In OnSubmit (listeners p) ->
      step p (exec (detached on_submit) w p)
  | step_retry w p :
      alive p -> In OnRetryClick (listeners p) ->
      step p (exec (detached on_retry_click) w p)
  | step_close_modal w modal p :
      alive p -> is_Some (dom p !! modal) ->
      step p (exec (closeModal modal) w p)
  | step_timer w t time p :
      alive p -> In t (timers p) -> due t <= time -> now p <= time ->
      step p (fire w t time p).

Inductive steps : Page -> Page -> Prop :=
  | steps_refl p : steps p p
  | steps_cons p q r : steps p q -> step q r -> steps p r.

End TwoStep.

(* ===================================================================== *)
(** ** [src/static/main.js], lines 394-739: coarse position, then a watch *)
(* ===================================================================== *)

Module MainJsBrowser.
Import Js Browser.
Local Open Scope string_scope.
Local Open Scope list_scope.

Definition attendanceForm : string := "attendance-form".
Definition markButton : string := "mark-btn".
Definition enrollmentInput : string := "enrollment_no".

(** main.js:402-409 *)
Definition showStatusMessage (message type : JsString) : M unit :=
  let* statusDiv := getElementById "status-message" in
  match statusDiv with
  | None => ret tt
  | Some _ =>
      assign "status-message" (set_textContent message) >>
      assign "status-message" (set_className (js "status-message " ++ type)) >>
      assign "status-message" (set_display (js "block")) >>
      let* _ := setTimeout HideStatus 5000 in
      ret tt
  end.

(** The options of the two geolocation requests (main.js:433 and 428). *)
Definition low_accuracy_options : PositionOptions := mkOptions false (Some 5000) None.
Definition high_accuracy_options : PositionOptions := mkOptions true (Some 15000) (Some 0).

(** main.js:411-435.  The callbacks of a geolocation request run in a
    task of their own, so what they throw does not reach the caller. *)
Definition getAccurateLocation (successCallback : Position -> M unit)
    (errorCallback : JsString -> M unit) : M unit :=
  showStatusMessage (js "Getting location...") (js "info") >>
  let* w := world in
  if negb (geolocation (device w)) then throw TypeError
  else
    let* r := getCurrentPosition low_accuracy_options in
    detached
      match r with
      | GeoSuccess pos =>
          if Qlt_bool (accuracy (coords pos)) 150 then
            successCallback pos
          else
            showStatusMessage (js "Improving location accuracy...") (js "info") >>
            let* watch := watchPosition high_accuracy_options in
            let watchId := fst watch in
            match snd watch with
            | GeoSuccess highAccPos =>
                clearWatch watchId >>
                successCallback highAccPos
            | GeoError err =>
                clearWatch watchId >>
                errorCallback (js "Could not get an accurate location: " ++ error_message err)
            end
      | GeoError err =>
          errorCallback (js "Could not get location: " ++ error_message err)
      end.

(** main.js:506-511 *)
Definition formData (enrollment : JsString) (sessionId : Z) (position : Position)
  : list (string * FormValue) :=
  [ ("enrollment_no", FormText enrollment);
    ("session_id", FormInteger sessionId);
    ("latitude", FormNumber (latitude (coords position)));
    ("longitude", FormNumber (longitude (coords position))) ].

(** main.js:504-521, the success callback of the submit handler. *)
Definition submit_successCallback (position : Position) : M unit :=
  assign markButton (set_textContent (js "Submitting...")) >>
  let* enrollment := read enrollmentInput value in
  let* w := world in
  match activeSessionDataStudent w with
  | None => throw TypeError
  | Some session =>
      let* response :=
        fetch (mkRequest (js "/api/mark_attendance") POST []
                 (FormBody (formData enrollment (session_id session) position))) in
      let* result := response_json response in
      showStatusMessage (message result) (category result) >>
      if success result then
        assign attendanceForm (set_display (js "none"))
      else
        assign markButton (set_disabled false) >>
        assign markButton (set_textContent (js "Mark My Attendance"))
  end.

(** main.js:522-526, the error callback of the submit handler. *)
Definition submit_errorCallback (error : JsString) : M unit :=
  showStatusMessage error (js "error") >>
  assign markButton (set_disabled false) >>
  assign markButton (set_textContent (js "Mark My Attendance")).

(** main.js:499-528 *)
Definition on_submit : M unit :=
  emit PreventDefault >>
  assign markButton (set_disabled true) >>
  assign markButton (set_textContent (js "Verifying...")) >>
  getAccurateLocation submit_successCallback submit_errorCallback.

(** main.js:486-497, the function handed to [debounce]. *)
Definition enrollment_lookup : M unit :=
  let studentNameDisplay := "student-name-display" in
  let* v := read enrollmentInput value in
  let enrollmentNo := trim v in
  if (5 <=? jslength enrollmentNo)%Z then
    let* response :=
      fetch (mkRequest (js "/api/get_student_name/" ++ enrollmentNo) GET [] NoBody) in
    let* data := response_json response in
    let found := match name data with Some n => truthy_string n | None => false end in
    assign studentNameDisplay
      (set_textContent
         (match name data with
          | Some n => if truthy_string n then js "Name: " ++ n else js "Student not found."
          | None => js "Student not found."
          end)) >>
    assign studentNameDisplay
      (set_color (if found then js "var(--primary-blue)" else js "var(--danger-red)"))
  else
    assign studentNameDisplay (set_textContent []).

End MainJsBrowser.

(* ===================================================================== *)
(** ** [src/static/main.js], lines 1-393: the Google geolocation API only *)
(* ===================================================================== *)

Module MainJsGoogle.
Import Js Browser.
Local Open Scope string_scope.
Local Open Scope list_scope.

Definition attendanceForm : string := "attendance-form".
Definition markButton : string := "mark-btn".
Definition enrollmentInput : string := "enrollment_no".
Definition spinner : string := "button-spinner".

(** main.js:11-18 *)
Definition showStatusMessage (message type : JsString) : M unit :=
  let* statusDiv := getElementById "status-message" in
  match statusDiv with
  | None => ret tt
  | Some _ =>
      assign "status-message" (set_textContent message) >>
      assign "status-message" (set_className (js "status-message " ++ type)) >>
      assign "status-message" (set_display (js "block")) >>
      let* _ := setTimeout HideStatus 6000 in
      ret tt
  end.

(** main.js:25-63.  [data.location.lat] throws when the response has no
    location.  This revision never reads the accuracy it copies, so an
    absent [data.accuracy] is carried as 0. *)
Definition getAccurateLocation (successCallback : Position -> M unit)
    (errorCallback : JsString -> M unit) : M unit :=
  let* w := world in
  match GOOGLE_MAPS_API_KEY w with
  | None => errorCallback (js "Google Maps API key is missing.")
  | Some apiKey =>
      if negb (truthy_string apiKey) then
        errorCallback (js "Google Maps API key is missing.")
      else
        try_catch
          (let* response :=
             fetch (mkRequest
                      (js "https://www.googleapis.com/geolocation/v1/geolocate?key=" ++ apiKey)
                      POST [("Content-Type", "application/json")] (TextBody (js "{}"))) in
           let* data := response_json response in
           if response_ok response then
             match location data with
             | None => throw TypeError
             | Some (lat, lng) =>
                 let position :=
                   mkPosition (mkCoords lat lng
                                 (match data_accuracy data with Some a => a | None => 0%Q end)) in
                 emit (ConsoleLog (js "Location obtained from Google Maps API:")) >>
                 detached (successCallback position)
             end
           else
             let errorMessage :=
               match api_error_message data with
               | Some m => if truthy_string m then m
                           else js "An unknown error occurred with the Geolocation API."
               | None => js "An unknown error occurred with the Geolocation API."
               end in
             errorCallback errorMessage)
          (fun error =>
             errorCallback (js "A network error occurred. Check your internet connection."))
  end.

Definition present_students_url (sessionId : Z) : JsString :=
  js "/api/get_present_students/" ++ to_string sessionId.

(** main.js:113-128 *)
Definition fetchPresentStudents (sessionId : Z) : M unit :=
  let* presentListElement := getElementById "present-students-list" in
  match presentListElement with
  | None => ret tt
  | Some _ =>
      try_catch
        (let* response := fetch (mkRequest (present_students_url sessionId) GET [] NoBody) in
         let* data := response_json response in
         match students data with
         | Some l =>
             if success data then
               if (0 <? jslength_list l)%Z then
                 assign "present-students-list"
                   (set_innerHTML (join_empty (List.map (fun s => js "<li>" ++ s ++ js "</li>") l)))
               else
                 assign "present-students-list"
                   (set_innerHTML (js "<li>No one has marked attendance yet.</li>"))
             else ret tt
         | None => ret tt
         end)
        (fun error => emit (ConsoleError (js "Could not fetch present students:")))
  end.

(** main.js:141-152, the function handed to [debounce]. *)
Definition enrollment_lookup : M unit :=
  let studentNameDisplay := "student-name-display" in
  let* v := read enrollmentInput value in
  let enrollmentNo := trim v in
  if (5 <=? jslength enrollmentNo)%Z then
    let* response :=
      fetch (mkRequest (js "/api/get_student_name/" ++ enrollmentNo) GET [] NoBody) in
    let* data := response_json response in
    let found := match name data with Some n => truthy_string n | None => false end in
    assign studentNameDisplay
      (set_textContent
         (match name data with
          | Some n => if truthy_string n then js "Name: " ++ n else js "Student not found."
          | None => js "Student not found."
          end)) >>
    assign studentNameDisplay
      (set_color (if found then js "var(--primary-blue)" else js "var(--danger-red)"))
  else
    assign studentNameDisplay (set_textContent []).

(** main.js:164-169 *)
Definition formData (enrollment : JsString) (sessionId : Z) (position : Position)
  : list (string * FormValue) :=
  [ ("enrollment_no", FormText enrollment);
    ("session_id", FormInteger sessionId);
    ("latitude", FormNumber (latitude (coords position)));
    ("longitude", FormNumber (longitude (coords position))) ].

(** main.js:162-185, the success callback of the submit handler. *)
Definition submit_successCallback (position : Position) : M unit :=
  assign_span_text markButton (js "Submitting...") >>
  let* enrollment := read enrollmentInput value in
  let* w := world in
  match activeSessionDataStudent w with
  | None => throw TypeError
  | Some session =>
      let* response :=
        fetch (mkRequest (js "/api/mark_attendance") POST []
                 (FormBody (formData enrollment (session_id session) position))) in
      let* result := response_json response in
      showStatusMessage (message result) (category result) >>
      if success result then
        assign attendanceForm (set_display (js "none")) >>
        detached (fetchPresentStudents (session_id session))
      else
        assign markButton (set_disabled false) >>
        assign spinner (set_display (js "none")) >>
        assign_span_text markButton (js "Mark My Attendance") >>
        if includes (message result) (js "away") then
          assign "troubleshooting-tips" (set_display (js "block"))
        else ret tt
  end.

(** main.js:186-192, the error callback of the submit handler. *)
Definition submit_errorCallback (error : JsString) : M unit :=
  showStatusMessage error (js "error") >>
  assign markButton (set_disabled false) >>
  assign spinner (set_display (js "none")) >>
  assign_span_text markButton (js "Mark My Attendance") >>
  assign "troubleshooting-tips" (set_display (js "block")).

(** main.js:154-194 *)
Definition on_submit : M unit :=
  emit PreventDefault >>
  assign markButton (set_disabled true) >>
  assign spinner (set_display (js "inline-block")) >>
  assign_span_text markButton (js "Getting Location...") >>
  assign "troubleshooting-tips" (set_display (js "none")) >>
  detached (getAccurateLocation submit_successCallback submit_errorCallback).

End MainJsGoogle.

(* ===================================================================== *)
(** ** [src/static/main.js], lines 739-973: the PostgreSQL schema *)
(* ===================================================================== *)

Module Schema.
Import Js.

(** A nullable column is an [option]; a [NOT NULL] column is not.  The
    tables [students] and [attendance_sessions] are represented by their
    primary keys, which is all the two tables below refer to. *)

(** main.js:789-798 *)
Record attendance_record : Type := mkRecord {
  record_id : Z;
  record_session_id : option Z;
  record_student_id : option Z;
  record_timestamp : Z;
  record_latitude : option Q;
  record_longitude : option Q;
  record_ip_address : option JsString
}.

(** main.js:801-808 *)
Record device_fingerprint : Type := mkFingerprint {
  fp_id : Z;
  fp_session_id : option Z;
  fp_student_id : option Z;
  fp_fingerprint : JsString
}.

Record Database : Type := mkDatabase {
  students : list Z;
  attendance_sessions : list Z;
  attendance_records : list attendance_record;
  session_device_fingerprints : list device_fingerprint;
  attendance_records_id_seq : Z;
  session_device_fingerprints_id_seq : Z
}.

Inductive SqlError : Type :=
  | unique_violation
  | foreign_key_violation.

(** The outcome of a statement.  A failed statement changes no table;
    the database it leaves differs at most in a sequence, which a failed
    [INSERT] has already advanced. *)
Inductive SqlResult : Type :=
  | Done (db : Database)
  | Failed (e : SqlError) (db : Database).

Definition mem (x : Z) (l : list Z) : bool := List.existsb (Z.eqb x) l.

(** [REFERENCES t(id)]: a null reference is accepted. *)
Definition references (key : option Z) (keys : list Z) : bool :=
  match key with
  | Some k => mem k keys
  | None => true
  end.

(** Equality of two column values under a [UNIQUE] constraint: a null is
    distinct from everything, itself included. *)
Definition same_key (a b : option Z) : bool :=
  match a, b with
  | Some x, Some y => x =? y
  | _, _ => false
  end.

Definition same_text (a b : JsString) : bool := bool_decide (a = b).

(** [UNIQUE (session_id, student_id)] of [attendance_records]. *)
Definition record_conflict (r r' : attendance_record) : bool :=
  same_key (record_session_id r) (record_session_id r')
  && same_key (record_student_id r) (record_student_id r').

(** [UNIQUE (session_id, student_id)] of [session_device_fingerprints]. *)
Definition fp_student_conflict (r r' : device_fingerprint) : bool :=
  same_key (fp_session_id r) (fp_session_id r')
  && same_key (fp_student_id r) (fp_student_id r').

(** [UNIQUE (session_id, fingerprint)]. *)
Definition fp_device_conflict (r r' : device_fingerprint) : bool :=
  same_key (fp_session_id r) (fp_session_id r')
  && same_text (fp_fingerprint r) (fp_fingerprint r').

Definition with_records (l : list attendance_record) (seq : Z) (db : Database) : Database :=
  mkDatabase (students db) (attendance_sessions db) l (session_device_fingerprints db)
             seq (session_device_fingerprints_id_seq db).

Definition with_fingerprints (l : list device_fingerprint) (seq : Z) (db : Database)
  : Database :=
  mkDatabase (students db) (attendance_sessions db) (attendance_records db) l
             (attendance_records_id_seq db) seq.

(** [INSERT INTO attendance_records (session_id, student_id, timestamp,
    latitude, longitude, ip_address) VALUES (...)]; [id] is the next value
    of the sequence. *)
Definition insert_attendance_record (session student : option Z) (timestamp : Z)
    (lat lon : option Q) (ip : option JsString) (db : Database) : SqlResult :=
  let row := mkRecord (attendance_records_id_seq db) session student timestamp lat lon ip in
  let seq := attendance_records_id_seq db + 1 in
  if List.existsb (fun r => record_id r =? record_id row) (attendance_records db)
     || List.existsb (record_conflict row) (attendance_records db)
  then Failed unique_violation (with_records (attendance_records db) seq db)
  else if references session (attendance_sessions db) && references student (students db)
  then Done (with_records (attendance_records db ++ [row]) seq db)
  else Failed foreign_key_violation (with_records (attendance_records db) seq db).

(** [INSERT INTO session_device_fingerprints (session_id, student_id,
    fingerprint) VALUES (...)]. *)
Definition insert_device_fingerprint (session student : option Z) (fingerprint : JsString)
    (db : Database) : SqlResult :=
  let row := mkFingerprint (session_device_fingerprints_id_seq db) session student fingerprint in
  let seq := session_device_fingerprints_id_seq db + 1 in
  if List.existsb (fun r => fp_id r =? fp_id row) (session_device_fingerprints db)
     || List.existsb (fp_student_conflict row) (session_device_fingerprints db)
     || List.existsb (fp_device_conflict row) (session_device_fingerprints db)
  then Failed unique_violation (with_fingerprints (session_device_fingerprints db) seq db)
  else if references session (attendance_sessions db) && references student (students db)
  then Done (with_fingerprints (session_device_fingerprints db ++ [row]) seq db)
  else Failed foreign_key_violation
              (with_fingerprints (session_device_fingerprints db) seq db).

(** [UPDATE attendance_records SET session_id = .., student_id = ..
    WHERE id = ..]: the other rows are checked against the new values. *)
Definition update_attendance_record (id : Z) (session student : option Z) (db : Database)
  : SqlResult :=
  let others := List.filter (fun r => negb (record_id r =? id)) (attendance_records db) in
  let updated :=
    List.map (fun r => mkRecord (record_id r) session student (record_timestamp r)
                         (record_latitude r) (record_longitude r) (record_ip_address r))
             (List.filter (fun r => record_id r =? id) (attendance_records db)) in
  match updated with
  | [] => Done db
  | row :: more =>
      if List.existsb (record_conflict row) (others ++ more)
      then Failed unique_violation db
      else if references session (attendance_sessions db) && references student (students db)
      then Done (with_records (others ++ updated) (attendance_records_id_seq db) db)
      else Failed foreign_key_violation db
  end.

(** [UPDATE session_device_fingerprints SET session_id = .., student_id =
    .., fingerprint = .. WHERE id = ..]. *)
Definition update_device_fingerprint (id : Z) (session student : option Z)
    (fingerprint : JsString) (db : Database) : SqlResult :=
  let others := List.filter (fun r => negb (fp_id r =? id)) (session_device_fingerprints db) in
  let updated :=
    List.map (fun r => mkFingerprint (fp_id r) session student fingerprint)
             (List.filter (fun r => fp_id r =? id) (session_device_fingerprints db)) in
  match updated with
  | [] => Done db
  | row :: more =>
      if List.existsb (fp_student_conflict row) (others ++ more)
         || List.existsb (fp_device_conflict row) (others ++ more)
      then Failed unique_violation db
      else if references session (attendance_sessions db) && references student (students db)
      then Done (with_fingerprints (others ++ updated)
                                   (session_device_fingerprints_id_seq db) db)
      else Failed foreign_key_violation db
  end.

(** [DELETE FROM attendance_records WHERE id = ..]. *)
Definition delete_attendance_record (id : Z) (db : Database) : SqlResult :=
  Done (with_records (List.filter (fun r => negb (record_id r =? id)) (attendance_records db))
                     (attendance_records_id_seq db) db).

(** [DELETE FROM session_device_fingerprints WHERE id = ..]. *)
Definition delete_device_fingerprint (id : Z) (db : Database) : SqlResult :=
  Done (with_fingerprints
          (List.filter (fun r => negb (fp_id r =? id)) (session_device_fingerprints db))
          (session_device_fingerprints_id_seq db) db).

(** A new row of [attendance_sessions] or [students], by its key. *)
Definition insert_session (id : Z) (db : Database) : SqlResult :=
  if mem id (attendance_sessions db) then Failed unique_violation db
  else Done (mkDatabase (students db) (id :: attendance_sessions db) (attendance_records db)
                        (session_device_fingerprints db) (attendance_records_id_seq db)
                        (session_device_fingerprints_id_seq db)).

Definition insert_student (id : Z) (db : Database) : SqlResult :=
  if mem id (students db) then Failed unique_violation db
  else Done (mkDatabase (id :: students db) (attendance_sessions db) (attendance_records db)
                        (session_device_fingerprints db) (attendance_records_id_seq db)
                        (session_device_fingerprints_id_seq db)).

(** [DELETE FROM attendance_sessions WHERE id = ..]: both tables refer to
    the session [ON DELETE CASCADE]. *)
Definition delete_session (id : Z) (db : Database) : SqlResult :=
  Done (mkDatabase (students db)
          (List.filter (fun k => negb (k =? id)) (attendance_sessions db))
          (List.filter (fun r => negb (same_key (record_session_id r) (Some id)))
                       (attendance_records db))
          (List.filter (fun r => negb (same_key (fp_session_id r) (Some id)))
                       (session_device_fingerprints db))
          (attendance_records_id_seq db) (session_device_fingerprints_id_seq db)).

(** [DELETE FROM students WHERE id = ..]: fingerprints cascade, an
    attendance record that refers to the student blocks the delete. *)
Definition delete_student (id : Z) (db : Database) : SqlResult :=
  if List.existsb (fun r => same_key (record_student_id r) (Some id)) (attendance_records db)
  then Failed foreign_key_violation db
  else Done (mkDatabase
          (List.filter (fun k => negb (k =? id)) (students db))
          (attendance_sessions db) (attendance_records db)
          (List.filter (fun r => negb (same_key (fp_student_id r) (Some id)))
                       (session_device_fingerprints db))
          (attendance_records_id_seq db) (session_device_fingerprints_id_seq db)).

Inductive Statement : Type :=
  | InsertRecord (session student : option Z) (timestamp : Z) (lat lon : option Q)
                 (ip : option JsString)
  | UpdateRecord (id : Z) (session student : option Z)
  | DeleteRecord (id : Z)
  | InsertFingerprint (session student : option Z) (fingerprint : JsString)
  | UpdateFingerprint (id : Z) (session student : option Z) (fingerprint : JsString)
  | DeleteFingerprint (id : Z)
  | InsertSession (id : Z)
  | InsertStudent (id : Z)
  | DeleteSession (id : Z)
  | DeleteStudent (id : Z).

Definition execute (st : Statement) (db : Database) : SqlResult :=
  match st with
  | InsertRecord s t ts la lo ip => insert_attendance_record s t ts la lo ip db
  | UpdateRecord id s t => update_attendance_record id s t db
  | DeleteRecord id => delete_attendance_record id db
  | InsertFingerprint s t f => insert_device_fingerprint s t f db
  | UpdateFingerprint id s t f => update_device_fingerprint id s t f db
  | DeleteFingerprint id => delete_device_fingerprint id db
  | InsertSession id => insert_session id db
  | InsertStudent id => insert_student id db
  | DeleteSession id => delete_session id db
  | DeleteStudent id => delete_student id db
  end.

(** The database a statement leaves behind. *)
Definition apply (db : Database) (st : Statement) : Database :=
  match execute st db with
  | Done db' => db'
  | Failed _ db' => db'
  end.

Definition failed (r : SqlResult) : option SqlError :=
  match r with
  | Done _ => None
  | Failed e _ => Some e
  end.

Definition run (sts : list Statement) (db : Database) : Database :=
  List.fold_left apply sts db.

(** The tables right after the [CREATE TABLE] statements. *)
Definition created : Database := mkDatabase [] [] [] [] 1 1.

(** The rows of [attendance_records] for a session and a student. *)
Definition records_of (session student : Z) (db : Database) : list attendance_record :=
  List.filter (fun r => same_key (record_session_id r) (Some session)
                        && same_key (record_student_id r) (Some student))
              (attendance_records db).

(** The rows of [session_device_fingerprints] for a session and a student,
    and for a session and a fingerprint. *)
Definition fingerprints_of_student (session student : Z) (db : Database)
  : list device_fingerprint :=
  List.filter (fun r => same_key (fp_session_id r) (Some session)
                        && same_key (fp_student_id r) (Some student))
              (session_device_fingerprints db).

Definition fingerprints_of_device (session : Z) (fingerprint : JsString) (db : Database)
  : list device_fingerprint :=
  List.filter (fun r => same_key (fp_session_id r) (Some session)
                        && same_text (fp_fingerprint r) fingerprint)
              (session_device_fingerprints db).

End Schema.

(* ===================================================================== *)
(** ** Vocabulary of the properties *)
(* ===================================================================== *)

(** *** What a piece of script may change *)

Module Logic.
Import Js Browser.
Local Open Scope string_scope.
Local Open Scope list_scope.

(** The page has an element with this id. *)
Definition has (p : Page) (id : string) : Prop := is_Some (dom p !! id).

(** A page as the browser hands it to the script: nothing scheduled,
    nothing registered. *)
Definition fresh (p : Page) : Prop :=
  timers p = [] /\ listeners p = [] /\ lookup_timeout p = None.

(** The platform calls made between two pages. *)
Definition since (p q : Page) : list Effect := List.skipn (length (log p)) (log q).

(** [q] is [p] after script that only writes to the elements named in [F],
    appends to the log and adds timers. *)
Record extends (F : list string) (p q : Page) : Prop := mkExtends {
  ext_same : forall id, ~ In id F -> dom q !! id = dom p !! id;
  ext_keys : forall id, is_Some (dom q !! id) <-> is_Some (dom p !! id);
  ext_log : exists l, log q = log p ++ l;
  ext_timers : exists ts, timers q = timers p ++ ts
                 /\ Forall (fun t => (next_timer p <= timer_id t < next_timer q)%nat) ts;
  ext_next : (next_timer p <= next_timer q)%nat;
  ext_lookup : lookup_timeout q = lookup_timeout p;
  ext_listeners : listeners q = listeners p;
  ext_now : now q = now p
}.

Definition frames {A} (F : list string) (m : M A) : Prop :=
  forall w p, extends F p (exec m w p).

(** Script that keeps an invariant of the page, whatever the world. *)
Definition keeps {A} (I : Page -> Prop) (m : M A) : Prop :=
  forall w p, I p -> I (exec m w p).

Definition is_ok {A} (r : Result A) : Prop :=
  match r with Ok _ => True | Throw _ => False end.

Definition is_fetch (e : Effect) : bool :=
  match e with Fetch _ => true | _ => false end.

Definition is_geolocation_request (e : Effect) : bool :=
  match e with
  | GetCurrentPosition _ | WatchPosition _ _ => true
  | _ => false
  end.

(** A [fetch] of a URL that starts with [prefix]. *)
Definition is_request_to (prefix : JsString) (e : Effect) : bool :=
  match e with
  | Fetch r => starts_with prefix (url r)
  | _ => false
  end.

Definition mark_attendance_url : JsString := js "/api/mark_attendance".
Definition google_api_url : JsString := js "https://www.googleapis.com/geolocation/".

(** The platform calls that are counted. *)
Inductive Kind : Type := Geolocation | MarkAttendance | GoogleApi.

Definition counts (k : Kind) (e : Effect) : bool :=
  match k with
  | Geolocation => is_geolocation_request e
  | MarkAttendance => is_request_to mark_attendance_url e
  | GoogleApi => is_request_to google_api_url e
  end.

(** Script that makes at most [n] platform calls of the kind [wt]. *)
Definition costs {A} (wt : Effect -> bool) (n : nat) (m : M A) : Prop :=
  forall w p, exists l, log (exec m w p) = log p ++ l
                        /\ (length (List.filter wt l) <= n)%nat.

(** A status message is on screen, and a timeout is set to hide it at
    [hide_at]. *)
Definition shown (msg type : JsString) (hide_at : Z) (q : Page) : Prop :=
  exists e id, dom q !! "status-message" = Some e
    /\ textContent e = msg /\ className e = js "status-message " ++ type
    /\ style_display e = js "block"
    /\ In (mkTimer id hide_at None HideStatus) (timers q).

End Logic.

(** *** The student page of part_000 *)

Module StudentPage.
Import Js Browser Logic.
Local Open Scope string_scope.
Local Open Scope list_scope.

(** The elements the handlers of the student page use, the status line
    apart. *)
Definition page_ids : list string :=
  ["mark-btn"; "mark-btn span"; "button-spinner"; "wifi-prompt-modal";
   "troubleshooting-tips"; "attendance-form"; "present-students-list";
   "student-name-display"; "enrollment_no"; "retry-with-google-btn"; "timer-student"].

Definition student_ids : list string := "status-message" :: page_ids.

(** A page that has every element the script looks up. *)
Definition student_page (p : Page) : Prop := Forall (has p) student_ids.

(** Script that cannot throw on a complete student page. *)
Definition safe {A} (m : M A) : Prop :=
  forall w p, student_page p -> is_ok (outcome m w p).

(** Script that, when it completes, leaves a status message on screen
    which a timer hides 6 seconds later. *)
Definition shows {A} (m : M A) : Prop :=
  forall w p, student_page p -> is_ok (outcome m w p) ->
    exists msg type, shown msg type (now p + 6000) (exec m w p).

Definition present_students_request (sessionId : Z) : Request :=
  mkRequest (TwoStep.present_students_url sessionId) GET [] NoBody.

(** The interval with id [k] polls the present-students list of session
    [sessionId] every 10 seconds. *)
Record polling (k : nat) (sessionId : Z) (p : Page) : Prop := mkPolling {
  poll_list : is_Some (dom p !! "present-students-list");
  poll_timer : exists d, In (mkTimer k d (Some 10000) (PollPresentStudents sessionId)) (timers p);
  poll_fresh : (k < next_timer p)%nat;
  poll_only : forall t, In t (timers p) -> timer_id t = k ->
                callback t = PollPresentStudents sessionId /\ period t = Some 10000;
  poll_lookup : lookup_timeout p <> Some k
}.

Definition gps_options : PositionOptions := mkOptions true (Some 8000) (Some 0).

(** The first location request of part_000 fails: no geolocation at all,
    or an error (permission denied, position unavailable, timeout). *)
Definition gps_fails (w : World) : Prop :=
  geolocation (device w) = false \/ exists err, geo_current w gps_options = GeoError err.

Definition gps_failed_message : JsString :=
  js "GPS failed. Please enable Wi-Fi for a more precise check.".

(** The Google location attempt of part_000 fails. *)
Definition google_fails (w : World) : Prop :=
  forall p, exists e, outcome TwoStep.getGoogleApiLocation w p = Throw e.

Definition google_failed_message : JsString :=
  js "Advanced location check failed. Please check your connection.".

(** The two location attempts of part_000 give a position. *)
Definition gps_finds (w : World) (position : Position) : Prop :=
  geolocation (device w) = true /\ geo_current w gps_options = GeoSuccess position.

Definition google_finds (w : World) (position : Position) : Prop :=
  forall p, outcome TwoStep.getGoogleApiLocation w p = Ok position.

(** The form post of [handleAttendanceSubmission], field by field. *)
Definition mark_attendance_request (w : World) (enrollment : JsString) (sessionId : Z)
    (position : Position) (method : JsString) : Request :=
  mkRequest (js "/api/mark_attendance") POST []
    (FormBody
       [ ("enrollment_no", FormText enrollment);
         ("session_id", FormInteger sessionId);
         ("latitude", FormNumber (latitude (coords position)));
         ("longitude", FormNumber (longitude (coords position)));
         ("location_method", FormText method);
         ("fingerprint", FormText (TwoStep.getDeviceFingerprint (device w))) ]).

Definition student_name_request (enrollmentNo : JsString) : Request :=
  mkRequest (js "/api/get_student_name/" ++ enrollmentNo) GET [] NoBody.

(** The three revisions of the debounced lookup. *)
Definition lookups_of_all_revisions : list (M unit) :=
  [TwoStep.enrollment_lookup; MainJsBrowser.enrollment_lookup; MainJsGoogle.enrollment_lookup].

End StudentPage.

(** *** The fingerprint *)

Module Fingerprint.
Import Js Browser.

(** A lowercase hexadecimal digit, [0-9a-f]. *)
Definition is_lower_hex (c : Z) : bool :=
  ((48 <=? c) && (c <=? 57)) || ((97 <=? c) && (c <=? 102)).

(** Two devices that report the same seven properties. *)
Definition same_environment (d d' : Device) : Prop :=
  userAgent d = userAgent d' /\ screen_width d = screen_width d'
  /\ screen_height d = screen_height d' /\ colorDepth d = colorDepth d'
  /\ timezoneOffset d = timezoneOffset d' /\ language d = language d'
  /\ platform d = platform d'.

(** A string literal between double quotes. *)
Definition quoted (s : string) : JsString := 34 :: js s ++ [34].

Definition hex_byte_good (b : Z) : bool :=
  match TwoStep.hex_byte b with
  | [h; l] => is_lower_hex h && is_lower_hex l
  | _ => false
  end.

End Fingerprint.

(** *** The constraints of the schema *)

Module Constraints.
Import Js Schema.

(** A [UNIQUE] constraint: [matches k] selects the rows with key [k]. *)
Definition unique {Row Key : Type} (matches : Key -> Row -> bool) (l : list Row) : Prop :=
  forall k, (length (List.filter (matches k) l) <= 1)%nat.

(** The three constraints, by the key they are on. *)
Definition record_matches (k : Z * Z) (r : attendance_record) : bool :=
  same_key (record_session_id r) (Some (fst k))
  && same_key (record_student_id r) (Some (snd k)).

Definition fp_student_matches (k : Z * Z) (r : device_fingerprint) : bool :=
  same_key (fp_session_id r) (Some (fst k))
  && same_key (fp_student_id r) (Some (snd k)).

Definition fp_device_matches (k : Z * JsString) (r : device_fingerprint) : bool :=
  same_key (fp_session_id r) (Some (fst k))
  && same_text (fp_fingerprint r) (snd k).

(** The invariant of the store: every constraint holds. *)
Definition consistent (db : Database) : Prop :=
  unique record_matches (attendance_records db)
  /\ unique fp_student_matches (session_device_fingerprints db)
  /\ unique fp_device_matches (session_device_fingerprints db).

End Constraints.

(** *** Concrete pages and worlds *)

Module Samples.
Import Js Browser StudentPage.
Local Open Scope string_scope.
Local Open Scope list_scope.

Definition blank : Element := mkElement [] [] [] [] false (parse_fragment []) [].

(** A student page with every element, all of them blank, and the
    enrollment number typed in. *)
Definition student_dom : gmap string Element :=
  <["enrollment_no" := set_value (js "Y24120001") blank]>
    (list_to_map (List.map (fun id => (id, blank)) student_ids)).

Definition page0 : Page := mkPage student_dom false [] 0 0 0 [] [] None.

Definition sample_device : Device :=
  mkDevice (js "Mozilla/5.0 (X11; Linux x86_64)") 1920 1080 24 (-330) (js "en-US")
           (js "Linux x86_64") true.

(** The same environment on a device without geolocation. *)
Definition sample_device_no_geolocation : Device :=
  mkDevice (js "Mozilla/5.0 (X11; Linux x86_64)") 1920 1080 24 (-330) (js "en-US")
           (js "Linux x86_64") false.

Definition session7 : SessionData := mkSession 7 (js "2025-01-01T10:00:00Z").

Definition denied : PositionError := mkPositionError PERMISSION_DENIED (js "User denied Geolocation").

Definition here (acc : Q) : Position := mkPosition (mkCoords (23 # 1) (78 # 1) acc).

(** No network, and the user has denied geolocation. *)
Definition offline_denied : World :=
  mkWorld sample_device None (Some session7)
          (fun _ => GeoError denied) (fun _ => GeoError denied)
          (fun _ => NetworkError) (fun _ => None).

Definition accepted : Payload :=
  mkPayload true (Some [js "ANSHUL TAMRAKAR"]) None (js "Attendance marked.") (js "success")
            None None None.

Definition rejected : Payload :=
  mkPayload false None None (js "You are too far away.") (js "error") None None None.

(** The browser reports a position of the given accuracy, and the server
    answers every request with [reply]. *)
Definition online (acc : Q) (reply : Payload) : World :=
  mkWorld sample_device None (Some session7)
          (fun _ => GeoSuccess (here acc)) (fun _ => GeoSuccess (here 10))
          (fun _ => Response true 200 (Some reply)) (fun _ => None).

End Samples.

(* ===================================================================== *)
(** ** [src/unnamed/part_000], lines 237-406: dashboard and report page *)
(* ===================================================================== *)

Module Controller.
Import Js Browser.
Local Open Scope string_scope.
Local Open Scope list_scope.

(** The handles of [initControllerDashboard] (part_000:238-240) and of
    [initReportPage] (part_000:303-307); [endButton] is found by its class. *)
Definition startButton : string := "start-session-btn".
Definition endButton : string := ".end-session-btn".
Definition deleteModal : string := "confirm-delete-modal".
Definition confirmDeleteBtn : string := "confirm-delete-btn".
Definition deleteDateDisplay : string := "modal-delete-date-display".

(** part_000:247-266, the click handler of the start button. *)
Definition on_start_click : M unit :=
  assign startButton (set_disabled true) >>
  assign startButton (set_textContent (js "Starting Session...")) >>
  let* response :=
    fetch (mkRequest (js "/api/start_session") POST
             [("Content-Type", "application/json")] (TextBody (json_stringify []))) in
  let* result := response_json response in
  if success result then reload
  else
    TwoStep.showStatusMessage (message result) (js "error") >>
    assign startButton (set_disabled false) >>
    assign startButton (set_textContent (js "Start New Session")).

(** part_000:270-274, the click handler of the end button; [sessionId] is
    the text of its [data-session-id]. *)
Definition on_end_click (sessionId : JsString) : M unit :=
  assign endButton (set_disabled true) >>
  let* _ := fetch (mkRequest (js "/api/end_session/" ++ sessionId) POST [] NoBody) in
  reload.

(** [row.remove()] on the element with this id. *)
Definition remove (id : string) : M unit :=
  modify (fun p => with_dom (delete id (dom p)) p).

(** The report page: the document and the variable [dateToDelete] of
    [initReportPage] (part_000:308).  A date is the text of a [data-date]
    attribute, which the server writes in ASCII. *)
Record Report : Type := mkReport {
  document : Page;
  dateToDelete : option string
}.

(** A handler of the report page: script on the document, under the
    variable as it stands. *)
Definition on_document (m : option string -> M unit) (w : World) (s : Report)
  : Result unit * Report :=
  let r := m (dateToDelete s) w (document s) in
  (fst r, mkReport (snd r) (dateToDelete s)).

(** part_000:311-315, the click handler of a delete-day button; [date] is
    its [data-date], [None] when the clicked element has none. *)
Definition on_delete_click (date : option string) (w : World) (s : Report)
  : Result unit * Report :=
  on_document
    (fun dateToDelete =>
       assign deleteDateDisplay
         (set_textContent (match dateToDelete with Some d => js d | None => [] end)) >>
       TwoStep.openModal deleteModal)
    w (mkReport (document s) date).

(** part_000:319-331, the click handler of the confirm button. *)
Definition confirm_delete (dateToDelete : option string) : M unit :=
  match dateToDelete with
  | None => ret tt
  | Some EmptyString => ret tt
  | Some date =>
      assign confirmDeleteBtn (set_disabled true) >>
      let* response :=
        fetch (mkRequest (js "/api/delete_day/" ++ js date) DELETE [] NoBody) in
      let* result := response_json response in
      TwoStep.showStatusMessage (message result)
        (if success result then js "success" else js "error") >>
      (if success result then
         let* row := getElementById ("row-" ++ date) in
         match row with
         | Some _ => remove ("row-" ++ date)
         | None => ret tt
         end
       else ret tt) >>
      TwoStep.closeModal deleteModal >>
      assign confirmDeleteBtn (set_disabled false)
  end.

Definition on_confirm_click : World -> Report -> Result unit * Report :=
  on_document confirm_delete.

End Controller.

(* ===================================================================== *)
(** ** [src/static/main.js], lines 257-298: the report page *)
(* ===================================================================== *)

Module MainJsReport.
Import Js Browser.
Local Open Scope string_scope.
Local Open Scope list_scope.

(** main.js:379-384 *)
Definition closeModal (modalElement : string) : M unit :=
  let* el := getElementById modalElement in
  match el with
  | Some _ =>
      assign modalElement (set_display (js "none")) >>
      modify (with_modal_open false)
  | None => ret tt
  end.

(** main.js:285-296, the click handler of the confirm button: the row is
    removed without a test that it exists. *)
Definition confirm_delete (dateToDelete : option string) : M unit :=
  match dateToDelete with
  | None => ret tt
  | Some EmptyString => ret tt
  | Some date =>
      assign Controller.confirmDeleteBtn (set_disabled true) >>
      let* response :=
        fetch (mkRequest (js "/api/delete_day/" ++ js date) DELETE [] NoBody) in
      let* result := response_json response in
      MainJsGoogle.showStatusMessage (message result)
        (if success result then js "success" else js "error") >>
      (if success result then
         read ("row-" ++ date) (fun _ => tt) >>
         Controller.remove ("row-" ++ date)
       else ret tt) >>
      closeModal Controller.deleteModal >>
      assign Controller.confirmDeleteBtn (set_disabled false)
  end.

End MainJsReport.

(** *** Vocabulary of the further properties *)

Module Properties.
Import Js Browser Logic StudentPage.
Local Open Scope string_scope.
Local Open Scope list_scope.

(** The request of [getGoogleApiLocation] (part_000:72-73). *)
Definition google_request (key : JsString) : Request :=
  mkRequest (js "https://www.googleapis.com/geolocation/v1/geolocate?key=" ++ key) POST
            [("Content-Type", "application/json")] NoBody.

(** The page was given a key for the Google API, and not the placeholder. *)
Definition usable_key (w : World) (key : JsString) : Prop :=
  GOOGLE_MAPS_API_KEY w = Some key /\ key <> [] /\ key <> js "YOUR_GOOGLE_MAPS_API_KEY".

(** A decimal digit, and the number two of them denote. *)
Definition is_digit (c : Z) : bool := ((48 <=? c) && (c <=? 57))%Z.
Definition two_digits (a b : Z) : Z := 10 * (a - 48) + (b - 48).

(** A pending call of the debounced lookup. *)
Definition is_lookup (t : Timer) : bool :=
  match callback t with EnrollmentLookup => true | _ => false end.

(** The [timeout] variable of [debounce] holds the pending lookup, and
    there is at most one. *)
Record debounced (p : Page) : Prop := mkDebounced {
  deb_current : forall t, In t (timers p) -> is_lookup t = true ->
                  lookup_timeout p = Some (timer_id t);
  deb_fresh : forall t, In t (timers p) -> (timer_id t < next_timer p)%nat;
  deb_one : (length (List.filter is_lookup (timers p)) <= 1)%nat
}.

(** The form post of the two revisions of main.js (main.js:164-170 and
    506-512): no location method, no fingerprint. *)
Definition plain_mark_request (enrollment : JsString) (sessionId : Z) (position : Position)
  : Request :=
  mkRequest (js "/api/mark_attendance") POST []
            (FormBody (MainJsBrowser.formData enrollment sessionId position)).

(** The request of [getAccurateLocation] in main.js:33-39. *)
Definition google_only_request (apiKey : JsString) : Request :=
  mkRequest (js "https://www.googleapis.com/geolocation/v1/geolocate?key=" ++ apiKey) POST
            [("Content-Type", "application/json")] (TextBody (js "{}")).

(** The requests of the dashboard and of the report page. *)
Definition start_session_request : Request :=
  mkRequest (js "/api/start_session") POST [("Content-Type", "application/json")]
            (TextBody (json_stringify [])).

Definition end_session_request (sessionId : JsString) : Request :=
  mkRequest (js "/api/end_session/" ++ sessionId) POST [] NoBody.

Definition delete_day_request (date : string) : Request :=
  mkRequest (js "/api/delete_day/" ++ js date) DELETE [] NoBody.

(** The server answered, with JSON or not; or the request failed. *)
Definition answered (r : FetchResult) : Prop :=
  match r with Response _ _ _ => True | NetworkError => False end.

Definition no_json (r : FetchResult) : Prop :=
  match r with Response _ _ (Some _) => False | _ => True end.

End Properties.

(** *** Further invariants of the schema *)

Module Integrity.
Import Js Schema.

(** The foreign keys: a reference that is not null names an existing row. *)
Definition referenced (db : Database) : Prop :=
  (forall r, In r (attendance_records db) ->
     references (record_session_id r) (attendance_sessions db) = true
     /\ references (record_student_id r) (students db) = true)
  /\ (forall r, In r (session_device_fingerprints db) ->
       references (fp_session_id r) (attendance_sessions db) = true
       /\ references (fp_student_id r) (students db) = true).

(** The serial keys: every id was drawn from its sequence. *)
Definition ids_below (db : Database) : Prop :=
  (forall r, In r (attendance_records db) -> record_id r < attendance_records_id_seq db)
  /\ (forall r, In r (session_device_fingerprints db) ->
       fp_id r < session_device_fingerprints_id_seq db).

End Integrity.

(** *** Further worlds *)

Module MoreSamples.
Import Js Browser Samples Properties.
Local Open Scope string_scope.
Local Open Scope list_scope.

(** The browser finds the position, the network is down. *)
Definition position_without_network : World :=
  mkWorld sample_device None (Some session7)
          (fun _ => GeoSuccess (here 10)) (fun _ => GeoSuccess (here 10))
          (fun _ => NetworkError) (fun _ => None).

Definition google_answer : Payload :=
  mkPayload false None None [] [] (Some (23 # 1, 78 # 1)) (Some (25 # 1)) None.

(** A key for the Google API; Google answers, the server of the
    application does not. *)
Definition google_without_server : World :=
  mkWorld sample_device (Some (js "AIza-key")) (Some session7)
          (fun _ => GeoError denied) (fun _ => GeoError denied)
          (fun r => if starts_with (js "https://www.googleapis.com/") (url r)
                    then Response true 200 (Some google_answer)
                    else NetworkError)
          (fun _ => None).

(** Google answers, and the server of the application answers every
    request with [reply]. *)
Definition google_and_server (reply : Payload) : World :=
  mkWorld sample_device (Some (js "AIza-key")) (Some session7)
          (fun _ => GeoError denied) (fun _ => GeoError denied)
          (fun r => if starts_with (js "https://www.googleapis.com/") (url r)
                    then Response true 200 (Some google_answer)
                    else Response true 200 (Some reply))
          (fun _ => None).

(** The first position of the browser is coarse, the watch gives a fine
    one; the network is down. *)
Definition coarse_position_without_network : World :=
  mkWorld sample_device None (Some session7)
          (fun _ => GeoSuccess (here 150)) (fun _ => GeoSuccess (here 10))
          (fun _ => NetworkError) (fun _ => None).

(** The position that [google_answer] describes. *)
Definition google_position : Position := mkPosition (mkCoords (23 # 1) (78 # 1) (25 # 1)).

(** A report page with one row, for 2025-01-31. *)
Definition report_dom : gmap string Element :=
  list_to_map
    (List.map (fun id => (id, blank))
       ["status-message"; "confirm-delete-btn"; "confirm-delete-modal";
        "modal-delete-date-display"; "row-2025-01-31"]).

Definition report_page : Page := mkPage report_dom false [] 0 0 0 [] [] None.

Definition report0 : Controller.Report := Controller.mkReport report_page None.

(** The same page after the row has gone. *)
Definition report_without_row : Page :=
  mkPage (delete "row-2025-01-31" report_dom) false [] 0 0 0 [] [] None.

(** A dashboard with both buttons. *)
Definition dashboard_page : Page :=
  mkPage (list_to_map
            (List.map (fun id => (id, blank))
               ["status-message"; "start-session-btn"; ".end-session-btn"]))
         false [] 0 0 0 [] [] None.

End MoreSamples.

(* ===================================================================== *)
(** * Theorems *)
(* ===================================================================== *)

(* ===================================================================== *)
(** ** Properties of the schema *)
(* ===================================================================== *)

Section ListCounting.
Context {A : Type}.
Implicit Types (P Q : A -> bool) (l : list A).

Lemma filter_nil_iff P l :
  List.filter P l = [] <-> (forall x, In x l -> P x = false).
Proof.
  induction l as [|a l IH]; simpl.
  - split; [intros _ x [] | reflexivity].
  - destruct (P a) eqn:Ha.
    + split; [discriminate |].
      intros H. rewrite (H a) in Ha; [discriminate | now left].
    + rewrite IH. split.
      * intros H x [<- | Hx]; auto.
      * intros H x Hx. apply H. now right.
Qed.

Lemma existsb_false_iff P l :
  List.existsb P l = false <-> (forall x, In x l -> P x = false).
Proof.
  induction l as [|a l IH]; simpl.
  - split; [intros _ x [] | reflexivity].
  - rewrite orb_false_iff, IH. split.
    + intros [Ha H] x [<- | Hx]; auto.
    + intros H. split; [apply H; now left | intros x Hx; apply H; now right].
Qed.

Lemma filter_filter_length P Q l :
  (length (List.filter P (List.filter Q l)) <= length (List.filter P l))%nat.
Proof.
  induction l as [|a l IH]; simpl; [lia |].
  destruct (Q a), (P a) eqn:Ha; simpl; rewrite ?Ha; simpl; lia.
Qed.

(** Rows that all fail [P] add nothing to the count. *)
Lemma filter_app_none P l l' :
  (forall x, In x l' -> P x = false) ->
  List.filter P (l ++ l') = List.filter P l.
Proof.
  intros H. rewrite List.filter_app.
  apply filter_nil_iff in H. rewrite H. apply app_nil_r.
Qed.

Lemma at_most_one_eq l a b : (length l <= 1)%nat -> In a l -> In b l -> a = b.
Proof.
  destruct l as [|x [|y l]]; simpl; intros Hl Ha Hb; try lia; try tauto.
  destruct Ha as [<- | []], Hb as [<- | []]. reflexivity.
Qed.
End ListCounting.

(** A [UNIQUE] constraint in general: [matches k] selects the rows with
    key [k], and two rows with one key are in [conflict]. *)
Section UniqueConstraint.
Import Constraints.
Variables (Row Key : Type).
Variable matches : Key -> Row -> bool.
Variable conflict : Row -> Row -> bool.
Hypothesis matches_conflict :
  forall k r r', matches k r = true -> matches k r' = true -> conflict r r' = true.

Lemma unique_nil : unique matches [].
Proof. intros k. simpl. lia. Qed.

Lemma unique_filter P l : unique matches l -> unique matches (List.filter P l).
Proof.
  intros H k. specialize (H k).
  pose proof (filter_filter_length (matches k) P l). lia.
Qed.

Lemma no_conflict_no_match k row l :
  List.existsb (conflict row) l = false ->
  matches k row = true ->
  List.filter (matches k) l = [].
Proof.
  intros Hc Hrow. apply filter_nil_iff. intros r Hr.
  destruct (matches k r) eqn:Hm; [| reflexivity].
  rewrite existsb_false_iff in Hc. rewrite <- (Hc r Hr).
  symmetry. eapply matches_conflict; eassumption.
Qed.

Lemma unique_add l row :
  unique matches l -> List.existsb (conflict row) l = false -> unique matches (l ++ [row]).
Proof.
  intros H Hc k. rewrite List.filter_app, length_app. simpl.
  destruct (matches k row) eqn:Hrow; simpl; [| specialize (H k); lia].
  rewrite (no_conflict_no_match k row l Hc Hrow). simpl. lia.
Qed.

(** Some rows of [l] are replaced by [row :: more], rows that share
    their key columns and were checked against all the others. *)
Lemma unique_replace P l row more :
  unique matches l ->
  (forall r k, In r more -> matches k r = matches k row) ->
  List.existsb (conflict row) (List.filter P l ++ more) = false ->
  unique matches (List.filter P l ++ row :: more).
Proof.
  intros H Hkeys Hc k.
  destruct (matches k row) eqn:Hrow.
  - assert (more = []) as ->.
    { destruct more as [|m more]; [reflexivity |].
      rewrite existsb_false_iff in Hc.
      specialize (Hc m ltac:(apply in_or_app; right; now left)).
      rewrite (matches_conflict k row m) in Hc; [discriminate | assumption |].
      rewrite Hkeys; [assumption | now left]. }
    rewrite app_nil_r in Hc.
    rewrite List.filter_app, length_app. simpl. rewrite Hrow. simpl.
    rewrite (no_conflict_no_match k row _ Hc Hrow). simpl. lia.
  - rewrite filter_app_none.
    + apply unique_filter. assumption.
    + intros r [<- | Hr]; [assumption |]. rewrite Hkeys; assumption.
Qed.

Lemma unique_conflict k row l :
  matches k row = true ->
  List.filter (matches k) l <> [] ->
  List.existsb (conflict row) l = true.
Proof.
  intros Hrow Hne.
  destruct (List.filter (matches k) l) as [|r l'] eqn:Hr; [congruence |].
  assert (In r (List.filter (matches k) l)) as Hin by (rewrite Hr; now left).
  apply filter_In in Hin as [Hin Hm].
  apply existsb_exists. exists r. split; [assumption |].
  eapply matches_conflict; eassumption.
Qed.
End UniqueConstraint.

Module SchemaFacts.
Import Js Schema Constraints.

Lemma same_key_true a b : same_key a b = true <-> exists k, a = Some k /\ b = Some k.
Proof.
  destruct a as [x|], b as [y|]; simpl; split;
    try discriminate; try (intros (k & H1 & H2); congruence).
  - intros H. apply Z.eqb_eq in H. subst. eauto.
  - intros (k & H1 & H2). apply Z.eqb_eq. congruence.
Qed.

Lemma same_key_Some a k : same_key a (Some k) = true <-> a = Some k.
Proof.
  rewrite same_key_true. split.
  - intros (k' & -> & H). congruence.
  - intros ->. eauto.
Qed.

Lemma same_key_refl k : same_key (Some k) (Some k) = true.
Proof. apply same_key_Some. reflexivity. Qed.

Lemma same_text_true a b : same_text a b = true <-> a = b.
Proof. unfold same_text. apply bool_decide_eq_true. Qed.

Lemma record_matches_conflict k r r' :
  record_matches k r = true -> record_matches k r' = true -> record_conflict r r' = true.
Proof.
  unfold record_matches, record_conflict.
  rewrite !andb_true_iff, !same_key_Some. intros [-> ->] [-> ->].
  now rewrite !same_key_refl.
Qed.

Lemma fp_student_matches_conflict k r r' :
  fp_student_matches k r = true -> fp_student_matches k r' = true ->
  fp_student_conflict r r' = true.
Proof.
  unfold fp_student_matches, fp_student_conflict.
  rewrite !andb_true_iff, !same_key_Some. intros [-> ->] [-> ->].
  now rewrite !same_key_refl.
Qed.

Lemma fp_device_matches_conflict k r r' :
  fp_device_matches k r = true -> fp_device_matches k r' = true ->
  fp_device_conflict r r' = true.
Proof.
  unfold fp_device_matches, fp_device_conflict.
  rewrite !andb_true_iff, !same_key_Some, !same_text_true. intros [-> ->] [-> ->].
  split; [apply same_key_Some |]; reflexivity.
Qed.

Lemma created_consistent : consistent created.
Proof. repeat split; apply unique_nil. Qed.

Lemma insert_record_consistent s t ts la lo ip db :
  consistent db -> consistent (apply db (InsertRecord s t ts la lo ip)).
Proof.
  intros (H1 & H2 & H3). unfold apply, execute, insert_attendance_record.
  destruct (_ || _) eqn:Hc; simpl; [now repeat split |].
  apply orb_false_iff in Hc as [_ Hc].
  destruct (_ && _); simpl; [| now repeat split].
  repeat split; try assumption.
  apply unique_add with (conflict := record_conflict);
    [apply record_matches_conflict | assumption | assumption].
Qed.

Lemma insert_fingerprint_consistent s t f db :
  consistent db -> consistent (apply db (InsertFingerprint s t f)).
Proof.
  intros (H1 & H2 & H3). unfold apply, execute, insert_device_fingerprint.
  destruct (_ || _) eqn:Hc; simpl; [now repeat split |].
  apply orb_false_iff in Hc as [Hc Hc2]. apply orb_false_iff in Hc as [_ Hc1].
  destruct (_ && _); simpl; [| now repeat split].
  repeat split; try assumption.
  - apply unique_add with (conflict := fp_student_conflict);
      [apply fp_student_matches_conflict | assumption | assumption].
  - apply unique_add with (conflict := fp_device_conflict);
      [apply fp_device_matches_conflict | assumption | assumption].
Qed.

Lemma update_record_consistent id s t db :
  consistent db -> consistent (apply db (UpdateRecord id s t)).
Proof.
  intros (H1 & H2 & H3). unfold apply, execute, update_attendance_record.
  destruct (List.map _ _) as [|row more] eqn:Hmap; [now repeat split |].
  destruct (List.existsb _ _) eqn:Hc; [now repeat split |].
  destruct (_ && _); simpl; [| now repeat split].
  repeat split; try assumption.
  apply unique_replace with (conflict := record_conflict);
    [apply record_matches_conflict | assumption | | assumption].
  intros r k Hr.
  assert (Hkeys : forall r', In r' (row :: more) ->
            record_session_id r' = s /\ record_student_id r' = t).
  { rewrite <- Hmap. intros r' Hr'. apply in_map_iff in Hr' as (r0 & <- & _). now simpl. }
  destruct (Hkeys row ltac:(now left)) as [Ha Hb], (Hkeys r ltac:(now right)) as [Hc' Hd].
  unfold record_matches. now rewrite Ha, Hb, Hc', Hd.
Qed.

Lemma update_fingerprint_consistent id s t f db :
  consistent db -> consistent (apply db (UpdateFingerprint id s t f)).
Proof.
  intros (H1 & H2 & H3). unfold apply, execute, update_device_fingerprint.
  destruct (List.map _ _) as [|row more] eqn:Hmap; [now repeat split |].
  destruct (_ || _) eqn:Hc; [now repeat split |].
  apply orb_false_iff in Hc as [Hc1 Hc2].
  destruct (_ && _); simpl; [| now repeat split].
  assert (Hkeys : forall r', In r' (row :: more) ->
            fp_session_id r' = s /\ fp_student_id r' = t /\ fp_fingerprint r' = f).
  { rewrite <- Hmap. intros r' Hr'. apply in_map_iff in Hr' as (r0 & <- & _). now simpl. }
  destruct (Hkeys row ltac:(now left)) as (Ha & Hb & Hf).
  repeat split; try assumption.
  - apply unique_replace with (conflict := fp_student_conflict);
      [apply fp_student_matches_conflict | assumption | | assumption].
    intros r k Hr. destruct (Hkeys r ltac:(now right)) as (Hc' & Hd & _).
    unfold fp_student_matches. now rewrite Ha, Hb, Hc', Hd.
  - apply unique_replace with (conflict := fp_device_conflict);
      [apply fp_device_matches_conflict | assumption | | assumption].
    intros r k Hr. destruct (Hkeys r ltac:(now right)) as (Hc' & _ & Hd).
    unfold fp_device_matches. now rewrite Ha, Hf, Hc', Hd.
Qed.

(** Every statement keeps the constraints, whether it succeeds or fails. *)
Lemma apply_consistent db st : consistent db -> consistent (apply db st).
Proof.
  intros H. destruct st.
  - now apply insert_record_consistent.
  - now apply update_record_consistent.
  - destruct H as (H1 & H2 & H3). repeat split; try assumption.
    apply unique_filter, H1.
  - now apply insert_fingerprint_consistent.
  - now apply update_fingerprint_consistent.
  - destruct H as (H1 & H2 & H3). repeat split; try assumption;
      apply unique_filter; assumption.
  - unfold apply, execute, insert_session. now destruct (mem _ _).
  - unfold apply, execute, insert_student. now destruct (mem _ _).
  - destruct H as (H1 & H2 & H3). repeat split; apply unique_filter; assumption.
  - unfold apply, execute, delete_student. destruct (List.existsb _ _); [assumption |].
    destruct H as (H1 & H2 & H3). repeat split; try assumption;
      apply unique_filter; assumption.
Qed.

Lemma run_consistent sts db : consistent db -> consistent (run sts db).
Proof.
  revert db. induction sts as [|st sts IH]; intros db H; simpl; [assumption |].
  apply IH, apply_consistent, H.
Qed.

Lemma insert_record_rejected s t ts la lo ip db :
  records_of s t db <> [] ->
  failed (insert_attendance_record (Some s) (Some t) ts la lo ip db) = Some unique_violation
  /\ attendance_records (apply db (InsertRecord (Some s) (Some t) ts la lo ip))
     = attendance_records db.
Proof.
  intros Hne. unfold apply, execute, insert_attendance_record.
  rewrite (unique_conflict _ _ record_matches record_conflict record_matches_conflict
             (s, t) _ (attendance_records db)); [| | exact Hne].
  - rewrite orb_true_r. simpl. split; reflexivity.
  - apply andb_true_iff. split; apply same_key_Some; reflexivity.
Qed.

Lemma insert_fingerprint_rejected s t f db :
  fingerprints_of_device s f db <> [] ->
  failed (insert_device_fingerprint (Some s) (Some t) f db) = Some unique_violation
  /\ session_device_fingerprints (apply db (InsertFingerprint (Some s) (Some t) f))
     = session_device_fingerprints db.
Proof.
  intros Hne. unfold apply, execute, insert_device_fingerprint.
  rewrite (unique_conflict _ _ fp_device_matches fp_device_conflict fp_device_matches_conflict
             (s, f) _ (session_device_fingerprints db)); [| | exact Hne].
  - rewrite orb_true_r. simpl. split; reflexivity.
  - apply andb_true_iff. split; [apply same_key_Some | apply same_text_true]; reflexivity.
Qed.

End SchemaFacts.

(** C3.  In every state of the store that statements can reach from the
    created tables, a session and a student have at most one row of
    [attendance_records]; once they have one, inserting another row for them
    fails with a unique violation and leaves the table as it was. *)
Theorem attendance_record_unique (sts : list Schema.Statement) (s t : Z) :
  let db := Schema.run sts Schema.created in
  (length (Schema.records_of s t db) <= 1)%nat
  /\ forall ts la lo ip,
       Schema.records_of s t db <> [] ->
       Schema.failed (Schema.insert_attendance_record (Some s) (Some t) ts la lo ip db)
         = Some Schema.unique_violation
       /\ Schema.attendance_records
            (Schema.apply db (Schema.InsertRecord (Some s) (Some t) ts la lo ip))
          = Schema.attendance_records db.
Proof.
  intros db. split.
  - destruct (SchemaFacts.run_consistent sts Schema.created SchemaFacts.created_consistent)
      as (H & _ & _).
    exact (H (s, t)).
  - intros. now apply SchemaFacts.insert_record_rejected.
Qed.

(** C4.  In every reachable state of the store, a session has at most one
    row of [session_device_fingerprints] per student and at most one per
    fingerprint: two rows of one session with one fingerprint are the same
    row, and once a fingerprint is recorded in a session, inserting it for
    any student of that session fails with a unique violation. *)
Theorem device_fingerprint_unique (sts : list Schema.Statement) (s t : Z)
    (f : Js.JsString) :
  let db := Schema.run sts Schema.created in
  (length (Schema.fingerprints_of_student s t db) <= 1)%nat
  /\ (length (Schema.fingerprints_of_device s f db) <= 1)%nat
  /\ (forall r r',
        In r (Schema.session_device_fingerprints db) ->
        In r' (Schema.session_device_fingerprints db) ->
        Schema.fp_session_id r = Some s -> Schema.fp_session_id r' = Some s ->
        Schema.fp_fingerprint r = f -> Schema.fp_fingerprint r' = f ->
        r = r')
  /\ (forall t',
        Schema.fingerprints_of_device s f db <> [] ->
        Schema.failed (Schema.insert_device_fingerprint (Some s) (Some t') f db)
          = Some Schema.unique_violation
        /\ Schema.session_device_fingerprints
             (Schema.apply db (Schema.InsertFingerprint (Some s) (Some t') f))
           = Schema.session_device_fingerprints db).
Proof.
  intros db.
  destruct (SchemaFacts.run_consistent sts Schema.created SchemaFacts.created_consistent)
    as (_ & H2 & H3).
  split; [exact (H2 (s, t)) |]. split; [exact (H3 (s, f)) |]. split.
  - intros r r' Hr Hr' Hs Hs' Hf Hf'.
    apply (at_most_one_eq _ _ _ (H3 (s, f))); apply filter_In; split; try assumption;
      apply andb_true_iff; split;
      solve [now apply SchemaFacts.same_key_Some | now apply SchemaFacts.same_text_true].
  - intros. now apply SchemaFacts.insert_fingerprint_rejected.
Qed.

(** The two constraints at work on small tables. *)
Example second_mark_is_rejected :
  let db := Schema.run [Schema.InsertSession 7; Schema.InsertStudent 1;
                        Schema.InsertRecord (Some 7) (Some 1) 100 None None None]
                       Schema.created in
  length (Schema.records_of 7 1 db) = 1%nat
  /\ Schema.failed (Schema.insert_attendance_record (Some 7) (Some 1) 200 None None None db)
     = Some Schema.unique_violation
  /\ length (Schema.records_of 7 1
               (Schema.apply db (Schema.InsertRecord (Some 7) (Some 1) 200 None None None)))
     = 1%nat.
Proof. vm_compute. repeat split; reflexivity. Qed.

Example device_is_used_once_per_session :
  let f := Js.js "e376ec0ba2f044a7" in
  let db := Schema.run [Schema.InsertSession 7; Schema.InsertSession 8;
                        Schema.InsertStudent 1; Schema.InsertStudent 2;
                        Schema.InsertFingerprint (Some 7) (Some 1) f]
                       Schema.created in
  Schema.failed (Schema.insert_device_fingerprint (Some 7) (Some 2) f db)
  = Some Schema.unique_violation
  /\ Schema.failed (Schema.insert_device_fingerprint (Some 8) (Some 2) f db) = None
  /\ length (Schema.fingerprints_of_device 7 f
               (Schema.apply db (Schema.InsertFingerprint (Some 7) (Some 2) f)))
     = 1%nat.
Proof. vm_compute. repeat split; reflexivity. Qed.

(* ===================================================================== *)
(** ** The fingerprint of part_000 *)
(* ===================================================================== *)

Import Js Browser Fingerprint Samples.

Lemma be_bytes_length n x : length (Sha256.be_bytes n x) = n.
Proof. unfold Sha256.be_bytes. now rewrite length_map, length_rev, length_seq. Qed.

Lemma be_bytes_range n x : Forall (fun b => 0 <= b < 256) (Sha256.be_bytes n x).
Proof.
  unfold Sha256.be_bytes. apply List.Forall_forall. intros b Hb.
  apply in_map_iff in Hb as (i & <- & _). apply Z.mod_pos_bound. lia.
Qed.

Lemma digest_length msg : length (Sha256.digest msg) = 32%nat.
Proof.
  unfold Sha256.digest, Sha256.hash_bytes. rewrite !length_app, !be_bytes_length. reflexivity.
Qed.

Lemma digest_range msg : Forall (fun b => 0 <= b < 256) (Sha256.digest msg).
Proof.
  unfold Sha256.digest, Sha256.hash_bytes.
  repeat (apply List.Forall_app; split); apply be_bytes_range.
Qed.

Lemma hex_byte_table :
  List.forallb hex_byte_good (List.map Z.of_nat (List.seq 0 256)) = true.
Proof. vm_compute. reflexivity. Qed.

Lemma hex_byte_two b :
  0 <= b < 256 ->
  exists h l, TwoStep.hex_byte b = [h; l] /\ is_lower_hex h = true /\ is_lower_hex l = true.
Proof.
  intros Hb. pose proof hex_byte_table as H. rewrite forallb_forall in H.
  specialize (H b). unfold hex_byte_good in H.
  destruct (TwoStep.hex_byte b) as [|h [|l [|x r]]]; try (discriminate H; fail).
  all: try (assert (false = true) by
              (apply H; apply in_map_iff; exists (Z.to_nat b); split;
               [lia | apply in_seq; lia]); discriminate).
  exists h, l. split; [reflexivity |]. apply andb_true_iff. apply H.
  apply in_map_iff. exists (Z.to_nat b). split; [lia | apply in_seq; lia].
Qed.

Lemma hex_of_bytes l :
  Forall (fun b => 0 <= b < 256) l ->
  length (join_empty (List.map TwoStep.hex_byte l)) = (2 * length l)%nat
  /\ List.forallb is_lower_hex (join_empty (List.map TwoStep.hex_byte l)) = true.
Proof.
  unfold join_empty. induction 1 as [|b l Hb _ [IH1 IH2]]; [now split |].
  destruct (hex_byte_two b Hb) as (h & lo & Hhex & Hh & Hl).
  simpl. rewrite Hhex. simpl. rewrite IH1, Hh, Hl, IH2. split; [lia | reflexivity].
Qed.

Lemma fingerprint_same_environment d d' :
  same_environment d d' -> TwoStep.getDeviceFingerprint d = TwoStep.getDeviceFingerprint d'.
Proof.
  intros (H1 & H2 & H3 & H4 & H5 & H6 & H7).
  unfold TwoStep.getDeviceFingerprint, TwoStep.components.
  now rewrite H1, H2, H3, H4, H5, H6, H7.
Qed.

Lemma fingerprint_shape d :
  length (TwoStep.getDeviceFingerprint d) = 64%nat
  /\ List.forallb is_lower_hex (TwoStep.getDeviceFingerprint d) = true.
Proof.
  unfold TwoStep.getDeviceFingerprint.
  destruct (hex_of_bytes _ (digest_range (text_encode (json_stringify (TwoStep.components d)))))
    as [H1 H2].
  rewrite digest_length in H1. split; assumption.
Qed.

Example sha256_abc :
  join_empty (List.map TwoStep.hex_byte (Sha256.digest (text_encode (js "abc"))))
  = js "ba7816bf8f01cfea414140de5dae2223b00361a396177a9cb410ff61f20015ad".
Proof. vm_compute. reflexivity. Qed.

Example sha256_empty :
  join_empty (List.map TwoStep.hex_byte (Sha256.digest []))
  = js "e3b0c44298fc1c149afbf4c8996fb92427ae41e4649b934ca495991b7852b855".
Proof. vm_compute. reflexivity. Qed.

Example sample_fingerprint :
  TwoStep.getDeviceFingerprint sample_device
  = js "e376ec0ba2f044a737d8a0ff50f7974281af3ed5a87614d0aff9e609f166c30c".
Proof. vm_compute. reflexivity. Qed.

Lemma json_of_components d :
  json_stringify (TwoStep.components d)
  = [123] ++ quoted "userAgent" ++ [58] ++ json_string (userAgent d)
    ++ [44] ++ quoted "screenWidth" ++ [58] ++ to_string (screen_width d)
    ++ [44] ++ quoted "screenHeight" ++ [58] ++ to_string (screen_height d)
    ++ [44] ++ quoted "colorDepth" ++ [58] ++ to_string (colorDepth d)
    ++ [44] ++ quoted "timezone" ++ [58] ++ to_string (timezoneOffset d)
    ++ [44] ++ quoted "language" ++ [58] ++ json_string (language d)
    ++ [44] ++ quoted "platform" ++ [58] ++ json_string (platform d) ++ [125].
Proof.
  unfold json_stringify, TwoStep.components, json_members, json_member, json_value, quoted.
  cbn [fst snd].
  change (json_string (js "userAgent")) with (34 :: js "userAgent" ++ [34]).
  change (json_string (js "screenWidth")) with (34 :: js "screenWidth" ++ [34]).
  change (json_string (js "screenHeight")) with (34 :: js "screenHeight" ++ [34]).
  change (json_string (js "colorDepth")) with (34 :: js "colorDepth" ++ [34]).
  change (json_string (js "timezone")) with (34 :: js "timezone" ++ [34]).
  change (json_string (js "language")) with (34 :: js "language" ++ [34]).
  change (json_string (js "platform")) with (34 :: js "platform" ++ [34]).
  repeat (rewrite <- ?app_assoc, <- ?app_comm_cons; cbn [app]). reflexivity.
Qed.

(** C10.  [getDeviceFingerprint] is a function of the seven properties it
    reads: on two devices that report the same user agent, screen width and
    height, colour depth, timezone offset, language and platform it returns
    the same string; and on every device that string has 64 characters, each
    of them one of [0-9a-f]. *)
Theorem fingerprint_deterministic_hex (d d' : Device) :
  same_environment d d' ->
  TwoStep.getDeviceFingerprint d = TwoStep.getDeviceFingerprint d'
  /\ length (TwoStep.getDeviceFingerprint d) = 64%nat
  /\ List.forallb is_lower_hex (TwoStep.getDeviceFingerprint d) = true.
Proof.
  intros H. split; [now apply fingerprint_same_environment | apply fingerprint_shape].
Qed.

Lemma fingerprint_deterministic_hex_witness :
  same_environment sample_device sample_device_no_geolocation
  /\ TwoStep.getDeviceFingerprint sample_device
     = TwoStep.getDeviceFingerprint sample_device_no_geolocation
  /\ length (TwoStep.getDeviceFingerprint sample_device) = 64%nat
  /\ List.forallb is_lower_hex (TwoStep.getDeviceFingerprint sample_device) = true.
Proof.
  assert (H : same_environment sample_device sample_device_no_geolocation)
    by (repeat split; reflexivity).
  split; [exact H | exact (fingerprint_deterministic_hex _ _ H)].
Defined.

(* ===================================================================== *)
(** ** A program logic for the page scripts *)
(* ===================================================================== *)

Import Logic StudentPage.
Local Open Scope string_scope.
Local Open Scope list_scope.

(** *** Frames: what a script leaves alone *)

Lemma extends_refl F p : extends F p p.
Proof.
  split; try reflexivity.
  - exists []. now rewrite app_nil_r.
  - exists []. split; [now rewrite app_nil_r | constructor].
Qed.

Lemma extends_trans F p q r : extends F p q -> extends F q r -> extends F p r.
Proof.
  intros [a1 a2 [l1 a3] (t1 & a4 & a4') a5 a6 a7 a8] [b1 b2 [l2 b3] (t2 & b4 & b4') b5 b6 b7 b8].
  split.
  - intros id H. now rewrite b1, a1.
  - intros id. now rewrite b2, a2.
  - exists (l1 ++ l2). now rewrite b3, a3, app_assoc.
  - exists (t1 ++ t2). split; [now rewrite b4, a4, app_assoc |].
    apply List.Forall_app. split.
    + eapply List.Forall_impl; [| exact a4']. simpl. intros; lia.
    + eapply List.Forall_impl; [| exact b4']. simpl. intros; lia.
  - lia.
  - congruence.
  - congruence.
  - congruence.
Qed.

Lemma frames_ret {A} F (a : A) : frames F (ret a).
Proof. intros w p. apply extends_refl. Qed.

Lemma frames_throw {A} F e : frames F (@throw A e).
Proof. intros w p. apply extends_refl. Qed.

Lemma frames_world F : frames F world.
Proof. intros w p. apply extends_refl. Qed.

Lemma frames_page F : frames F page.
Proof. intros w p. apply extends_refl. Qed.

Lemma frames_bind {A B} F (m : M A) (k : A -> M B) :
  frames F m -> (forall a, frames F (k a)) -> frames F (bind m k).
Proof.
  intros Hm Hk w p. specialize (Hm w p). unfold exec, bind in *.
  destruct (m w p) as [[a|e] p']; simpl in *; [| assumption].
  eapply extends_trans; [exact Hm | apply Hk].
Qed.

Lemma frames_try_catch {A} F (m : M A) (h : Exn -> M A) :
  frames F m -> (forall e, frames F (h e)) -> frames F (try_catch m h).
Proof.
  intros Hm Hk w p. specialize (Hm w p). unfold exec, try_catch in *.
  destruct (m w p) as [[a|e] p']; simpl in *; [assumption |].
  eapply extends_trans; [exact Hm | apply Hk].
Qed.

Lemma frames_detached F (m : M unit) : frames F m -> frames F (detached m).
Proof. intros H. apply frames_try_catch; [assumption | intros; apply frames_ret]. Qed.

Lemma frames_getElementById F id : frames F (getElementById id).
Proof. intros w p. apply extends_refl. Qed.

Lemma frames_read {A} F id (f : Element -> A) : frames F (read id f).
Proof.
  intros w p. unfold exec, read. destruct (dom p !! id); apply extends_refl.
Qed.

Lemma frames_assign F id f : In id F -> frames F (assign id f).
Proof.
  intros Hin w p. unfold exec, assign.
  destruct (dom p !! id) as [e|] eqn:He; simpl; [| apply extends_refl].
  split; simpl; try reflexivity.
  - intros id' Hn. apply lookup_insert_ne. congruence.
  - intros id'. destruct (decide (id = id')) as [<- | Hne].
    + rewrite lookup_insert_eq, He. split; eauto.
    + now rewrite lookup_insert_ne.
  - exists []. now rewrite app_nil_r.
  - exists []. split; [now rewrite app_nil_r | constructor].
Qed.

Lemma frames_emit F e : frames F (emit e).
Proof.
  intros w p. split; simpl; try reflexivity; eauto.
  exists []. split; [now rewrite app_nil_r | constructor].
Qed.

Lemma frames_modal F b : frames F (modify (with_modal_open b)).
Proof.
  intros w p. split; simpl; try reflexivity.
  - exists []. now rewrite app_nil_r.
  - exists []. split; [now rewrite app_nil_r | constructor].
Qed.

Lemma frames_add_timer F cb delay per : frames F (add_timer cb delay per).
Proof.
  intros w p. split; simpl; try reflexivity; try lia.
  - exists []. now rewrite app_nil_r.
  - eexists. split; [reflexivity |]. repeat constructor; simpl; lia.
Qed.

Lemma frames_watchPosition F o : frames F (watchPosition o).
Proof.
  intros w p. split; simpl; try reflexivity; eauto.
  exists []. split; [now rewrite app_nil_r | constructor].
Qed.

Lemma frames_mono {A} F G (m : M A) : incl F G -> frames F m -> frames G m.
Proof.
  intros Hi H w p. destruct (H w p) as [a1 a2 a3 a4 a5 a6 a7 a8].
  split; try assumption. intros id Hn. apply a1. intros Hf. apply Hn, Hi, Hf.
Qed.

Create HintDb frames.
#[global] Hint Resolve frames_ret frames_throw frames_world frames_page
  frames_getElementById frames_read frames_emit frames_modal frames_add_timer
  frames_watchPosition : frames.

Ltac in_list := simpl; tauto.

Ltac frames_step :=
  match goal with
  | |- forall _, _ => intro
  | |- frames _ (bind _ _) => apply frames_bind
  | |- frames _ (try_catch _ _) => apply frames_try_catch
  | |- frames _ (detached _) => apply frames_detached
  | |- frames _ (assign _ _) => apply frames_assign; in_list
  | |- frames _ (match ?x with _ => _ end) => destruct x
  | |- frames _ (let _ := _ in _) => cbv zeta
  | |- frames _ _ => solve [auto with frames]
  end.

Ltac solve_frames := repeat frames_step.

Lemma frames_fetch F r : frames F (fetch r).
Proof. unfold fetch. solve_frames. Qed.
Lemma frames_response_json F r : frames F (response_json r).
Proof. unfold response_json. solve_frames. Qed.
Lemma frames_getCurrentPosition F o : frames F (getCurrentPosition o).
Proof. unfold getCurrentPosition. solve_frames. Qed.
Lemma frames_assign_span_text F id s : In (span_of id) F -> frames F (assign_span_text id s).
Proof. intros. unfold assign_span_text. solve_frames. Qed.
#[global] Hint Resolve frames_fetch frames_response_json frames_getCurrentPosition : frames.

#[global] Hint Extern 1 (In _ _) => in_list : frames.
#[global] Hint Resolve frames_assign_span_text : frames.

Lemma frames_showStatusMessage F m t :
  In "status-message" F -> frames F (TwoStep.showStatusMessage m t).
Proof. intros. unfold TwoStep.showStatusMessage, setTimeout. solve_frames. Qed.

Lemma frames_openModal F id : In id F -> frames F (TwoStep.openModal id).
Proof. intros. unfold TwoStep.openModal. solve_frames. Qed.

Lemma frames_closeModal F id : In id F -> frames F (TwoStep.closeModal id).
Proof. intros. unfold TwoStep.closeModal. solve_frames. Qed.

Lemma frames_getBrowserGpsLocation F : frames F TwoStep.getBrowserGpsLocation.
Proof. unfold TwoStep.getBrowserGpsLocation. solve_frames. Qed.

Lemma frames_getGoogleApiLocation F : frames F TwoStep.getGoogleApiLocation.
Proof. unfold TwoStep.getGoogleApiLocation. solve_frames. Qed.

Lemma frames_fetchPresentStudents F sid :
  In "present-students-list" F -> frames F (TwoStep.fetchPresentStudents sid).
Proof. intros. unfold TwoStep.fetchPresentStudents. solve_frames. Qed.

Lemma frames_resetSubmitButton F :
  incl ["mark-btn"; "mark-btn span"; "button-spinner"] F -> frames F TwoStep.resetSubmitButton.
Proof.
  intros H. apply (frames_mono ["mark-btn"; "mark-btn span"; "button-spinner"]); [assumption |].
  unfold TwoStep.resetSubmitButton, TwoStep.markButton, TwoStep.spinner. solve_frames.
Qed.

#[global] Hint Resolve frames_showStatusMessage frames_openModal frames_closeModal
  frames_getBrowserGpsLocation frames_getGoogleApiLocation frames_fetchPresentStudents : frames.

Lemma frames_rest_reset : frames page_ids TwoStep.resetSubmitButton.
Proof. apply frames_resetSubmitButton. intros x Hx. simpl in *. tauto. Qed.
Lemma frames_all_reset : frames student_ids TwoStep.resetSubmitButton.
Proof. apply frames_resetSubmitButton. intros x Hx. simpl in *. tauto. Qed.
#[global] Hint Resolve frames_rest_reset frames_all_reset : frames.

Lemma frames_handleAttendanceSubmission pos m :
  frames student_ids (TwoStep.handleAttendanceSubmission pos m).
Proof.
  unfold TwoStep.handleAttendanceSubmission, TwoStep.attendanceForm, TwoStep.wifiModal.
  solve_frames.
Qed.
#[global] Hint Resolve frames_handleAttendanceSubmission : frames.

Lemma frames_on_submit : frames student_ids TwoStep.on_submit.
Proof.
  unfold TwoStep.on_submit, TwoStep.markButton, TwoStep.spinner, TwoStep.wifiModal.
  solve_frames.
Qed.

Lemma frames_on_retry_click : frames student_ids TwoStep.on_retry_click.
Proof.
  unfold TwoStep.on_retry_click, TwoStep.markButton, TwoStep.spinner, TwoStep.wifiModal.
  solve_frames.
Qed.

Lemma frames_enrollment_lookup : frames student_ids TwoStep.enrollment_lookup.
Proof.
  unfold TwoStep.enrollment_lookup, TwoStep.enrollmentInput.
  solve_frames.
Qed.

(** *** Invariants of the page, and the polling interval *)

Lemma keeps_bind {A B} I (m : M A) (k : A -> M B) :
  keeps I m -> (forall a, keeps I (k a)) -> keeps I (bind m k).
Proof.
  intros Hm Hk w p Hp. specialize (Hm w p Hp). unfold exec, bind in *.
  destruct (m w p) as [[a|e] p']; simpl in *; [| assumption].
  now apply Hk.
Qed.

Lemma keeps_try_catch {A} I (m : M A) (h : Exn -> M A) :
  keeps I m -> (forall e, keeps I (h e)) -> keeps I (try_catch m h).
Proof.
  intros Hm Hk w p Hp. specialize (Hm w p Hp). unfold exec, try_catch in *.
  destruct (m w p) as [[a|e] p']; simpl in *; [assumption |].
  now apply Hk.
Qed.

Lemma keeps_detached I (m : M unit) : keeps I m -> keeps I (detached m).
Proof. intros H. apply keeps_try_catch; [assumption | intros e w p Hp; exact Hp]. Qed.

Lemma polling_extends F k sid p q : polling k sid p -> extends F p q -> polling k sid q.
Proof.
  intros [h1 [d h2] h3 h4 h5] [a1 a2 a3 (ts & a4 & a4') a5 a6 a7 a8].
  split.
  - now apply a2.
  - exists d. rewrite a4. apply in_or_app. now left.
  - lia.
  - intros t Ht Hid. rewrite a4 in Ht. apply in_app_or in Ht as [Ht | Ht]; [now apply h4 |].
    rewrite List.Forall_forall in a4'. specialize (a4' t Ht). lia.
  - congruence.
Qed.

Lemma keeps_frames {A} F k sid (m : M A) : frames F m -> keeps (polling k sid) m.
Proof. intros H w p Hp. eapply polling_extends; [exact Hp | apply H]. Qed.

Lemma in_remove_timer t i l : In t (remove_timer i l) <-> In t l /\ timer_id t <> i.
Proof.
  unfold remove_timer. rewrite filter_In, negb_true_iff, Nat.eqb_neq. reflexivity.
Qed.

Lemma polling_clear k sid i p :
  i <> k -> polling k sid p ->
  polling k sid (with_timers (remove_timer i (timers p)) (next_timer p) p).
Proof.
  intros Hi [h1 [d h2] h3 h4 h5]. split; simpl; try assumption.
  - exists d. apply in_remove_timer. split; [assumption | simpl; congruence].
  - intros t Ht. apply in_remove_timer in Ht as [Ht _]. now apply h4.
Qed.

Lemma keeps_debounce k sid cb delay : keeps (polling k sid) (debounce cb delay).
Proof.
  intros w p Hp. unfold exec, debounce, bind, page, clearTimeout, modify, setTimeout, add_timer. 
  assert (Hq : polling k sid
                 (match lookup_timeout p with
                  | Some i => with_timers (remove_timer i (timers p)) (next_timer p) p
                  | None => p
                  end)).
  { destruct (lookup_timeout p) as [i|] eqn:Hl; [| assumption].
    apply polling_clear; [| assumption]. intros ->. now destruct Hp. }
  destruct (lookup_timeout p) as [i|]; simpl;
    destruct Hq as [h1 [d h2] h3 h4 h5]; simpl in *.
  all: split; simpl; try assumption; try lia.
  all: try (exists d; apply in_or_app; now left).
  all: try (intros t Ht Hid; apply in_app_or in Ht as [Ht | [<- | []]]; [now apply h4 | simpl in Hid; lia]).
  all: intros [= Heq]; lia.
Qed.

Lemma keeps_robust_tick k sid self endTime el :
  self <> k -> keeps (polling k sid) (TwoStep.robust_tick self endTime el).
Proof.
  intros Hs. unfold TwoStep.robust_tick.
  apply keeps_bind; [apply (keeps_frames []); auto with frames |]. intros p0.
  destruct endTime as [e|]; [| apply (keeps_frames [el]); solve_frames].
  destruct (e - now p0 <=? 0)%Z; [| apply (keeps_frames [el]); solve_frames].
  apply keeps_bind.
  - intros w p Hp. now apply polling_clear.
  - intros _. apply (keeps_frames [el]). unfold reload. solve_frames.
Qed.

Lemma polling_fire k sid w t time p :
  polling k sid p -> In t (timers p) -> polling k sid (TwoStep.fire w t time p).
Proof.
  intros Hp Ht. unfold TwoStep.fire.
  destruct (Nat.eq_dec (timer_id t) k) as [Hk | Hk].
  - (* the poll itself fires *)
    destruct (poll_only _ _ _ Hp t Ht Hk) as [Hcb Hper]. rewrite Hcb, Hper.
    apply keeps_detached.
    + apply (keeps_frames student_ids). unfold TwoStep.run_callback. solve_frames.
    + destruct Hp as [h1 [d h2] h3 h4 h5]. split; simpl; try assumption.
      * exists (time + 10000). apply in_or_app. right. left. now rewrite Hk.
      * intros t' Ht' Hid. apply in_app_or in Ht' as [Ht' | [<- | []]]; [| now simpl].
        apply in_remove_timer in Ht' as [Ht' _]. now apply h4.
  - assert (Hq : polling k sid
             (with_timers
                (match period t with
                 | Some d => remove_timer (timer_id t) (timers p)
                             ++ [mkTimer (timer_id t) (time + d) (Some d) (callback t)]
                 | None => remove_timer (timer_id t) (timers p)
                 end) (next_timer p) (with_now time p))).
    { destruct Hp as [h1 [d h2] h3 h4 h5]. split; simpl; try assumption.
      - exists d. destruct (period t).
        + apply in_or_app. left. apply in_remove_timer. split; [assumption | simpl; congruence].
        + apply in_remove_timer. split; [assumption | simpl; congruence].
      - intros t' Ht' Hid. destruct (period t).
        + apply in_app_or in Ht' as [Ht' | [<- | []]]; [| simpl in Hid; congruence].
          apply in_remove_timer in Ht' as [Ht' _]. now apply h4.
        + apply in_remove_timer in Ht' as [Ht' _]. now apply h4. }
    revert Hq. apply keeps_detached.
    destruct (callback t); unfold TwoStep.run_callback.
    + apply (keeps_frames student_ids). solve_frames.
    + apply (keeps_frames student_ids). solve_frames.
    + now apply keeps_robust_tick.
    + apply (keeps_frames student_ids). apply frames_detached, frames_enrollment_lookup.
Qed.

Lemma polling_step k sid p q : polling k sid p -> TwoStep.step p q -> polling k sid q.
Proof.
  intros Hp Hstep. destruct Hstep as [w v p _ _ | w p _ _ | w p _ _ | w modal p _ _ | w t time p _ Ht _ _].
  - revert Hp. apply keeps_detached. unfold TwoStep.type_enrollment, TwoStep.on_input.
    apply keeps_bind; [apply (keeps_frames student_ids); unfold TwoStep.enrollmentInput; solve_frames |].
    intros _. apply keeps_debounce.
  - revert Hp. apply keeps_detached, (keeps_frames student_ids), frames_on_submit.
  - revert Hp. apply keeps_detached, (keeps_frames student_ids), frames_on_retry_click.
  - revert Hp. apply (keeps_frames [modal]). auto with frames.
  - now apply polling_fire.
Qed.

Lemma polling_steps k sid p q : polling k sid p -> TwoStep.steps p q -> polling k sid q.
Proof.
  intros Hp Hsteps. induction Hsteps as [p | p q r _ IH Hstep]; [assumption |].
  eapply polling_step; [apply IH, Hp | exact Hstep].
Qed.

(** *** Running script on a symbolic page *)

Ltac unfold_monad :=
  cbv beta iota zeta delta
    [exec outcome bind try_catch detached ret throw world page modify emit fetch
     response_json getElementById assign read assign_span_text addEventListener
     getCurrentPosition watchPosition clearWatch reload add_timer setTimeout setInterval
     clearTimeout clearInterval span_of String.append].

Ltac simpl_page :=
  cbn [dom modal_open timers next_timer next_watch now log listeners lookup_timeout
       with_dom with_modal_open with_timers with_next_watch with_now with_log
       with_listeners with_lookup_timeout fst snd
       response_ok response_status response_body] in *.

Ltac lookups :=
  repeat first
    [ rewrite lookup_insert_eq
    | rewrite lookup_insert_ne by (intro; discriminate)
    | match goal with H : _ !! _ = _ |- _ => rewrite H end ].

Ltac run := unfold_monad; repeat (simpl_page; lookups).

Lemma fetchPresentStudents_log w p sid :
  is_Some (dom p !! "present-students-list") ->
  exists rest,
    log (exec (TwoStep.fetchPresentStudents sid) w p)
      = log p ++ Fetch (present_students_request sid) :: rest
    /\ List.forallb (fun e => negb (is_fetch e)) rest = true.
Proof.
  intros [el Hel].
  unfold TwoStep.fetchPresentStudents. fold (present_students_request sid). run.
  destruct (net w (present_students_request sid)) as [|ok st [data|]]; run.
  - eexists. split; [rewrite <- app_assoc; reflexivity | reflexivity].
  - destruct (students data) as [l|]; [destruct (success data) |]; run;
      (exists []; split; reflexivity).
  - eexists. split; [rewrite <- app_assoc; reflexivity | reflexivity].
Qed.

Lemma bind_ok {A B} (m : M A) (k : A -> M B) w p a :
  outcome m w p = Ok a -> bind m k w p = k a w (exec m w p).
Proof.
  unfold outcome, exec, bind. destruct (m w p) as [[a'|e] p']; simpl; congruence.
Qed.

Lemma detached_ok m w p : outcome (detached m) w p = Ok tt.
Proof.
  unfold outcome, detached, try_catch. destruct (m w p) as [[[]|e] p']; reflexivity.
Qed.

Lemma startRobustTimer_ok s el w p : outcome (TwoStep.startRobustTimer s el) w p = Ok tt.
Proof.
  unfold outcome, TwoStep.startRobustTimer, bind, getElementById.
  destruct (dom p !! el); [| reflexivity]. destruct (truthy_string s); reflexivity.
Qed.

Lemma startRobustTimer_log s el w p : log (exec (TwoStep.startRobustTimer s el) w p) = log p.
Proof.
  unfold TwoStep.startRobustTimer. run.
  destruct (dom p !! el); [| reflexivity]. destruct (truthy_string s); reflexivity.
Qed.

Lemma frames_startRobustTimer F s el : frames F (TwoStep.startRobustTimer s el).
Proof. unfold TwoStep.startRobustTimer, setInterval. solve_frames. Qed.

Lemma initStudentPage_polls w p session :
  activeSessionDataStudent w = Some session ->
  session_id session <> 0 ->
  fresh p ->
  has p "attendance-form" -> has p "enrollment_no" -> has p "retry-with-google-btn" ->
  has p "present-students-list" ->
  let q := exec TwoStep.initStudentPage w p in
  let sid := session_id session in
  outcome TwoStep.initStudentPage w p = Ok tt
  /\ (exists rest, log q = log p ++ Fetch (present_students_request sid) :: rest
                 /\ List.forallb (fun e => negb (is_fetch e)) rest = true)
  /\ listeners q = [OnInput; OnSubmit; OnRetryClick]
  /\ exists k, In (mkTimer k (now p + 10000) (Some 10000) (PollPresentStudents sid)) (timers q)
               /\ polling k sid q.
Proof.
  intros Hs Hid (Ht & Hl & Hlk) [form Hform] [input Hinput] [retry Hretry] Hlist q sid.
  subst q. unfold TwoStep.initStudentPage, TwoStep.attendanceForm, TwoStep.enrollmentInput,
    TwoStep.retryWithGoogleBtn.
  unfold_monad. rewrite Hform, Hs. apply Z.eqb_neq in Hid. rewrite Hid.
  cbv beta iota delta [negb].
  (* the robust timer *)
  pose proof (startRobustTimer_ok (end_time session) "timer-student" w p) as Hok1.
  pose proof (frames_startRobustTimer [] (end_time session) "timer-student" w p) as Hf1.
  pose proof (startRobustTimer_log (end_time session) "timer-student" w p) as Hl1.
  unfold outcome, exec in Hok1, Hf1, Hl1.
  destruct (TwoStep.startRobustTimer (end_time session) "timer-student" w p) as [r1 p1].
  simpl in Hok1, Hf1, Hl1. subst r1.
  (* the first fetch *)
  assert (Hlist1 : is_Some (dom p1 !! "present-students-list")) by now apply (ext_keys _ _ _ Hf1).
  destruct (fetchPresentStudents_log w p1 sid Hlist1) as (rest & Hlog & Hrest).
  pose proof (frames_fetchPresentStudents ["present-students-list"] sid ltac:(now left) w p1)
    as Hf2.
  unfold exec in Hlog, Hf2. fold sid.
  assert (Hf12 : extends ["present-students-list"] p (TwoStep.fetchPresentStudents sid w p1).2).
  { eapply extends_trans; [| exact Hf2].
    destruct Hf1. split; try assumption. intros id _. now apply ext_same0. }
  clear Hf2.
  destruct (TwoStep.fetchPresentStudents sid w p1) as [r2 p2]. simpl in Hlog, Hf12.
  assert (Hinput2 : exists e, dom p2 !! "enrollment_no" = Some e).
  { apply (ext_keys _ _ _ Hf12). eauto. }
  assert (Hform2 : exists e, dom p2 !! "attendance-form" = Some e).
  { apply (ext_keys _ _ _ Hf12). eauto. }
  assert (Hretry2 : exists e, dom p2 !! "retry-with-google-btn" = Some e).
  { apply (ext_keys _ _ _ Hf12). eauto. }
  destruct Hinput2 as [e1 He1], Hform2 as [e2 He2], Hretry2 as [e3 He3].
  clear Hf1.
  destruct Hf12 as [a1 a2 _ (ts & a4 & a4') a5 a6 a7 a8].
  destruct r2 as [[]|e]; repeat (simpl_page; lookups).
  all: rewrite a7, Hl; (split; [reflexivity |]).
  all: (split; [exists rest; rewrite Hlog, Hl1; split; [reflexivity | assumption] |]).
  all: (split; [reflexivity |]).
  all: exists (next_timer p2); rewrite a8; split; [apply in_or_app; right; now left |].
  all: split; simpl_page; try lia.
  all: try (apply a2; assumption).
  all: try (eexists; apply in_or_app; right; now left).
  all: try (rewrite a6, Hlk; discriminate).
  all: intros t Hin Hk; apply in_app_or in Hin as [Hin | [<- | []]]; [| now simpl].
  all: rewrite a4, Ht in Hin; simpl in Hin;
       rewrite List.Forall_forall in a4'; specialize (a4' t Hin); lia.
Qed.

(** *** Scripts that do not throw *)

Lemma student_page_extends F p q : student_page p -> extends F p q -> student_page q.
Proof.
  unfold student_page. intros Hp He. eapply List.Forall_impl; [| exact Hp].
  intros id Hid. now apply (ext_keys _ _ _ He).
Qed.

Lemma shown_extends F msg t T p q :
  ~ In "status-message" F -> shown msg t T p -> extends F p q -> shown msg t T q.
Proof.
  intros HF (e & id & H1 & H2 & H3 & H4 & H5) He.
  exists e, id. rewrite (ext_same _ _ _ He) by assumption.
  repeat split; try assumption.
  destruct (ext_timers _ _ _ He) as (ts & -> & _). apply in_or_app. now left.
Qed.

Section Safe.
Context {A B : Type}.

Lemma safe_ret (a : A) : safe (ret a).
Proof. intros w p _. exact I. Qed.

Lemma safe_bind F (m : M A) (k : A -> M B) :
  frames F m -> safe m -> (forall a, safe (k a)) -> safe (bind m k).
Proof.
  intros Hf Hm Hk w p Hp. specialize (Hf w p). specialize (Hm w p Hp).
  unfold outcome, exec, bind in *.
  destruct (m w p) as [[a|e] p']; simpl in *; [| contradiction].
  apply Hk. eapply student_page_extends; eassumption.
Qed.

Lemma safe_try_catch F (m : M A) (h : Exn -> M A) :
  frames F m -> (forall e, safe (h e)) -> safe (try_catch m h).
Proof.
  intros Hf Hh w p Hp. specialize (Hf w p).
  unfold outcome, exec, try_catch in *.
  destruct (m w p) as [[a|e] p']; simpl in *; [exact I |].
  apply Hh. eapply student_page_extends; eassumption.
Qed.
End Safe.

Lemma safe_detached (m : M unit) : safe (detached m).
Proof. intros w p _. now rewrite detached_ok. Qed.

Lemma student_page_has p id : student_page p -> In id student_ids -> has p id.
Proof. unfold student_page. rewrite List.Forall_forall. auto. Qed.

Lemma safe_assign id f : In id student_ids -> safe (assign id f).
Proof.
  intros Hin w p Hp. destruct (student_page_has p id Hp Hin) as [e He].
  unfold outcome, assign. now rewrite He.
Qed.

Lemma safe_read {A} id (f : Element -> A) : In id student_ids -> safe (read id f).
Proof.
  intros Hin w p Hp. destruct (student_page_has p id Hp Hin) as [e He].
  unfold outcome, read. now rewrite He.
Qed.

Lemma safe_getElementById id : safe (getElementById id).
Proof. intros w p _. exact I. Qed.
Lemma safe_emit e : safe (emit e).
Proof. intros w p _. exact I. Qed.
Lemma safe_modify f : safe (modify f).
Proof. intros w p _. exact I. Qed.
Lemma safe_world : safe world.
Proof. intros w p _. exact I. Qed.
Lemma safe_page : safe page.
Proof. intros w p _. exact I. Qed.
Lemma safe_add_timer cb d per : safe (add_timer cb d per).
Proof. intros w p _. exact I. Qed.

Create HintDb safe.
#[global] Hint Resolve safe_getElementById safe_emit safe_modify safe_world safe_page
  safe_add_timer safe_detached : safe.

Ltac safe_step :=
  match goal with
  | |- forall _, _ => intro
  | |- safe (ret _) => apply safe_ret
  | |- safe (bind _ _) => eapply (safe_bind student_ids); [solve [solve_frames] | |]
  | |- safe (try_catch _ _) => eapply (safe_try_catch student_ids); [solve [solve_frames] |]
  | |- safe (assign _ _) => apply safe_assign; in_list
  | |- safe (read _ _) => apply safe_read; in_list
  | |- safe (match ?x with _ => _ end) => destruct x
  | |- safe _ => solve [auto with safe]
  end.
Ltac solve_safe := repeat safe_step.

Lemma safe_showStatusMessage m t : safe (TwoStep.showStatusMessage m t).
Proof. unfold TwoStep.showStatusMessage, setTimeout. solve_safe. Qed.
Lemma safe_openModal id : In id student_ids -> safe (TwoStep.openModal id).
Proof. intros. unfold TwoStep.openModal. solve_safe. Qed.
Lemma safe_closeModal id : In id student_ids -> safe (TwoStep.closeModal id).
Proof. intros. unfold TwoStep.closeModal. solve_safe. Qed.
Lemma safe_assign_span_text s : safe (assign_span_text "mark-btn" s).
Proof. unfold assign_span_text, span_of. simpl String.append. solve_safe. Qed.
Lemma safe_resetSubmitButton : safe TwoStep.resetSubmitButton.
Proof.
  unfold TwoStep.resetSubmitButton, TwoStep.markButton, TwoStep.spinner.
  pose proof safe_assign_span_text. solve_safe.
Qed.
#[global] Hint Resolve safe_showStatusMessage safe_resetSubmitButton safe_assign_span_text : safe.
#[global] Hint Extern 1 (safe (TwoStep.openModal _)) => apply safe_openModal; in_list : safe.
#[global] Hint Extern 1 (safe (TwoStep.closeModal _)) => apply safe_closeModal; in_list : safe.

Lemma safe_on_submit : safe TwoStep.on_submit.
Proof.
  unfold TwoStep.on_submit, TwoStep.markButton, TwoStep.spinner, TwoStep.wifiModal.
  solve_safe.
Qed.

Lemma safe_on_retry_click : safe TwoStep.on_retry_click.
Proof.
  unfold TwoStep.on_retry_click, TwoStep.markButton, TwoStep.spinner, TwoStep.wifiModal.
  solve_safe.
Qed.

(** *** Scripts that end with a status message *)

Lemma showStatusMessage_shown msg t w p :
  has p "status-message" ->
  shown msg t (now p + 6000) (exec (TwoStep.showStatusMessage msg t) w p).
Proof.
  intros [e He]. unfold TwoStep.showStatusMessage. run.
  exists (set_display (js "block")
            (set_className (js "status-message " ++ t) (set_textContent msg e))),
         (next_timer p).
  split; [simpl_page; lookups; reflexivity |]. repeat split.
  simpl_page. apply in_or_app. right. now left.
Qed.

Lemma shows_showStatusMessage msg t : shows (TwoStep.showStatusMessage msg t).
Proof.
  intros w p Hp _. exists msg, t. apply showStatusMessage_shown.
  apply student_page_has; [assumption | in_list].
Qed.

Lemma shows_throw {A} e : shows (@throw A e).
Proof. intros w p _ []. Qed.

(** The message is shown first; what follows leaves the status line alone. *)
Lemma shows_bind_l {A B} (m : M A) (k : A -> M B) :
  shows m -> (forall a, frames page_ids (k a)) -> shows (bind m k).
Proof.
  intros Hm Hk w p Hp Hok. specialize (Hm w p Hp).
  unfold outcome, exec, bind in *.
  destruct (m w p) as [[a|e] p'] eqn:Hrun; simpl in *; [| contradiction].
  destruct (Hm I) as (msg & t & Hs). exists msg, t.
  specialize (Hk a w p'). unfold exec in Hk.
  eapply shown_extends; [| exact Hs | exact Hk]. simpl. intuition discriminate.
Qed.

(** The message is shown by what follows. *)
Lemma shows_bind_r {A B} (m : M A) (k : A -> M B) :
  frames student_ids m -> (forall a, shows (k a)) -> shows (bind m k).
Proof.
  intros Hm Hk w p Hp Hok. specialize (Hm w p).
  unfold outcome, exec, bind in *.
  destruct (m w p) as [[a|e] p'] eqn:Hrun; simpl in *; [| contradiction].
  rewrite <- (ext_now _ _ _ Hm). apply Hk; [| assumption].
  eapply student_page_extends; eassumption.
Qed.

Lemma shows_try_catch {A} (m : M A) (h : Exn -> M A) :
  shows m -> frames student_ids m -> (forall e, shows (h e)) -> shows (try_catch m h).
Proof.
  intros Hm Hf Hh w p Hp Hok. specialize (Hm w p Hp). specialize (Hf w p).
  unfold outcome, exec, try_catch in *.
  destruct (m w p) as [[a|e] p'] eqn:Hrun; simpl in *; [now apply Hm |].
  rewrite <- (ext_now _ _ _ Hf). apply Hh; [| assumption].
  eapply student_page_extends; eassumption.
Qed.

Ltac shows_step :=
  match goal with
  | |- forall _, _ => intro
  | |- shows (throw _) => apply shows_throw
  | |- shows (TwoStep.showStatusMessage _ _) => apply shows_showStatusMessage
  | |- shows (bind (TwoStep.showStatusMessage _ _) _) =>
      apply shows_bind_l; [apply shows_showStatusMessage | solve [solve_frames]]
  | |- shows (bind _ _) => apply shows_bind_r; [solve [solve_frames] |]
  | |- shows (try_catch _ _) => apply shows_try_catch; [| solve [solve_frames] |]
  | |- shows (match ?x with _ => _ end) => destruct x
  | |- shows (let _ := _ in _) => cbv zeta
  end.
Ltac solve_shows := repeat shows_step.

Lemma shows_handleAttendanceSubmission pos m :
  shows (TwoStep.handleAttendanceSubmission pos m).
Proof.
  unfold TwoStep.handleAttendanceSubmission, TwoStep.attendanceForm, TwoStep.wifiModal,
    TwoStep.enrollmentInput.
  solve_shows.
Qed.

Lemma shows_on_submit : shows TwoStep.on_submit.
Proof.
  unfold TwoStep.on_submit, TwoStep.markButton, TwoStep.spinner, TwoStep.wifiModal.
  pose proof shows_handleAttendanceSubmission.
  solve_shows; auto.
Qed.

Lemma shows_on_retry_click : shows TwoStep.on_retry_click.
Proof.
  unfold TwoStep.on_retry_click, TwoStep.markButton, TwoStep.spinner, TwoStep.wifiModal.
  pose proof shows_handleAttendanceSubmission.
  solve_shows; auto.
Qed.

(** *** Counting the calls to the platform *)

Section Costs.
Variable wt : Effect -> bool.

Lemma costs_weaken {A} (m : M A) a b : (a <= b)%nat -> costs wt a m -> costs wt b m.
Proof. intros Hab H w p. destruct (H w p) as (l & Hl & Hn). exists l. split; [assumption | lia]. Qed.

Lemma costs_bind {A B} a b (m : M A) (k : A -> M B) :
  costs wt a m -> (forall x, costs wt b (k x)) -> costs wt (a + b) (bind m k).
Proof.
  intros Hm Hk w p. destruct (Hm w p) as (l & Hl & Hn).
  unfold exec, bind in *. destruct (m w p) as [[x|e] p']; simpl in *.
  - destruct (Hk x w p') as (l' & Hl' & Hn'). exists (l ++ l'). unfold exec in Hl'.
    rewrite Hl', Hl, app_assoc, List.filter_app, length_app. split; [reflexivity | lia].
  - exists l. split; [assumption | lia].
Qed.

Lemma costs_try_catch {A} a b (m : M A) (h : Exn -> M A) :
  costs wt a m -> (forall e, costs wt b (h e)) -> costs wt (a + b) (try_catch m h).
Proof.
  intros Hm Hk w p. destruct (Hm w p) as (l & Hl & Hn).
  unfold exec, try_catch in *. destruct (m w p) as [[x|e] p']; simpl in *.
  - exists l. split; [assumption | lia].
  - destruct (Hk e w p') as (l' & Hl' & Hn'). exists (l ++ l'). unfold exec in Hl'.
    rewrite Hl', Hl, app_assoc, List.filter_app, length_app. split; [reflexivity | lia].
Qed.

Lemma costs_quiet {A} (m : M A) n :
  (forall w p, log (exec m w p) = log p) -> costs wt n m.
Proof. intros H w p. exists []. rewrite H, app_nil_r. split; [reflexivity | simpl; lia]. Qed.

Lemma costs_emit e n : (wt e = true -> 1 <= n)%nat -> costs wt n (emit e).
Proof.
  intros H w p. exists [e]. split; [reflexivity |]. simpl.
  destruct (wt e); simpl; [auto | lia].
Qed.

Lemma costs_detached a (m : M unit) : costs wt a m -> costs wt a (detached m).
Proof.
  intros H. replace a with (a + 0)%nat by lia. apply costs_try_catch; [assumption |].
  intros e. now apply costs_quiet.
Qed.
End Costs.

Ltac quiet :=
  apply costs_quiet; intros ? ?;
  first [ reflexivity
        | match goal with |- context [exec (assign ?id ?f) ?w ?p] =>
            unfold exec, assign; destruct (dom p !! id); reflexivity end
        | match goal with |- context [exec (read ?id ?f) ?w ?p] =>
            unfold exec, read; destruct (dom p !! id); reflexivity end ].

(** The head constant of an application. *)
Ltac head_of t :=
  lazymatch t with
  | ?g _ => head_of g
  | _ => t
  end.

Ltac free_step :=
  match goal with
  | |- forall _, _ => intro
  | |- costs _ 0 (bind _ _) => apply (costs_bind _ 0 0)
  | |- costs _ 0 (try_catch _ _) => apply (costs_try_catch _ 0 0)
  | |- costs _ 0 (detached _) => apply costs_detached
  | |- costs _ _ (emit _) =>
      apply costs_emit; let H := fresh in intros H; lazy in H; discriminate H
  | |- costs _ 0 (match ?x with _ => _ end) => destruct x
  | |- costs _ 0 (let _ := _ in _) => cbv zeta
  | |- costs _ 0 ?m =>
      first [ solve [quiet] | solve [auto with costs]
            | let h := head_of m in progress unfold h ]
  end.
Ltac free := repeat free_step.
Create HintDb costs.

Lemma free_showStatusMessage wt msg t : costs wt 0 (TwoStep.showStatusMessage msg t).
Proof. free. Qed.
Lemma free_openModal wt id : costs wt 0 (TwoStep.openModal id).
Proof. free. Qed.
Lemma free_closeModal wt id : costs wt 0 (TwoStep.closeModal id).
Proof. free. Qed.
Lemma free_resetSubmitButton wt : costs wt 0 TwoStep.resetSubmitButton.
Proof. free. Qed.
Lemma free_assign_span_text wt id s : costs wt 0 (assign_span_text id s).
Proof. free. Qed.
#[global] Hint Resolve free_showStatusMessage free_openModal free_closeModal
  free_resetSubmitButton free_assign_span_text : costs.

Lemma geo_free_fetch r : costs (counts Geolocation) 0 (fetch r).
Proof. free. Qed.
#[global] Hint Resolve geo_free_fetch : costs.

Lemma free_fetchPresentStudents k sid : costs (counts k) 0 (TwoStep.fetchPresentStudents sid).
Proof. destruct k; free. Qed.
#[global] Hint Resolve free_fetchPresentStudents : costs.

Ltac elements :=
  repeat match goal with
  | H : student_page _ |- _ => unfold student_page, student_ids, page_ids in H
  | H : Forall _ (_ :: _) |- _ =>
      let e := fresh "el" in let He := fresh "Hel" in
      apply List.Forall_cons_iff in H as [[e He] H]
  | H : Forall _ [] |- _ => clear H
  end.

(** *** Evaluating script along one path *)

Section Eval.
Context {A B : Type}.
Implicit Types (w : World) (p : Page).

Lemma eval_bind_ok (m : M A) (k : A -> M B) w p a p1 rq :
  m w p = (Ok a, p1) -> k a w p1 = rq -> bind m k w p = rq.
Proof. intros H1 H2. unfold bind. now rewrite H1. Qed.

Lemma eval_bind_throw (m : M A) (k : A -> M B) w p e p1 :
  m w p = (Throw e, p1) -> bind m k w p = (Throw e, p1).
Proof. intros H1. unfold bind. now rewrite H1. Qed.

Lemma bind_step (m : M A) (k : A -> M B) w p a p1 :
  m w p = (Ok a, p1) -> bind m k w p = k a w p1.
Proof. intros H1. unfold bind. now rewrite H1. Qed.

Lemma eval_try_ok (m : M A) (h : Exn -> M A) w p a p1 :
  m w p = (Ok a, p1) -> try_catch m h w p = (Ok a, p1).
Proof. intros H1. unfold try_catch. now rewrite H1. Qed.

Lemma eval_try_throw (m : M A) (h : Exn -> M A) w p e p1 rq :
  m w p = (Throw e, p1) -> h e w p1 = rq -> try_catch m h w p = rq.
Proof. intros H1 H2. unfold try_catch. now rewrite H1. Qed.

Lemma eval_read id (f : Element -> A) w p e :
  dom p !! id = Some e -> read id f w p = (Ok (f e), p).
Proof. intros H. unfold read. now rewrite H. Qed.
End Eval.

Lemma eval_assign id f w p e :
  dom p !! id = Some e -> assign id f w p = (Ok tt, with_dom (<[id := f e]> (dom p)) p).
Proof. intros H. unfold assign. now rewrite H. Qed.

Lemma eval_assign_null id f w p :
  dom p !! id = None -> assign id f w p = (Throw TypeError, p).
Proof. intros H. unfold assign. now rewrite H. Qed.

Lemma eval_getElementById id w p o :
  dom p !! id = o -> getElementById id w p = (Ok o, p).
Proof. intros <-. reflexivity. Qed.

Ltac use_world :=
  repeat match goal with
  | H : geolocation _ = _ |- _ => rewrite H
  | H : geo_current _ _ = _ |- _ => rewrite H
  | H : geo_watch _ _ = _ |- _ => rewrite H
  | H : net _ _ = _ |- _ => rewrite H
  | H : GOOGLE_MAPS_API_KEY _ = _ |- _ => rewrite H
  | H : activeSessionDataStudent _ = _ |- _ => rewrite H
  | H : success _ = _ |- _ => rewrite H
  | H : jseq _ _ = _ |- _ => rewrite H
  | H : includes _ _ = _ |- _ => rewrite H
  | H : truthy_string _ = _ |- _ => rewrite H
  | H : Qlt_bool _ _ = _ |- _ => rewrite H
  | H : (_ <=? _)%Z = _ |- _ => rewrite H
  end.

Ltac tidy :=
  cbv beta zeta delta
    [with_dom with_modal_open with_timers with_next_watch with_now with_log
     with_listeners with_lookup_timeout];
  cbn [dom modal_open timers next_timer next_watch now log listeners lookup_timeout
       with_dom with_modal_open with_timers with_next_watch with_now with_log
       with_listeners with_lookup_timeout fst snd
       response_ok response_status response_body].

Lemma eval_ret {A} (a : A) w p : ret a w p = (Ok a, p).
Proof. reflexivity. Qed.
Lemma eval_throw {A} e w p : @throw A e w p = (Throw e, p).
Proof. reflexivity. Qed.
Lemma eval_world w p : world w p = (Ok w, p).
Proof. reflexivity. Qed.
Lemma eval_page w p : page w p = (Ok p, p).
Proof. reflexivity. Qed.
Lemma eval_modify f w p : modify f w p = (Ok tt, f p).
Proof. reflexivity. Qed.
Lemma eval_emit e w p : emit e w p = (Ok tt, with_log (log p ++ [e]) p).
Proof. reflexivity. Qed.
Lemma eval_add_timer cb delay per w p :
  add_timer cb delay per w p
  = (Ok (next_timer p),
     with_timers (timers p ++ [mkTimer (next_timer p) (now p + delay) per cb])
                 (S (next_timer p)) p).
Proof. reflexivity. Qed.

Ltac look := tidy; lookups; reflexivity.

Ltac walk :=
  tidy;
  lazymatch goal with
  | |- bind _ _ _ _ = _ =>
      first [ eapply eval_bind_ok; [walk | walk] | eapply eval_bind_throw; walk ]
  | |- try_catch _ _ _ _ = _ =>
      first [ eapply eval_try_ok; walk | eapply eval_try_throw; [walk | walk] ]
  | |- detached _ _ _ = _ => unfold detached; walk
  | |- assign _ _ _ _ = _ =>
      first [ eapply eval_assign; look | eapply eval_assign_null; look ]
  | |- read _ _ _ _ = _ => eapply eval_read; look
  | |- getElementById _ _ _ = _ => eapply eval_getElementById; look
  | |- assign_span_text _ _ _ _ = _ =>
      unfold assign_span_text, span_of; cbv delta [String.append]; walk
  | |- ret _ _ _ = _ => apply eval_ret
  | |- throw _ _ _ = _ => apply eval_throw
  | |- world _ _ = _ => apply eval_world
  | |- page _ _ = _ => apply eval_page
  | |- modify _ _ _ = _ => apply eval_modify
  | |- emit _ _ _ = _ => apply eval_emit
  | |- add_timer _ _ _ _ _ = _ => apply eval_add_timer
  | |- setTimeout _ _ _ _ = _ => apply eval_add_timer
  | |- setInterval _ _ _ _ = _ => apply eval_add_timer
  | |- fetch _ _ _ = _ => unfold fetch; walk
  | |- response_json _ _ _ = _ => unfold response_json; simpl_page; walk
  | |- getCurrentPosition _ _ _ = _ => unfold getCurrentPosition; walk
  | |- (match ?x with _ => _ end) _ _ = _ =>
      first [ progress use_world; cbv beta iota delta [negb]; walk
            | progress (cbn [negb andb orb]); walk ]
  | |- (if ?x then _ else _) _ _ = _ =>
      first [ progress use_world; cbv beta iota delta [negb]; walk
            | progress (cbn [negb andb orb]); walk ]
  | |- ?t = _ => let h := head_of t in progress unfold h; walk
  end.

(** One step forward: the first part of a [bind] is evaluated. *)
Ltac advance := erewrite bind_step; [| solve [walk]]; tidy.

Lemma on_submit_gps_failure w p :
  student_page p -> gps_fails w ->
  let q := exec TwoStep.on_submit w p in
  shown gps_failed_message (js "info") (now p + 6000) q
  /\ (disabled <$> dom q !! "mark-btn") = Some true
  /\ (textContent <$> dom q !! "mark-btn span") = Some (js "Getting GPS Location...")
  /\ (style_display <$> dom q !! "wifi-prompt-modal") = Some (js "block")
  /\ modal_open q = true.
Proof.
  intros Hp Hgps q. subst q. elements.
  assert (Hcases : geolocation (device w) = false
                   \/ geolocation (device w) = true
                      /\ exists err, geo_current w gps_options = GeoError err).
  { destruct Hgps as [H | H]; [now left |].
    destruct (geolocation (device w)); [right; now split | now left]. }
  destruct Hcases as [Hsup | [Hsup [err Hgeo]]]; unfold gps_options in *.
  all: eassert (H : TwoStep.on_submit w p = _);
    [ unfold TwoStep.on_submit, TwoStep.markButton, TwoStep.spinner, TwoStep.wifiModal; walk
    | unfold exec; rewrite H; clear H; tidy ].
  all: repeat split; lookups; try reflexivity.
  all: unfold shown; do 2 eexists; tidy; (split; [look |]); repeat split.
  all: apply in_or_app; right; now left.
Qed.

Lemma extends_nil_dom p q id : extends [] p q -> dom q !! id = dom p !! id.
Proof. intros H. apply (ext_same _ _ _ H). intros []. Qed.

Lemma on_retry_click_google_failure w p :
  student_page p -> google_fails w ->
  let q := exec TwoStep.on_retry_click w p in
  shown google_failed_message (js "error") (now p + 6000) q
  /\ (disabled <$> dom q !! "mark-btn") = Some false
  /\ (style_display <$> dom q !! "button-spinner") = Some (js "none")
  /\ (textContent <$> dom q !! "mark-btn span") = Some (js "Mark My Attendance")
  /\ (style_display <$> dom q !! "troubleshooting-tips") = Some (js "block").
Proof.
  intros Hp Hg q. subst q. elements.
  unfold exec, TwoStep.on_retry_click, TwoStep.markButton, TwoStep.spinner, TwoStep.wifiModal.
  do 2 advance.
  match goal with |- context [try_catch _ _ w ?P] => set (p1 := P) end.
  destruct (Hg p1) as [e He].
  pose proof (frames_getGoogleApiLocation [] w p1) as Hf.
  unfold outcome, exec in He, Hf.
  destruct (TwoStep.getGoogleApiLocation w p1) as [r p2] eqn:Hrun. simpl in He, Hf. subst r.
  assert (Hdom : forall id, dom p2 !! id = dom p1 !! id)
    by (intros id; now apply extends_nil_dom).
  pose proof (Hdom "status-message") as H1. pose proof (Hdom "mark-btn") as H2.
  pose proof (Hdom "mark-btn span") as H3. pose proof (Hdom "button-spinner") as H4.
  pose proof (Hdom "troubleshooting-tips") as H5.
  subst p1. tidy. revert H1 H2 H3 H4 H5. tidy. lookups. intros H1 H2 H3 H4 H5.
  pose proof (ext_now _ _ _ Hf) as Hnow. pose proof (ext_timers _ _ _ Hf) as (ts & Hts & _).
  cbn [now timers] in Hnow, Hts. clear Hdom Hf.
  match goal with
  | |- context [try_catch ?m ?h w ?P] => eassert (H : try_catch m h w P = _)
  end.
  { eapply eval_try_throw.
    - eapply eval_bind_throw. exact Hrun.
    - unfold TwoStep.resetSubmitButton, TwoStep.markButton, TwoStep.spinner. walk. }
  rewrite H. clear H. tidy.
  repeat split; lookups; try reflexivity.
  unfold shown. do 2 eexists. tidy. split; [look |]. repeat split.
  rewrite Hnow. apply in_or_app. right. now left.
Qed.

(** *** The form post *)

Lemma since_app p q l : log q = log p ++ l -> since p q = l.
Proof. intros H. unfold since. rewrite H. now rewrite List.skipn_app, List.skipn_all, Nat.sub_diag. Qed.

Lemma fetch_run r w p :
  fetch r w p
  = match net w r with
    | NetworkError => (Throw NetworkFailure, with_log (log p ++ [Fetch r]) p)
    | Response ok st j => (Ok (mkResponse ok st j), with_log (log p ++ [Fetch r]) p)
    end.
Proof. unfold fetch, bind, emit, modify, world. destruct (net w r); reflexivity. Qed.

Lemma filter_nil_of_length {A} (f : A -> bool) l :
  (length (List.filter f l) <= 0)%nat -> List.filter f l = [].
Proof. destruct (List.filter f l); simpl; [reflexivity | lia]. Qed.

Lemma handle_posts_once w p position method session input :
  activeSessionDataStudent w = Some session ->
  dom p !! "enrollment_no" = Some input ->
  let q := exec (TwoStep.handleAttendanceSubmission position method) w p in
  exists rest,
    since p q = Fetch (mark_attendance_request w (value input) (session_id session)
                         position method) :: rest
    /\ List.filter (counts MarkAttendance) rest = [].
Proof.
  intros Hs Hin q. subst q.
  unfold exec, TwoStep.handleAttendanceSubmission, TwoStep.enrollmentInput, TwoStep.formData.
  do 2 advance. rewrite Hs.
  fold (mark_attendance_request w (value input) (session_id session) position method).
  set (req := mark_attendance_request _ _ _ _ _).
  match goal with |- context [bind (fetch req) ?K w p] => set (k := K) end.
  unfold bind. rewrite fetch_run.
  destruct (net w req) as [|ok st j].
  - exists []. split; [| reflexivity]. now apply since_app.
  - assert (Hk : costs (counts MarkAttendance) 0 (k (mkResponse ok st j))).
    { subst k. unfold TwoStep.attendanceForm, TwoStep.wifiModal. free. }
    destruct (Hk w (with_log (log p ++ [Fetch req]) p)) as (l & Hl & Hn).
    exists l. split; [| now apply filter_nil_of_length].
    apply since_app. unfold exec in Hl. rewrite Hl. simpl. now rewrite <- app_assoc.
Qed.

Lemma handle_success w p position method session input form result ok st :
  activeSessionDataStudent w = Some session ->
  dom p !! "enrollment_no" = Some input ->
  dom p !! "attendance-form" = Some form ->
  net w (mark_attendance_request w (value input) (session_id session) position method)
    = Response ok st (Some result) ->
  success result = true ->
  let q := exec (TwoStep.handleAttendanceSubmission position method) w p in
  (style_display <$> dom q !! "attendance-form") = Some (js "none")
  /\ (has p "present-students-list" ->
      exists rest,
        since p q
        = Fetch (mark_attendance_request w (value input) (session_id session) position method)
          :: Fetch (present_students_request (session_id session)) :: rest
        /\ List.forallb (fun e => negb (is_fetch e)) rest = true).
Proof.
  intros Hs Hin Hform Hnet Hok q. subst q.
  unfold exec, TwoStep.handleAttendanceSubmission, TwoStep.enrollmentInput, TwoStep.formData,
    TwoStep.attendanceForm.
  do 2 advance. rewrite Hs.
  fold (mark_attendance_request w (value input) (session_id session) position method).
  set (req := mark_attendance_request _ _ _ _ _) in *.
  erewrite bind_step; [| rewrite fetch_run, Hnet; reflexivity].
  advance. rewrite Hok.
  destruct (dom p !! "status-message") as [status|] eqn:Hstatus.
  all: do 2 (erewrite bind_step; [| solve [walk]]).
  all: match goal with |- context [detached _ _ ?P] => set (p3 := P) end.
  all: tidy.
  all: pose proof (frames_fetchPresentStudents ["present-students-list"] (session_id session)
                ltac:(now left) w p3) as Hf.
  all: assert (Hq : (detached (TwoStep.fetchPresentStudents (session_id session)) w p3).2
               = exec (TwoStep.fetchPresentStudents (session_id session)) w p3)
    by (unfold detached, try_catch, exec;
        now destruct (TwoStep.fetchPresentStudents (session_id session) w p3) as [[[]|e] p4]).
  all: rewrite Hq; split;
    [ rewrite (ext_same _ _ _ Hf) by (simpl; intuition discriminate);
      subst p3; tidy; lookups; reflexivity
    | intros [lst Hlist];
      assert (Hlist3 : is_Some (dom p3 !! "present-students-list"))
        by (subst p3; tidy; lookups; eauto);
      destruct (fetchPresentStudents_log w p3 (session_id session) Hlist3)
        as (rest & Hl & Hr);
      exists rest; split; [| assumption]; apply since_app; rewrite Hl;
      subst p3; tidy; now rewrite <- app_assoc ].
Qed.

Lemma handle_rejected w p position method session input btn sp span result ok st :
  activeSessionDataStudent w = Some session ->
  dom p !! "enrollment_no" = Some input ->
  dom p !! "mark-btn" = Some btn ->
  dom p !! "button-spinner" = Some sp ->
  dom p !! "mark-btn span" = Some span ->
  net w (mark_attendance_request w (value input) (session_id session) position method)
    = Response ok st (Some result) ->
  success result = false ->
  category result <> js "retry_high_accuracy" ->
  let q := exec (TwoStep.handleAttendanceSubmission position method) w p in
  (disabled <$> dom q !! "mark-btn") = Some false
  /\ (style_display <$> dom q !! "button-spinner") = Some (js "none")
  /\ (textContent <$> dom q !! "mark-btn span") = Some (js "Mark My Attendance").
Proof.
  intros Hs Hin Hbtn Hsp Hspan Hnet Hok Hcat q. subst q.
  assert (Hjs : jseq (category result) (js "retry_high_accuracy") = false)
    by (now apply bool_decide_eq_false).
  unfold mark_attendance_request in Hnet.
  destruct (dom p !! "status-message") as [status|] eqn:Hstatus;
    destruct (includes (message result) (js "away")) eqn:Haway;
    destruct (dom p !! "troubleshooting-tips") as [tips|] eqn:Htips.
  all: eassert (H : TwoStep.handleAttendanceSubmission position method w p = _);
    [ unfold TwoStep.handleAttendanceSubmission, TwoStep.enrollmentInput, TwoStep.formData,
        TwoStep.attendanceForm, TwoStep.resetSubmitButton, TwoStep.markButton, TwoStep.spinner;
      walk
    | unfold exec; rewrite H; clear H; tidy; repeat split; lookups; reflexivity ].
Qed.

(** *** How often the handlers call the platform *)

Ltac budget :=
  match goal with
  | |- forall _, _ => intro; budget
  | |- costs _ 1 (bind _ _) =>
      first [ apply (costs_bind _ 0 1); [solve [free] | budget]
            | apply (costs_bind _ 1 0); [budget | solve [free]] ]
  | |- costs _ 1 (try_catch _ _) =>
      first [ apply (costs_try_catch _ 1 0); [budget | solve [free]]
            | apply (costs_try_catch _ 0 1); [solve [free] | budget] ]
  | |- costs _ 1 (detached _) => apply costs_detached; budget
  | |- costs _ 1 (match ?x with _ => _ end) => destruct x; budget
  | |- costs _ 1 (let _ := _ in _) => cbv zeta; budget
  | |- costs _ 1 (emit _) => apply costs_emit; lia
  | |- costs _ 1 ?m =>
      first [ solve [auto with costs]
            | apply (costs_weaken _ _ 0 1); [lia | solve [free]]
            | let h := head_of m in progress unfold h; budget ]
  end.

Lemma submit_geolocation_once : costs (counts Geolocation) 1 TwoStep.on_submit.
Proof. budget. Qed.

Lemma submit_posts_once : costs (counts MarkAttendance) 1 TwoStep.on_submit.
Proof. budget. Qed.

Lemma submit_no_google : costs (counts GoogleApi) 0 TwoStep.on_submit.
Proof. free. Qed.

Lemma retry_no_geolocation : costs (counts Geolocation) 0 TwoStep.on_retry_click.
Proof. free. Qed.

Lemma retry_google_once : costs (counts GoogleApi) 1 TwoStep.on_retry_click.
Proof. budget. Qed.

Lemma retry_posts_once : costs (counts MarkAttendance) 1 TwoStep.on_retry_click.
Proof. budget. Qed.

Lemma costs_since {A} wt n (m : M A) w p :
  costs wt n m -> (length (List.filter wt (since p (exec m w p))) <= n)%nat.
Proof. intros H. destruct (H w p) as (l & Hl & Hn). now rewrite (since_app _ _ _ Hl). Qed.

(** The timer that [showStatusMessage] set hides the message. *)
Lemma hide_status_fires w t time q :
  has q "status-message" -> callback t = HideStatus ->
  (style_display <$> dom (TwoStep.fire w t time q) !! "status-message") = Some (js "none").
Proof.
  intros [e He] Hcb. unfold TwoStep.fire. rewrite Hcb. unfold TwoStep.run_callback.
  unfold exec, detached, try_catch, assign. tidy. rewrite He. tidy. lookups. reflexivity.
Qed.

(** *** The lookup behind the debounced input handler *)

Lemma since_refl p : since p p = [].
Proof. apply since_app. now rewrite app_nil_r. Qed.

Lemma since_same p q : log q = log p -> since p q = [].
Proof. intros H. apply since_app. now rewrite app_nil_r. Qed.

Lemma lookup_short w p input lookup :
  dom p !! "enrollment_no" = Some input ->
  In lookup lookups_of_all_revisions ->
  jslength (trim (value input)) < 5 ->
  let q := exec lookup w p in
  since p q = []
  /\ forall d, dom p !! "student-name-display" = Some d ->
               dom q !! "student-name-display" = Some (set_textContent [] d).
Proof.
  intros Hin Hl Hlen q. subst q.
  apply Z.leb_gt in Hlen.
  destruct (dom p !! "student-name-display") as [d|] eqn:Hd.
  all: destruct Hl as [<- | [<- | [<- | []]]].
  all: unfold exec.
  all: match goal with |- context [snd (?prog ?W ?P)] =>
         let H := fresh "Hrun" in
         eassert (H : prog W P = _);
         [ unfold TwoStep.enrollment_lookup, MainJsBrowser.enrollment_lookup,
             MainJsGoogle.enrollment_lookup, TwoStep.enrollmentInput,
             MainJsBrowser.enrollmentInput, MainJsGoogle.enrollmentInput; solve [walk]
         | rewrite H; clear H; tidy ]
       end.
  all: split; [apply since_same; reflexivity |].
  all: first [intros d' [= <-] | intros d' [=]]; lookups; reflexivity.
Qed.

Lemma lookup_long w p input lookup :
  dom p !! "enrollment_no" = Some input ->
  In lookup lookups_of_all_revisions ->
  5 <= jslength (trim (value input)) ->
  has p "student-name-display" ->
  since p (exec lookup w p) = [Fetch (student_name_request (trim (value input)))].
Proof.
  intros Hin Hl Hlen [d Hd].
  apply Z.leb_le in Hlen.
  destruct (net w (student_name_request (trim (value input)))) as [|ok st [data|]] eqn:Hnet.
  all: unfold student_name_request in Hnet.
  all: destruct Hl as [<- | [<- | [<- | []]]].
  all: unfold exec.
  all: match goal with |- context [snd (?prog ?W ?P)] =>
         let H := fresh "Hrun" in
         eassert (H : prog W P = _);
         [ unfold TwoStep.enrollment_lookup, MainJsBrowser.enrollment_lookup,
             MainJsGoogle.enrollment_lookup, TwoStep.enrollmentInput,
             MainJsBrowser.enrollmentInput, MainJsGoogle.enrollmentInput; solve [walk]
         | rewrite H; clear H; tidy ]
       end.
  all: apply since_app; reflexivity.
Qed.

(** *** The two revisions of main.js *)

Lemma exec_detached (m : M unit) w p : (detached m w p).2 = (m w p).2.
Proof. unfold detached, try_catch. now destruct (m w p) as [[[]|e] q]. Qed.

Lemma since_trans p p2 q l0 l :
  log p2 = log p ++ l0 -> log q = log p2 ++ l -> since p q = l0 ++ l.
Proof. intros H1 H2. apply since_app. now rewrite H2, H1, app_assoc. Qed.

Lemma Qlt_bool_true x y : Qlt_bool x y = true <-> (x < y)%Q.
Proof.
  unfold Qlt_bool. rewrite negb_true_iff. split.
  - intros H. apply Qnot_le_lt. intros Hle. apply Qle_bool_iff in Hle. congruence.
  - intros H. destruct (Qle_bool y x) eqn:Hb; [| reflexivity].
    apply Qle_bool_iff in Hb. exfalso. now apply (Qlt_not_le x y).
Qed.

Lemma Qlt_bool_false x y : Qlt_bool x y = false <-> (y <= x)%Q.
Proof.
  unfold Qlt_bool. rewrite negb_false_iff. apply Qle_bool_iff.
Qed.

Section GetAccurateLocation.
Variables (successCallback : Position -> M unit) (errorCallback : JsString -> M unit).
Hypothesis success_quiet : forall pos, costs (counts Geolocation) 0 (successCallback pos).
Hypothesis error_quiet : forall msg, costs (counts Geolocation) 0 (errorCallback msg).

Lemma callback_requests {A} (m : M A) w p p2 l0 :
  costs (counts Geolocation) 0 m ->
  log p2 = log p ++ l0 ->
  List.filter is_geolocation_request (since p (m w p2).2)
  = List.filter is_geolocation_request l0.
Proof.
  intros Hm Hl. destruct (Hm w p2) as (l & Hq & Hn). unfold exec in Hq.
  rewrite (since_trans p p2 _ l0 l Hl Hq), List.filter_app.
  change (counts Geolocation) with is_geolocation_request in Hn.
  rewrite (filter_nil_of_length _ _ Hn). apply app_nil_r.
Qed.

Lemma callback_keeps {A} (m : M A) w p p2 l0 e :
  costs (counts Geolocation) 0 m ->
  log p2 = log p ++ l0 -> In e l0 -> In e (since p (m w p2).2).
Proof.
  intros Hm Hl He. destruct (Hm w p2) as (l & Hq & _). unfold exec in Hq.
  rewrite (since_trans p p2 _ l0 l Hl Hq). apply in_or_app. now left.
Qed.

Lemma getAccurateLocation_requests w p :
  geolocation (device w) = true ->
  let q := exec (MainJsBrowser.getAccurateLocation successCallback errorCallback) w p in
  let requests := List.filter is_geolocation_request (since p q) in
  let low := MainJsBrowser.low_accuracy_options in
  let high := MainJsBrowser.high_accuracy_options in
  match geo_current w low with
  | GeoSuccess pos =>
      ((accuracy (coords pos) < 150)%Q -> requests = [GetCurrentPosition low])
      /\ ((150 <= accuracy (coords pos))%Q ->
          requests = [GetCurrentPosition low; WatchPosition high (next_watch p)]
          /\ In (ClearWatch (next_watch p)) (since p q))
  | GeoError _ => requests = [GetCurrentPosition low]
  end.
Proof.
  intros Hsup q requests low high. subst q requests low high.
  unfold exec, MainJsBrowser.getAccurateLocation.
  destruct (dom p !! "status-message") as [status|] eqn:Hstatus.
  all: do 2 advance; rewrite Hsup; cbv beta iota delta [negb]; advance.
  all: rewrite exec_detached.
  all: destruct (geo_current w MainJsBrowser.low_accuracy_options) as [pos|err] eqn:Hgeo.
  all: try solve [erewrite callback_requests;
                    [| apply error_quiet | tidy; rewrite <- ?app_assoc; reflexivity]; reflexivity].
  all: split; [intros Hacc; apply Qlt_bool_true in Hacc | intros Hacc; apply Qlt_bool_false in Hacc].
  all: rewrite Hacc.
  all: try solve [erewrite callback_requests;
                    [| apply success_quiet | tidy; rewrite <- ?app_assoc; reflexivity]; reflexivity].
  all: do 2 advance.
  all: destruct (geo_watch w MainJsBrowser.high_accuracy_options) as [pos2|err2] eqn:Hwatch.
  all: advance.
  all: split;
    [ erewrite callback_requests;
        [| first [apply success_quiet | apply error_quiet] | tidy; rewrite <- ?app_assoc; reflexivity]; reflexivity
    | eapply callback_keeps;
        [first [apply success_quiet | apply error_quiet] | tidy; rewrite <- ?app_assoc; reflexivity |];
      simpl; tauto ].
Qed.

End GetAccurateLocation.

Lemma browser_callbacks_quiet :
  (forall pos, costs (counts Geolocation) 0 (MainJsBrowser.submit_successCallback pos))
  /\ (forall msg, costs (counts Geolocation) 0 (MainJsBrowser.submit_errorCallback msg)).
Proof. split; free. Qed.

(** [src/static/main.js:499-528] when the first geolocation request fails. *)
Lemma browser_submit_denied w p err :
  has p "status-message" -> has p "mark-btn" ->
  geolocation (device w) = true ->
  geo_current w MainJsBrowser.low_accuracy_options = GeoError err ->
  let q := exec MainJsBrowser.on_submit w p in
  shown (js "Could not get location: " ++ error_message err) (js "error") (now p + 5000) q
  /\ (disabled <$> dom q !! "mark-btn") = Some false
  /\ (textContent <$> dom q !! "mark-btn") = Some (js "Mark My Attendance").
Proof.
  intros [status Hstatus] [btn Hbtn] Hsup Hgeo q. subst q.
  eassert (H : MainJsBrowser.on_submit w p = _).
  { unfold MainJsBrowser.on_submit, MainJsBrowser.markButton. walk. }
  unfold exec. rewrite H. clear H. tidy.
  repeat split; lookups; try reflexivity.
  unfold shown. do 2 eexists. tidy. split; [look |]. repeat split.
  apply in_or_app. right. now left.
Qed.

(** [src/static/main.js:186-192], the error callback of the Google-only
    revision. *)
Lemma google_errorCallback_resets w p error :
  student_page p ->
  let q := exec (MainJsGoogle.submit_errorCallback error) w p in
  shown error (js "error") (now p + 6000) q
  /\ (disabled <$> dom q !! "mark-btn") = Some false
  /\ (style_display <$> dom q !! "button-spinner") = Some (js "none")
  /\ (textContent <$> dom q !! "mark-btn span") = Some (js "Mark My Attendance").
Proof.
  intros Hp q. subst q. elements.
  eassert (H : MainJsGoogle.submit_errorCallback error w p = _).
  { unfold MainJsGoogle.submit_errorCallback, MainJsGoogle.markButton, MainJsGoogle.spinner.
    walk. }
  unfold exec. rewrite H. clear H. tidy.
  repeat split; lookups; try reflexivity.
  unfold shown. do 2 eexists. tidy. split; [look |]. repeat split.
  apply in_or_app. right. now left.
Qed.

(* ===================================================================== *)
(** ** Properties of the pages *)
(* ===================================================================== *)

(** *** Facts about the sample page *)

Lemma page0_student_page : student_page page0.
Proof.
  unfold student_page, student_ids, page_ids.
  repeat constructor; (exists blank + exists (set_value (js "Y24120001") blank));
    vm_compute; reflexivity.
Qed.

Lemma page0_fresh : fresh page0.
Proof. repeat split. Qed.

Lemma page0_has id : In id student_ids -> has page0 id.
Proof.
  intros H. pose proof page0_student_page as Hp. unfold student_page in Hp.
  rewrite List.Forall_forall in Hp. now apply Hp.
Qed.

(** *** The poll of the present-students list *)

(** When the poll fires it fetches the list once and is scheduled again,
    10 seconds later, whatever the fetch does. *)
Lemma fire_poll w t time p k sid :
  polling k sid p -> In t (timers p) -> timer_id t = k ->
  let q := TwoStep.fire w t time p in
  (exists rest, since p q = Fetch (present_students_request sid) :: rest
                /\ List.forallb (fun e => negb (is_fetch e)) rest = true)
  /\ In (mkTimer k (time + 10000) (Some 10000) (PollPresentStudents sid)) (timers q).
Proof.
  intros Hp Ht Hk q. subst q.
  destruct (poll_only _ _ _ Hp t Ht Hk) as [Hcb Hper].
  unfold TwoStep.fire. rewrite Hcb, Hper, Hk. unfold TwoStep.run_callback.
  set (p1 := with_timers _ _ _).
  unfold exec. rewrite !exec_detached.
  assert (Hlist : is_Some (dom p1 !! "present-students-list")) by (destruct Hp; assumption).
  destruct (fetchPresentStudents_log w p1 sid Hlist) as (rest & Hlog & Hrest).
  pose proof (frames_fetchPresentStudents ["present-students-list"] sid ltac:(now left) w p1)
    as Hf.
  unfold exec in Hlog, Hf. split.
  - exists rest. split; [| assumption]. apply since_app. exact Hlog.
  - destruct (ext_timers _ _ _ Hf) as (ts & Hts & _). rewrite Hts.
    apply in_or_app. left. subst p1. simpl. apply in_or_app. right. now left.
Qed.



(** *** The name lookup *)

(** Typing in the enrollment field only sets the debounce timer. *)
Lemma type_enrollment_quiet v w p : since p (exec (TwoStep.type_enrollment v) w p) = [].
Proof.
  apply since_same. unfold TwoStep.type_enrollment, TwoStep.on_input, debounce,
    TwoStep.enrollmentInput.
  run. destruct (dom p !! "enrollment_no"); run; destruct (lookup_timeout p); reflexivity.
Qed.

(** C9.  In each of the three revisions, the function behind the debounced
    input handler reads the enrollment field and trims it; when fewer than 5
    code units are left it makes no request and sets the name display to the
    empty string, and when at least 5 are left it makes exactly one request,
    for the trimmed value.  So a lookup request implies a trimmed length of
    at least 5.  Typing itself, which only sets the timer, makes no request. *)
Theorem name_lookup_needs_five (w : World) (p : Page) (input : Element) (lookup : M unit) :
  dom p !! "enrollment_no" = Some input ->
  has p "student-name-display" ->
  In lookup lookups_of_all_revisions ->
  let q := exec lookup w p in
  let enrollmentNo := trim (value input) in
  (jslength enrollmentNo < 5 ->
     since p q = []
     /\ (textContent <$> dom q !! "student-name-display") = Some [])
  /\ (5 <= jslength enrollmentNo ->
      since p q = [Fetch (student_name_request enrollmentNo)])
  /\ (forall r, In (Fetch r) (since p q) ->
      5 <= jslength enrollmentNo /\ r = student_name_request enrollmentNo)
  /\ (forall v, since p (exec (TwoStep.type_enrollment v) w p) = []).
Proof.
  intros Hin [d Hd] Hl q enrollmentNo.
  assert (Hshort : jslength enrollmentNo < 5 ->
            since p q = []
            /\ (textContent <$> dom q !! "student-name-display") = Some []).
  { intros Hlen. destruct (lookup_short w p input lookup Hin Hl Hlen) as [H1 H2].
    split; [exact H1 |]. fold q in H2. now rewrite (H2 d Hd). }
  assert (Hlong : 5 <= jslength enrollmentNo ->
            since p q = [Fetch (student_name_request enrollmentNo)]).
  { intros Hlen. apply lookup_long; eauto. now exists d. }
  repeat split; try (apply Hshort; assumption); try (now apply Hlong).
  - destruct (Z.lt_ge_cases (jslength enrollmentNo) 5) as [Hlt | Hge]; [| assumption].
    destruct (Hshort Hlt) as [Hnil _]. rewrite Hnil in H. destruct H.
  - destruct (Z.lt_ge_cases (jslength enrollmentNo) 5) as [Hlt | Hge].
    + destruct (Hshort Hlt) as [Hnil _]. rewrite Hnil in H. destruct H.
    + rewrite (Hlong Hge) in H. destruct H as [[= <-] | []]. reflexivity.
  - intros v. apply type_enrollment_quiet.
Qed.

Lemma name_lookup_needs_five_witness :
  let w := online 10 accepted in
  let q := exec TwoStep.enrollment_lookup w page0 in
  let enrollmentNo := trim (js "Y24120001") in
  (jslength enrollmentNo < 5 ->
     since page0 q = []
     /\ (textContent <$> dom q !! "student-name-display") = Some [])
  /\ (5 <= jslength enrollmentNo ->
      since page0 q = [Fetch (student_name_request enrollmentNo)])
  /\ (forall r, In (Fetch r) (since page0 q) ->
      5 <= jslength enrollmentNo /\ r = student_name_request enrollmentNo)
  /\ (forall v, since page0 (exec (TwoStep.type_enrollment v) w page0) = []).
Proof.
  apply (name_lookup_needs_five (online 10 accepted) page0
           (set_value (js "Y24120001") blank) TwoStep.enrollment_lookup).
  - vm_compute. reflexivity.
  - apply page0_has. simpl. tauto.
  - simpl. tauto.
Defined.

(** The two sides of the threshold on the sample page: nine characters
    are looked up, four are not. *)
Example lookup_of_nine_characters :
  since page0 (exec TwoStep.enrollment_lookup (online 10 accepted) page0)
  = [Fetch (student_name_request (js "Y24120001"))].
Proof. vm_compute. reflexivity. Qed.

Example lookup_of_four_characters :
  let p := with_dom (<["enrollment_no" := set_value (js "  Y241  ") blank]> student_dom) page0 in
  since p (exec TwoStep.enrollment_lookup (online 10 accepted) p) = [].
Proof. vm_compute. reflexivity. Qed.

(** *** The fingerprint as the device key *)


(** *** Location acquisition *)

Lemma try_bind_ok {A B} (m : M A) (k : A -> M B) (h : Exn -> M B) w p a p1 :
  m w p = (Ok a, p1) -> try_catch (bind m k) h w p = try_catch (k a) h w p1.
Proof. intros H. unfold try_catch, bind. now rewrite H. Qed.

(** The one position request of the submit handler of part_000 is the
    high-accuracy request with a timeout of 8 seconds. *)
Lemma submit_location_request w p :
  student_page p ->
  List.filter is_geolocation_request (since p (exec TwoStep.on_submit w p))
  = if geolocation (device w) then [GetCurrentPosition gps_options] else [].
Proof.
  intros Hp. elements.
  destruct (geolocation (device w)) eqn:Hsup;
    [destruct (geo_current w gps_options) as [pos|err] eqn:Hgeo; unfold gps_options in Hgeo |].
  - unfold exec, TwoStep.on_submit, TwoStep.markButton, TwoStep.spinner, TwoStep.wifiModal.
    do 5 advance.
    erewrite try_bind_ok; [| unfold TwoStep.getBrowserGpsLocation; solve [walk]].
    erewrite callback_requests; [| | tidy; rewrite <- ?app_assoc; reflexivity].
    + reflexivity.
    + unfold TwoStep.wifiModal. free.
  - eassert (H : TwoStep.on_submit w p = _);
      [ unfold TwoStep.on_submit, TwoStep.markButton, TwoStep.spinner, TwoStep.wifiModal; walk
      | unfold exec; rewrite H; clear H; tidy ].
    erewrite since_app; [| tidy; rewrite <- ?app_assoc; reflexivity]. reflexivity.
  - eassert (H : TwoStep.on_submit w p = _);
      [ unfold TwoStep.on_submit, TwoStep.markButton, TwoStep.spinner, TwoStep.wifiModal; walk
      | unfold exec; rewrite H; clear H; tidy ].
    erewrite since_app; [| tidy; rewrite <- ?app_assoc; reflexivity]. reflexivity.
Qed.

(** The threshold itself is on the side of the escalation: a first
    position whose accuracy is exactly 150 m does not exceed 150 m, and the
    submit handler of main.js still goes on to the high-accuracy watch. *)
Lemma location_escalates_at_threshold :
  let w := online 150 accepted in
  let q := exec MainJsBrowser.on_submit w page0 in
  geo_current w MainJsBrowser.low_accuracy_options = GeoSuccess (here 150)
  /\ ~ (150 < accuracy (coords (here 150)))%Q
  /\ List.filter is_geolocation_request (since page0 q)
     = [GetCurrentPosition MainJsBrowser.low_accuracy_options;
        WatchPosition MainJsBrowser.high_accuracy_options 0].
Proof.
  split; [reflexivity |]. split.
  - intros H. vm_compute in H. discriminate H.
  - vm_compute. reflexivity.
Qed.

(** C1.  In main.js, [getAccurateLocation] first asks the browser for a
    low-accuracy position, with a timeout of 5000 ms.  If that request
    fails, or reports an accuracy below 150 m, it asks for nothing more.  If
    it reports an accuracy of 150 m or more, one high-accuracy watch with a
    timeout of 15000 ms follows, which is cleared after its first answer.
    In part_000 the submit handler asks for a position once, with high
    accuracy and a timeout of 8000 ms, whatever accuracy is reported, and
    never calls the external geolocation API; only the handler of the retry
    button calls it, at most once, and it asks the browser for nothing. *)
Theorem location_two_stage (successCallback : Position -> M unit)
    (errorCallback : JsString -> M unit) (w : World) (p : Page) :
  (forall pos, costs (counts Geolocation) 0 (successCallback pos)) ->
  (forall msg, costs (counts Geolocation) 0 (errorCallback msg)) ->
  geolocation (device w) = true ->
  let q := exec (MainJsBrowser.getAccurateLocation successCallback errorCallback) w p in
  let requests := List.filter is_geolocation_request (since p q) in
  let low := MainJsBrowser.low_accuracy_options in
  let high := MainJsBrowser.high_accuracy_options in
  (enableHighAccuracy low = false /\ timeout low = Some 5000
   /\ enableHighAccuracy high = true /\ timeout high = Some 15000)
  /\ match geo_current w low with
     | GeoSuccess pos =>
         ((accuracy (coords pos) < 150)%Q -> requests = [GetCurrentPosition low])
         /\ ((150 <= accuracy (coords pos))%Q ->
             requests = [GetCurrentPosition low; WatchPosition high (next_watch p)]
             /\ In (ClearWatch (next_watch p)) (since p q))
     | GeoError _ => requests = [GetCurrentPosition low]
     end
  /\ (enableHighAccuracy gps_options = true /\ timeout gps_options = Some 8000)
  /\ (student_page p ->
      List.filter is_geolocation_request (since p (exec TwoStep.on_submit w p))
      = [GetCurrentPosition gps_options])
  /\ List.filter (counts GoogleApi) (since p (exec TwoStep.on_submit w p)) = []
  /\ (length (List.filter (counts GoogleApi) (since p (exec TwoStep.on_retry_click w p))) <= 1)%nat
  /\ List.filter (counts Geolocation) (since p (exec TwoStep.on_retry_click w p)) = [].
Proof.
  intros Hs He Hsup q requests low high.
  split; [repeat split |]. split.
  - exact (getAccurateLocation_requests successCallback errorCallback Hs He w p Hsup).
  - split; [split; reflexivity |].
    split; [intros Hp; rewrite (submit_location_request w p Hp), Hsup; reflexivity |].
    split; [apply filter_nil_of_length, costs_since, submit_no_google |].
    split; [apply costs_since, retry_google_once |].
    apply filter_nil_of_length, costs_since, retry_no_geolocation.
Qed.

Lemma location_two_stage_witness :
  let w := online 150 accepted in
  let p := page0 in
  let low := MainJsBrowser.low_accuracy_options in
  let high := MainJsBrowser.high_accuracy_options in
  geolocation (device w) = true
  /\ geo_current w low = GeoSuccess (here 150)
  /\ List.filter is_geolocation_request
       (since p (exec (MainJsBrowser.getAccurateLocation MainJsBrowser.submit_successCallback
                         MainJsBrowser.submit_errorCallback) w p))
     = [GetCurrentPosition low; WatchPosition high (next_watch p)].
Proof.
  split; [reflexivity |]. split; [reflexivity |].
  destruct browser_callbacks_quiet as [Hs He].
  destruct (location_two_stage MainJsBrowser.submit_successCallback
              MainJsBrowser.submit_errorCallback (online 150 accepted) page0 Hs He eq_refl)
    as (_ & H & _).
  change (geo_current (online 150 accepted) MainJsBrowser.low_accuracy_options)
    with (GeoSuccess (here 150)) in H.
  cbv beta iota in H. destruct H as [_ H].
  assert (Hacc : (150 <= accuracy (coords (here 150)))%Q) by (vm_compute; discriminate).
  exact (proj1 (H Hacc)).
Defined.

(** *** Failures *)

(** Not every failure reaches the screen: when the fetch of the
    present-students list fails, the error goes to the console, and no
    status message is shown. *)
Lemma present_list_failure_is_silent :
  let q := exec (TwoStep.fetchPresentStudents 7) offline_denied page0 in
  net offline_denied (present_students_request 7) = NetworkError
  /\ since page0 q
     = [Fetch (present_students_request 7);
        ConsoleError (js "Could not fetch present students:")]
  /\ dom q !! "status-message" = Some blank
  /\ ~ (exists msg type hide_at, shown msg type hide_at q).
Proof.
  split; [reflexivity |]. split; [vm_compute; reflexivity |].
  assert (Hblank : dom (exec (TwoStep.fetchPresentStudents 7) offline_denied page0)
                     !! "status-message" = Some blank) by (vm_compute; reflexivity).
  split; [exact Hblank |].
  intros (msg & type & hide_at & e & id & He & _ & _ & Hd & _).
  rewrite Hblank in He. injection He as <-. discriminate Hd.
Qed.

(** C5.  On a complete student page the handlers of the submit button and
    of the retry button of part_000 never throw, and each of them leaves a
    status message on screen together with a timeout, 6 seconds later, that
    hides it.  A failed first location is reported by the message that asks
    for Wi-Fi, a failed Google location by the message that the advanced
    check failed.  The submit handler asks for a position at most once,
    posts the form at most once and never calls the Google API; the retry
    handler calls the Google API at most once, posts the form at most once
    and never asks the browser for a position. *)
Theorem submission_failures_surface (w : World) (p : Page) :
  student_page p ->
  let q1 := exec TwoStep.on_submit w p in
  let q2 := exec TwoStep.on_retry_click w p in
  let count k q := length (List.filter (counts k) (since p q)) in
  (outcome TwoStep.on_submit w p = Ok tt
   /\ outcome TwoStep.on_retry_click w p = Ok tt)
  /\ ((exists msg type, shown msg type (now p + 6000) q1)
      /\ (exists msg type, shown msg type (now p + 6000) q2))
  /\ (gps_fails w -> shown gps_failed_message (js "info") (now p + 6000) q1)
  /\ (google_fails w -> shown google_failed_message (js "error") (now p + 6000) q2)
  /\ (forall w' t time q, q = q1 \/ q = q2 -> In t (timers q) -> callback t = HideStatus ->
        (style_display <$> dom (TwoStep.fire w' t time q) !! "status-message")
        = Some (js "none"))
  /\ ((count Geolocation q1 <= 1)%nat /\ (count MarkAttendance q1 <= 1)%nat
      /\ count GoogleApi q1 = 0%nat)
  /\ ((count GoogleApi q2 <= 1)%nat /\ (count MarkAttendance q2 <= 1)%nat
      /\ count Geolocation q2 = 0%nat).
Proof.
  intros Hp q1 q2 count.
  pose proof (safe_on_submit w p Hp) as Hs1. pose proof (safe_on_retry_click w p Hp) as Hs2.
  assert (Hstatus : forall q, q = q1 \/ q = q2 -> has q "status-message").
  { assert (H0 : has p "status-message").
    { unfold student_page in Hp. rewrite List.Forall_forall in Hp. apply Hp. now left. }
    intros q [-> | ->].
    - apply (ext_keys _ _ _ (frames_on_submit w p)). exact H0.
    - apply (ext_keys _ _ _ (frames_on_retry_click w p)). exact H0. }
  split; [| split; [| split; [| split; [| split; [| split]]]]].
  - split.
    + destruct (outcome TwoStep.on_submit w p) as [[]|]; [reflexivity | destruct Hs1].
    + destruct (outcome TwoStep.on_retry_click w p) as [[]|]; [reflexivity | destruct Hs2].
  - split; [now apply shows_on_submit | now apply shows_on_retry_click].
  - intros Hgps. now apply on_submit_gps_failure.
  - intros Hg. now apply on_retry_click_google_failure.
  - intros w' t time q Hq _ Hcb. apply hide_status_fires; [now apply Hstatus | exact Hcb].
  - split; [apply costs_since, submit_geolocation_once |].
    split; [apply costs_since, submit_posts_once |].
    pose proof (costs_since _ _ _ w p submit_no_google). unfold count, q1. lia.
  - split; [apply costs_since, retry_google_once |].
    split; [apply costs_since, retry_posts_once |].
    pose proof (costs_since _ _ _ w p retry_no_geolocation). unfold count, q2. lia.
Qed.

Lemma submission_failures_surface_witness :
  let w := offline_denied in
  let p := page0 in
  let q1 := exec TwoStep.on_submit w p in
  let q2 := exec TwoStep.on_retry_click w p in
  student_page p
  /\ outcome TwoStep.on_submit w p = Ok tt
  /\ outcome TwoStep.on_retry_click w p = Ok tt
  /\ (exists msg type, shown msg type (now p + 6000) q1)
  /\ (exists msg type, shown msg type (now p + 6000) q2).
Proof.
  pose proof (submission_failures_surface offline_denied page0 page0_student_page)
    as ((H1 & H2) & (H3 & H4) & _).
  split; [exact page0_student_page |]. repeat split; assumption.
Defined.

(** The messages of the two handlers when nothing works. *)
Example offline_submit_asks_for_wifi :
  let q := exec TwoStep.on_submit offline_denied page0 in
  (textContent <$> dom q !! "status-message") = Some gps_failed_message
  /\ (className <$> dom q !! "status-message") = Some (js "status-message info")
  /\ timers q = [mkTimer 0 6000 None HideStatus].
Proof. vm_compute. repeat split; reflexivity. Qed.

Example offline_retry_reports_the_failure :
  let q := exec TwoStep.on_retry_click offline_denied page0 in
  (textContent <$> dom q !! "status-message") = Some google_failed_message
  /\ (className <$> dom q !! "status-message") = Some (js "status-message error")
  /\ timers q = [mkTimer 0 6000 None HideStatus].
Proof. vm_compute. repeat split; reflexivity. Qed.

(** *** From the location to the post *)

Import Properties MoreSamples.

Lemma truthy_number_true x : truthy_number x = true <-> ~ (x == 0)%Q.
Proof.
  unfold truthy_number. rewrite negb_true_iff. split.
  - intros H Heq. apply Qeq_bool_iff in Heq. congruence.
  - intros H. destruct (Qeq_bool x 0) eqn:Hb; [| reflexivity].
    apply Qeq_bool_iff in Hb. contradiction.
Qed.

Lemma usable_key_dec w :
  (exists key, usable_key w key)
  \/ (forall p, TwoStep.getGoogleApiLocation w p
                = (Throw (JsError (js "Configuration error: Google Maps API key is not set.")), p)).
Proof.
  unfold usable_key, TwoStep.getGoogleApiLocation.
  destruct (GOOGLE_MAPS_API_KEY w) as [key|] eqn:Hk;
    [| right; intros p; unfold bind at 1, world; now rewrite Hk].
  destruct key as [|c key]; [right; intros p; unfold bind at 1, world; now rewrite Hk |].
  destruct (jseq (c :: key) (js "YOUR_GOOGLE_MAPS_API_KEY")) eqn:Hj.
  - right. intros p. unfold bind at 1, world. rewrite Hk. cbn [truthy_string negb orb].
    now rewrite Hj.
  - left. exists (c :: key). repeat split; [discriminate |].
    apply bool_decide_eq_false in Hj. exact Hj.
Qed.

Lemma google_run w p key :
  usable_key w key ->
  TwoStep.getGoogleApiLocation w p
  = let p1 := with_log (log p ++ [Fetch (google_request key)]) p in
    match net w (google_request key) with
    | NetworkError => (Throw NetworkFailure, p1)
    | Response false st _ =>
        (Throw (JsError (js "Google API responded with status " ++ to_string st)), p1)
    | Response true st None => (Throw SyntaxError, p1)
    | Response true st (Some data) =>
        match location data, data_accuracy data with
        | Some (lat, lng), Some acc =>
            if truthy_number acc then (Ok (mkPosition (mkCoords lat lng acc)), p1)
            else (Throw (JsError (js "Could not determine location from Google's response.")), p1)
        | _, _ => (Throw (JsError (js "Could not determine location from Google's response.")), p1)
        end
    end.
Proof.
  intros (Hk & Hne & Hph). unfold TwoStep.getGoogleApiLocation.
  unfold bind at 1. unfold world at 1. rewrite Hk.
  assert (Hj : jseq key (js "YOUR_GOOGLE_MAPS_API_KEY") = false)
    by (now apply bool_decide_eq_false).
  destruct key as [|c key]; [congruence |]. cbn [truthy_string negb orb]. rewrite Hj.
  fold (google_request (c :: key)). cbv zeta.
  unfold bind at 1. rewrite fetch_run.
  destruct (net w (google_request (c :: key))) as [|[|] st [data|]]; try reflexivity.
  cbn [response_ok negb]. unfold response_json. cbn [response_body]. unfold bind, ret.
  destruct (location data) as [[lat lng]|], (data_accuracy data) as [acc|]; try reflexivity.
  destruct (truthy_number acc); reflexivity.
Qed.

(** Each of the two location attempts either gives a position or fails,
    and which of the two does not depend on the page. *)
Lemma gps_fails_or_finds w : gps_fails w \/ exists position, gps_finds w position.
Proof.
  unfold gps_fails, gps_finds. destruct (geolocation (device w)); [| left; now left].
  destruct (geo_current w gps_options) as [position | err] eqn:Hgeo.
  - right. now exists position.
  - left. right. now exists err.
Qed.

Lemma gps_finds_not_fails w position : gps_finds w position -> ~ gps_fails w.
Proof. intros [H1 H2] [H | [err H]]; congruence. Qed.

Lemma google_outcome_fixed w p p' :
  outcome TwoStep.getGoogleApiLocation w p = outcome TwoStep.getGoogleApiLocation w p'.
Proof.
  unfold outcome. destruct (usable_key_dec w) as [[key Hkey] | Hno].
  - rewrite !(google_run _ _ key Hkey). cbv zeta.
    destruct (net w (google_request key)) as [|[|] st [data|]]; try reflexivity.
    destruct (location data) as [[lat lng]|], (data_accuracy data) as [acc|]; try reflexivity.
    destruct (truthy_number acc); reflexivity.
  - now rewrite !Hno.
Qed.

Lemma google_fails_or_finds w : google_fails w \/ exists position, google_finds w position.
Proof.
  destruct (outcome TwoStep.getGoogleApiLocation w page0) as [position | e] eqn:Hrun.
  - right. exists position. intros p. now rewrite (google_outcome_fixed w p page0).
  - left. intros p. exists e. now rewrite (google_outcome_fixed w p page0).
Qed.

Lemma google_finds_not_fails w position : google_finds w position -> ~ google_fails w.
Proof. intros H1 H2. destruct (H2 page0) as [e He]. rewrite (H1 page0) in He. discriminate. Qed.

(** The post is the one request of [handleAttendanceSubmission] that is
    counted as a mark. *)
Lemma mark_request_counts w enrollment sid position method :
  counts MarkAttendance (Fetch (mark_attendance_request w enrollment sid position method)) = true.
Proof. reflexivity. Qed.

(** With an answer in JSON the function completes; without one it throws
    right after the post. *)
Lemma handle_answered_ok w p position method session input result ok st :
  student_page p ->
  activeSessionDataStudent w = Some session ->
  dom p !! "enrollment_no" = Some input ->
  net w (mark_attendance_request w (value input) (session_id session) position method)
    = Response ok st (Some result) ->
  outcome (TwoStep.handleAttendanceSubmission position method) w p = Ok tt.
Proof.
  intros Hp Hs Hin Hnet. unfold mark_attendance_request in Hnet.
  destruct (success result) eqn:Hok.
  - unfold outcome, TwoStep.handleAttendanceSubmission, TwoStep.enrollmentInput,
      TwoStep.formData, TwoStep.attendanceForm.
    elements. rewrite Hin in *.
    do 2 advance. rewrite Hs. do 2 advance. rewrite Hok.
    do 2 (erewrite bind_step; [| solve [walk]]).
    apply detached_ok.
  - elements. rewrite Hin in *.
    destruct (jseq (category result) (js "retry_high_accuracy")) eqn:Hjs;
      destruct (includes (message result) (js "away")) eqn:Haway.
    all: eassert (H : TwoStep.handleAttendanceSubmission position method w p = _);
      [ unfold TwoStep.handleAttendanceSubmission, TwoStep.enrollmentInput, TwoStep.formData,
          TwoStep.attendanceForm, TwoStep.resetSubmitButton, TwoStep.markButton,
          TwoStep.spinner, TwoStep.wifiModal;
        walk
      | unfold outcome; rewrite H; reflexivity ].
Qed.

Lemma handle_unanswered_throws w p position method session input :
  activeSessionDataStudent w = Some session ->
  dom p !! "enrollment_no" = Some input ->
  no_json (net w (mark_attendance_request w (value input) (session_id session)
                    position method)) ->
  exists e,
    TwoStep.handleAttendanceSubmission position method w p
    = (Throw e,
       with_log (log p ++ [Fetch (mark_attendance_request w (value input) (session_id session)
                                    position method)]) p).
Proof.
  intros Hs Hin Hno. unfold mark_attendance_request in *.
  destruct (net w _) as [|ok st [result|]] eqn:Hnet; [| destruct Hno |].
  all: eexists.
  all: unfold TwoStep.handleAttendanceSubmission, TwoStep.enrollmentInput, TwoStep.formData.
  all: walk.
Qed.

(** The handlers find the position and hand it to
    [handleAttendanceSubmission], under their [catch]. *)
Lemma submit_hands_over w p position :
  student_page p -> gps_finds w position ->
  exists p1 h,
    TwoStep.on_submit w p
    = try_catch (TwoStep.handleAttendanceSubmission position (js "gps")) h w p1
    /\ student_page p1
    /\ log p1 = log p ++ [PreventDefault; GetCurrentPosition gps_options]
    /\ dom p1 !! "enrollment_no" = dom p !! "enrollment_no"
    /\ (forall e, costs (counts MarkAttendance) 0 (h e)).
Proof.
  intros Hp [Hsup Hgeo]. unfold gps_options in *. elements.
  unfold TwoStep.on_submit, TwoStep.markButton, TwoStep.spinner, TwoStep.wifiModal.
  do 5 advance.
  erewrite try_bind_ok; [| unfold TwoStep.getBrowserGpsLocation; walk].
  do 2 eexists. split; [reflexivity |]. split; [| split; [| split]].
  - unfold student_page, student_ids, page_ids.
    repeat constructor; unfold has; tidy; lookups; eauto.
  - tidy. rewrite <- !app_assoc. reflexivity.
  - tidy. lookups. reflexivity.
  - intros e. free.
Qed.

Lemma retry_hands_over w p position :
  student_page p -> google_finds w position ->
  exists p1 pre,
    TwoStep.on_retry_click w p
    = try_catch (TwoStep.handleAttendanceSubmission position (js "google"))
        (fun _ =>
           TwoStep.showStatusMessage google_failed_message (js "error") >>
           assign "troubleshooting-tips" (set_display (js "block")) >>
           TwoStep.resetSubmitButton) w p1
    /\ student_page p1
    /\ log p1 = log p ++ pre
    /\ List.filter (counts MarkAttendance) pre = []
    /\ (forall id, ~ In id ["wifi-prompt-modal"; "mark-btn span"] ->
          dom p1 !! id = dom p !! id)
    /\ now p1 = now p.
Proof.
  intros Hp Hg. pose proof Hp as Hp0. elements.
  unfold TwoStep.on_retry_click, TwoStep.markButton, TwoStep.spinner, TwoStep.wifiModal.
  do 2 advance.
  match goal with |- context [try_catch _ _ w ?P] => set (p0 := P) end.
  assert (Hp1 : student_page p0).
  { unfold student_page, student_ids, page_ids.
    repeat constructor; unfold has; subst p0; tidy; lookups; eauto. }
  assert (Hlog0 : log p0 = log p) by reflexivity.
  assert (Hnow0 : now p0 = now p) by reflexivity.
  assert (Hdom0 : forall id, ~ In id ["wifi-prompt-modal"; "mark-btn span"] ->
                    dom p0 !! id = dom p !! id).
  { intros id Hid. subst p0. tidy.
    rewrite !lookup_insert_ne by (intros <-; apply Hid; simpl; tauto). reflexivity. }
  clearbody p0.
  pose proof (Hg p0) as Hout. pose proof (frames_getGoogleApiLocation [] w p0) as Hf.
  assert (Hc : costs (counts MarkAttendance) 0 TwoStep.getGoogleApiLocation) by free.
  destruct (Hc w p0) as (pre & Hpre & Hn).
  unfold outcome, exec in Hout, Hf, Hpre.
  destruct (TwoStep.getGoogleApiLocation w p0) as [r p1] eqn:Hrun. simpl in Hout, Hf, Hpre.
  subst r. erewrite try_bind_ok; [| exact Hrun].
  exists p1, pre. split; [reflexivity |].
  split; [now apply (student_page_extends [] p0) |].
  split; [now rewrite Hpre, Hlog0 |].
  split; [now apply filter_nil_of_length |].
  split; [intros id Hid; rewrite (extends_nil_dom _ _ _ Hf); now apply Hdom0 |].
  now rewrite (ext_now _ _ _ Hf).
Qed.

Lemma retry_catch_is_free :
  costs (counts MarkAttendance) 0
    (TwoStep.showStatusMessage google_failed_message (js "error") >>
     assign "troubleshooting-tips" (set_display (js "block")) >>
     TwoStep.resetSubmitButton).
Proof. unfold TwoStep.resetSubmitButton. free. Qed.

(** A handler that hands a position over makes the post of that position,
    once, and ends as [handleAttendanceSubmission] does when the server
    answers in JSON. *)
Section HandsOver.
Variables (handler : M unit) (h : Exn -> M unit) (w : World) (p p1 : Page).
Variables (position : Position) (method : JsString) (session : SessionData).
Variables (input : Element) (pre : list Effect).
Hypothesis Hrun :
  handler w p = try_catch (TwoStep.handleAttendanceSubmission position method) h w p1.
Hypothesis Hlog : log p1 = log p ++ pre.
Hypothesis Hpre : List.filter (counts MarkAttendance) pre = [].
Hypothesis Hs : activeSessionDataStudent w = Some session.
Hypothesis Hin : dom p1 !! "enrollment_no" = Some input.
Hypothesis Hh : forall e, costs (counts MarkAttendance) 0 (h e).

Let request : Request :=
  mark_attendance_request w (value input) (session_id session) position method.

Lemma handed_over_once :
  List.filter (counts MarkAttendance) (since p (exec handler w p)) = [Fetch request].
Proof.
  destruct (handle_posts_once w p1 position method session input Hs Hin) as (rest & Hl & Hr).
  destruct (ext_log _ _ _ (frames_handleAttendanceSubmission position method w p1))
    as [l Hlog1].
  rewrite (since_app _ _ _ Hlog1) in Hl. subst l. fold request in Hlog1.
  unfold exec in *. rewrite Hrun. unfold try_catch.
  destruct (TwoStep.handleAttendanceSubmission position method w p1) as [[[]|e] q1].
  - cbn [snd] in *. rewrite (since_trans _ _ _ _ _ Hlog Hlog1).
    rewrite List.filter_app, Hpre. cbn [List.filter app].
    unfold request at 1. rewrite mark_request_counts. now rewrite Hr.
  - cbn [snd] in *. destruct (Hh e w q1) as (l & Hl & Hn). unfold exec in Hl.
    assert (Hall : log (h e w q1).2 = log p ++ (pre ++ Fetch request :: rest) ++ l)
      by (now rewrite Hl, Hlog1, Hlog, <- !app_assoc).
    rewrite (since_app _ _ _ Hall), !List.filter_app, Hpre. cbn [List.filter app].
    unfold request at 1. rewrite mark_request_counts, Hr.
    now rewrite (filter_nil_of_length _ _ Hn).
Qed.

Lemma handed_over_answered ok st result :
  student_page p1 ->
  net w request = Response ok st (Some result) ->
  exec handler w p = exec (TwoStep.handleAttendanceSubmission position method) w p1.
Proof.
  intros Hp1 Hnet.
  pose proof (handle_answered_ok w p1 position method session input result ok st
                Hp1 Hs Hin Hnet) as Hok.
  unfold exec, outcome in *. rewrite Hrun. unfold try_catch.
  destruct (TwoStep.handleAttendanceSubmission position method w p1) as [[[]|e] q1];
    [reflexivity | discriminate].
Qed.

Lemma handed_over_accepted ok st result :
  student_page p1 ->
  net w request = Response ok st (Some result) ->
  success result = true ->
  let q := exec handler w p in
  (style_display <$> dom q !! "attendance-form") = Some (js "none")
  /\ exists rest,
       since p q
       = pre ++ Fetch request :: Fetch (present_students_request (session_id session)) :: rest
       /\ List.forallb (fun e => negb (is_fetch e)) rest = true.
Proof.
  intros Hp1 Hnet Hok q. subst q. rewrite (handed_over_answered ok st result Hp1 Hnet).
  destruct (student_page_has p1 "attendance-form" Hp1 ltac:(simpl; tauto)) as [form Hform].
  destruct (handle_success w p1 position method session input form result ok st
              Hs Hin Hform Hnet Hok) as [H1 H2].
  split; [exact H1 |].
  destruct (H2 (student_page_has p1 "present-students-list" Hp1 ltac:(simpl; tauto)))
    as (rest & Hl & Hr).
  exists rest. split; [| exact Hr].
  destruct (ext_log _ _ _ (frames_handleAttendanceSubmission position method w p1))
    as [l Hlog1].
  rewrite (since_app _ _ _ Hlog1) in Hl. subst l.
  exact (since_trans _ _ _ _ _ Hlog Hlog1).
Qed.

Lemma handed_over_rejected ok st result :
  student_page p1 ->
  net w request = Response ok st (Some result) ->
  success result = false ->
  category result <> js "retry_high_accuracy" ->
  let q := exec handler w p in
  (disabled <$> dom q !! "mark-btn") = Some false
  /\ (style_display <$> dom q !! "button-spinner") = Some (js "none")
  /\ (textContent <$> dom q !! "mark-btn span") = Some (js "Mark My Attendance").
Proof.
  intros Hp1 Hnet Hok Hcat q. subst q. rewrite (handed_over_answered ok st result Hp1 Hnet).
  destruct (student_page_has p1 "mark-btn" Hp1 ltac:(simpl; tauto)) as [btn Hbtn].
  destruct (student_page_has p1 "button-spinner" Hp1 ltac:(simpl; tauto)) as [sp Hsp].
  destruct (student_page_has p1 "mark-btn span" Hp1 ltac:(simpl; tauto)) as [span Hspan].
  exact (handle_rejected w p1 position method session input btn sp span result ok st
           Hs Hin Hbtn Hsp Hspan Hnet Hok Hcat).
Qed.

End HandsOver.

(** Without a position nothing is posted. *)
Lemma submit_without_position w p :
  student_page p -> gps_fails w ->
  List.filter (counts MarkAttendance) (since p (exec TwoStep.on_submit w p)) = [].
Proof.
  intros Hp Hgps. elements.
  assert (Hcases : geolocation (device w) = false
                   \/ geolocation (device w) = true
                      /\ exists err, geo_current w gps_options = GeoError err).
  { destruct Hgps as [H | H]; [now left |].
    destruct (geolocation (device w)); [right; now split | now left]. }
  destruct Hcases as [Hsup | [Hsup [err Hgeo]]]; unfold gps_options in *.
  all: eassert (H : TwoStep.on_submit w p = _);
    [ unfold TwoStep.on_submit, TwoStep.markButton, TwoStep.spinner, TwoStep.wifiModal; walk
    | unfold exec; rewrite H; clear H; tidy ].
  all: erewrite since_app; [| rewrite <- !app_assoc; reflexivity]; reflexivity.
Qed.

Lemma retry_without_position w p :
  student_page p -> google_fails w ->
  List.filter (counts MarkAttendance) (since p (exec TwoStep.on_retry_click w p)) = [].
Proof.
  intros Hp Hg. elements.
  unfold exec, TwoStep.on_retry_click, TwoStep.markButton, TwoStep.spinner, TwoStep.wifiModal.
  do 2 advance.
  match goal with |- context [try_catch _ _ w ?P] => set (p0 := P) end.
  assert (Hlog0 : log p0 = log p) by reflexivity.
  destruct (Hg p0) as [e He].
  assert (Hc : costs (counts MarkAttendance) 0 TwoStep.getGoogleApiLocation) by free.
  destruct (Hc w p0) as (pre & Hpre & Hn).
  unfold outcome, exec in He, Hpre.
  destruct (TwoStep.getGoogleApiLocation w p0) as [r p1] eqn:Hrun. simpl in He, Hpre.
  subst r.
  match goal with
  | |- context [try_catch ?m ?h w p0] =>
      assert (H : try_catch m h w p0 = h e w p1)
        by (unfold try_catch, bind; now rewrite Hrun);
      assert (Hh : costs (counts MarkAttendance) 0 (h e))
        by (unfold TwoStep.resetSubmitButton; free)
  end.
  rewrite H. clear H. destruct (Hh w p1) as (l & Hl & Hm). unfold exec in Hl.
  assert (Hall : forall q, log q = log p1 ++ l -> log q = log p ++ pre ++ l)
    by (intros q Hq; rewrite Hq, Hpre, ?Hlog0; now rewrite app_assoc).
  rewrite (since_app _ _ _ (Hall _ Hl)), List.filter_app.
  now rewrite (filter_nil_of_length _ _ Hn), (filter_nil_of_length _ _ Hm).
Qed.


(** The sample worlds in which Google answers. *)
Lemma google_finds_intro w key st data lat lng acc :
  usable_key w key ->
  net w (google_request key) = Response true st (Some data) ->
  location data = Some (lat, lng) ->
  data_accuracy data = Some acc ->
  truthy_number acc = true ->
  google_finds w (mkPosition (mkCoords lat lng acc)).
Proof.
  intros Hkey Hnet Hloc Hacc Ht p. unfold outcome.
  rewrite (google_run w p key Hkey). cbv zeta. now rewrite Hnet, Hloc, Hacc, Ht.
Qed.

Lemma sample_key_usable w :
  GOOGLE_MAPS_API_KEY w = Some (js "AIza-key") -> usable_key w (js "AIza-key").
Proof. intros H. split; [exact H |]. split; discriminate. Qed.

Lemma google_without_server_finds : google_finds google_without_server google_position.
Proof.
  apply (google_finds_intro _ (js "AIza-key") 200 google_answer);
    try reflexivity. now apply sample_key_usable.
Qed.

Lemma google_and_server_finds reply : google_finds (google_and_server reply) google_position.
Proof.
  apply (google_finds_intro _ (js "AIza-key") 200 google_answer);
    try reflexivity. now apply sample_key_usable.
Qed.

Lemma page0_input : dom page0 !! "enrollment_no" = Some (set_value (js "Y24120001") blank).
Proof. vm_compute. reflexivity. Qed.


(** The two answers of the server on the sample page. *)
Example accepted_mark_hides_the_form :
  let q := exec (TwoStep.handleAttendanceSubmission (here 10) (js "gps"))
                (online 10 accepted) page0 in
  (style_display <$> dom q !! "attendance-form") = Some (js "none")
  /\ List.map (fun e => match e with Fetch r => url r | _ => [] end) (since page0 q)
     = [js "/api/mark_attendance"; js "/api/get_present_students/7"].
Proof. vm_compute. split; reflexivity. Qed.

Example rejected_mark_resets_the_button :
  let q := exec (TwoStep.handleAttendanceSubmission (here 10) (js "gps"))
                (online 10 rejected) (exec TwoStep.on_submit offline_denied page0) in
  (disabled <$> dom (exec TwoStep.on_submit offline_denied page0) !! "mark-btn") = Some true
  /\ (disabled <$> dom q !! "mark-btn") = Some false
  /\ (textContent <$> dom q !! "mark-btn span") = Some (js "Mark My Attendance").
Proof. vm_compute. repeat split; reflexivity. Qed.

(** *** Denied geolocation *)

(** In part_000 a submission with denied geolocation leaves the submit
    button disabled, with the label of the attempt, and the message on
    screen is an information, not an error. *)
Lemma denied_submit_keeps_button_disabled :
  let q := exec TwoStep.on_submit offline_denied page0 in
  geo_current offline_denied gps_options = GeoError denied
  /\ error_code denied = PERMISSION_DENIED
  /\ (disabled <$> dom q !! "mark-btn") = Some true
  /\ (textContent <$> dom q !! "mark-btn span") = Some (js "Getting GPS Location...")
  /\ (className <$> dom q !! "status-message") = Some (js "status-message info").
Proof. vm_compute. repeat split; reflexivity. Qed.

(** The failed submission leaves a complete page, with the enrollment
    number as it was typed. *)
Lemma on_submit_gps_failure_page w p :
  student_page p -> gps_fails w ->
  let q := exec TwoStep.on_submit w p in
  student_page q /\ now q = now p
  /\ dom q !! "enrollment_no" = dom p !! "enrollment_no".
Proof.
  intros Hp Hgps q. subst q.
  pose proof (frames_on_submit w p) as Hf.
  split; [now apply (student_page_extends student_ids p) |].
  split; [exact (ext_now _ _ _ Hf) |]. clear Hf. elements.
  assert (Hcases : geolocation (device w) = false
                   \/ geolocation (device w) = true
                      /\ exists err, geo_current w gps_options = GeoError err).
  { destruct Hgps as [H | H]; [now left |].
    destruct (geolocation (device w)); [right; now split | now left]. }
  destruct Hcases as [Hsup | [Hsup [err Hgeo]]]; unfold gps_options in *.
  all: eassert (H : TwoStep.on_submit w p = _);
    [ unfold TwoStep.on_submit, TwoStep.markButton, TwoStep.spinner, TwoStep.wifiModal; walk
    | unfold exec; rewrite H; clear H; tidy ].
  all: lookups; reflexivity.
Qed.

(** The [catch] of the retry handler, on a complete page. *)
Lemma retry_catch_resets w p :
  student_page p ->
  let q := exec (TwoStep.showStatusMessage google_failed_message (js "error") >>
                 assign "troubleshooting-tips" (set_display (js "block")) >>
                 TwoStep.resetSubmitButton) w p in
  ((disabled <$> dom q !! "mark-btn") = Some false
   /\ (style_display <$> dom q !! "button-spinner") = Some (js "none")
   /\ (textContent <$> dom q !! "mark-btn span") = Some (js "Mark My Attendance"))
  /\ shown google_failed_message (js "error") (now p + 6000) q
  /\ (style_display <$> dom q !! "troubleshooting-tips") = Some (js "block").
Proof.
  intros Hp q. subst q. elements.
  match goal with
  | |- context [exec ?m w p] => eassert (H : m w p = _)
  end.
  { unfold TwoStep.resetSubmitButton, TwoStep.markButton, TwoStep.spinner. walk. }
  unfold exec. rewrite H. clear H. tidy.
  repeat split; lookups; try reflexivity.
  unfold shown. do 2 eexists. tidy. split; [look |]. repeat split.
  apply in_or_app. right. now left.
Qed.

Lemma handle_without_session w p position method input :
  activeSessionDataStudent w = None ->
  dom p !! "enrollment_no" = Some input ->
  TwoStep.handleAttendanceSubmission position method w p = (Throw TypeError, p).
Proof.
  intros Hs Hin.
  unfold TwoStep.handleAttendanceSubmission, TwoStep.enrollmentInput. walk.
Qed.

(** What [handleAttendanceSubmission] leaves of the submit button when the
    server answers. *)
Lemma handle_keeps_button w p position method session input result ok st :
  student_page p ->
  activeSessionDataStudent w = Some session ->
  dom p !! "enrollment_no" = Some input ->
  net w (mark_attendance_request w (value input) (session_id session) position method)
    = Response ok st (Some result) ->
  success result = true \/ category result = js "retry_high_accuracy" ->
  let q := exec (TwoStep.handleAttendanceSubmission position method) w p in
  dom q !! "mark-btn" = dom p !! "mark-btn".
Proof.
  intros Hp Hs Hin Hnet Hcase q. subst q. unfold mark_attendance_request in Hnet.
  elements. rewrite Hin in *.
  destruct (success result) eqn:Hok.
  - unfold exec, TwoStep.handleAttendanceSubmission, TwoStep.enrollmentInput,
      TwoStep.formData, TwoStep.attendanceForm.
    do 2 advance. rewrite Hs. do 2 advance. rewrite Hok.
    do 2 (erewrite bind_step; [| solve [walk]]).
    match goal with |- context [detached _ _ ?P] => set (p3 := P) end.
    rewrite exec_detached.
    pose proof (frames_fetchPresentStudents ["present-students-list"] (session_id session)
                  ltac:(now left) w p3) as Hf.
    unfold exec in Hf. rewrite (ext_same _ _ _ Hf) by (simpl; intuition discriminate).
    subst p3. tidy. lookups. reflexivity.
  - destruct Hcase as [Hc | Hc]; [discriminate |].
    assert (Hjs : jseq (category result) (js "retry_high_accuracy") = true)
      by (now apply bool_decide_eq_true).
    eassert (H : TwoStep.handleAttendanceSubmission position method w p = _);
      [ unfold TwoStep.handleAttendanceSubmission, TwoStep.enrollmentInput, TwoStep.formData,
          TwoStep.wifiModal; walk
      | unfold exec; rewrite H; clear H; tidy ].
    lookups. reflexivity.
Qed.

Lemma handle_rejected_shown w p position method session input result ok st :
  student_page p ->
  activeSessionDataStudent w = Some session ->
  dom p !! "enrollment_no" = Some input ->
  net w (mark_attendance_request w (value input) (session_id session) position method)
    = Response ok st (Some result) ->
  success result = false ->
  category result <> js "retry_high_accuracy" ->
  shown (message result) (category result) (now p + 6000)
        (exec (TwoStep.handleAttendanceSubmission position method) w p).
Proof.
  intros Hp Hs Hin Hnet Hok Hcat. unfold mark_attendance_request in Hnet.
  elements. rewrite Hin in *.
  assert (Hjs : jseq (category result) (js "retry_high_accuracy") = false)
    by (now apply bool_decide_eq_false).
  destruct (includes (message result) (js "away")) eqn:Haway.
  all: eassert (H : TwoStep.handleAttendanceSubmission position method w p = _);
    [ unfold TwoStep.handleAttendanceSubmission, TwoStep.enrollmentInput, TwoStep.formData,
        TwoStep.resetSubmitButton, TwoStep.markButton, TwoStep.spinner; walk
    | unfold exec; rewrite H; clear H; tidy ].
  all: unfold shown; do 2 eexists; tidy; (split; [look |]); repeat split.
  all: apply in_or_app; right; now left.
Qed.

(** The retry click when Google has found a position. *)
Section RetryClick.
Variables (w : World) (p : Page) (input : Element) (position : Position).
Hypothesis Hp : student_page p.
Hypothesis Hin : dom p !! "enrollment_no" = Some input.
Hypothesis Hfind : google_finds w position.

Lemma retry_click_caught :
  activeSessionDataStudent w = None
  \/ (exists session,
        activeSessionDataStudent w = Some session
        /\ no_json (net w (mark_attendance_request w (value input) (session_id session)
                             position (js "google")))) ->
  let q := exec TwoStep.on_retry_click w p in
  ((disabled <$> dom q !! "mark-btn") = Some false
   /\ (style_display <$> dom q !! "button-spinner") = Some (js "none")
   /\ (textContent <$> dom q !! "mark-btn span") = Some (js "Mark My Attendance"))
  /\ shown google_failed_message (js "error") (now p + 6000) q
  /\ (style_display <$> dom q !! "troubleshooting-tips") = Some (js "block").
Proof.
  intros Hcase q. subst q.
  destruct (retry_hands_over w p position Hp Hfind)
    as (p1 & pre & Hrun & Hp1 & Hlog & Hpre & Hdom & Hnow).
  assert (Hin1 : dom p1 !! "enrollment_no" = Some input)
    by (rewrite Hdom; [assumption | simpl; intuition discriminate]).
  assert (Hthrow : exists e l,
             TwoStep.handleAttendanceSubmission position (js "google") w p1
             = (Throw e, with_log (log p1 ++ l) p1)).
  { destruct Hcase as [Hs | (session & Hs & Hno)].
    - exists TypeError, []. rewrite (handle_without_session w p1 _ _ input Hs Hin1).
      f_equal. rewrite app_nil_r. now destruct p1.
    - destruct (handle_unanswered_throws w p1 position (js "google") session input
                  Hs Hin1 Hno) as [e He].
      now exists e, [Fetch (mark_attendance_request w (value input) (session_id session)
                              position (js "google"))]. }
  destruct Hthrow as (e & l & Hthrow).
  unfold exec. rewrite Hrun. unfold try_catch. rewrite Hthrow.
  assert (Hp2 : student_page (with_log (log p1 ++ l) p1)) by exact Hp1.
  pose proof (retry_catch_resets w (with_log (log p1 ++ l) p1) Hp2) as H.
  cbv beta zeta in H. unfold exec in H. cbn [now with_log] in H. rewrite Hnow in H. exact H.
Qed.

Variable session : SessionData.
Hypothesis Hs : activeSessionDataStudent w = Some session.
Variables (ok : bool) (st : Z) (result : Payload).
Hypothesis Hnet :
  net w (mark_attendance_request w (value input) (session_id session) position (js "google"))
  = Response ok st (Some result).

Lemma retry_click_answered :
  exists p1,
    exec TwoStep.on_retry_click w p
    = exec (TwoStep.handleAttendanceSubmission position (js "google")) w p1
    /\ student_page p1
    /\ dom p1 !! "enrollment_no" = Some input
    /\ dom p1 !! "mark-btn" = dom p !! "mark-btn"
    /\ now p1 = now p.
Proof.
  destruct (retry_hands_over w p position Hp Hfind)
    as (p1 & pre & Hrun & Hp1 & Hlog & Hpre & Hdom & Hnow).
  assert (Hin1 : dom p1 !! "enrollment_no" = Some input)
    by (rewrite Hdom; [assumption | simpl; intuition discriminate]).
  exists p1. split; [| split; [assumption | split; [assumption | split; [| assumption]]]].
  - exact (handed_over_answered _ _ w p p1 position (js "google") session input
             Hrun Hs Hin1 ok st result Hp1 Hnet).
  - apply Hdom. simpl. intuition discriminate.
Qed.

Lemma retry_click_rejected :
  success result = false ->
  category result <> js "retry_high_accuracy" ->
  let q := exec TwoStep.on_retry_click w p in
  ((disabled <$> dom q !! "mark-btn") = Some false
   /\ (style_display <$> dom q !! "button-spinner") = Some (js "none")
   /\ (textContent <$> dom q !! "mark-btn span") = Some (js "Mark My Attendance"))
  /\ shown (message result) (category result) (now p + 6000) q.
Proof.
  intros Hok Hcat q. subst q.
  destruct retry_click_answered as (p1 & -> & Hp1 & Hin1 & _ & Hnow).
  destruct (student_page_has p1 "mark-btn" Hp1 ltac:(simpl; tauto)) as [btn Hbtn].
  destruct (student_page_has p1 "button-spinner" Hp1 ltac:(simpl; tauto)) as [sp Hsp].
  destruct (student_page_has p1 "mark-btn span" Hp1 ltac:(simpl; tauto)) as [span Hspan].
  split.
  - exact (handle_rejected w p1 position (js "google") session input btn sp span result ok st
             Hs Hin1 Hbtn Hsp Hspan Hnet Hok Hcat).
  - rewrite <- Hnow.
    exact (handle_rejected_shown w p1 position (js "google") session input result ok st
             Hp1 Hs Hin1 Hnet Hok Hcat).
Qed.

Lemma retry_click_keeps_button :
  success result = true \/ category result = js "retry_high_accuracy" ->
  dom (exec TwoStep.on_retry_click w p) !! "mark-btn" = dom p !! "mark-btn".
Proof.
  intros Hcase.
  destruct retry_click_answered as (p1 & -> & Hp1 & Hin1 & Hbtn & _).
  rewrite <- Hbtn.
  exact (handle_keeps_button w p1 position (js "google") session input result ok st
           Hp1 Hs Hin1 Hnet Hcase).
Qed.

End RetryClick.

(** C6.  When the browser refuses the position, the submit handler of
    main.js (lines 394-739) shows the error and enables the button again,
    with its label restored; the error callback of the Google-only revision
    of main.js (lines 186-192) shows the error it is given and resets the
    button.  The submit handler of part_000 shows an information that asks
    for Wi-Fi and opens the Wi-Fi prompt, and the button stays disabled.  A
    click on the retry button of the prompt then resets the button (enabled,
    spinner hidden, label restored) in every case but one: Google finds a
    position and the server answers the post with success or with the
    category [retry_high_accuracy]; then the button stays disabled.  It is
    reset under the error of the failed check when Google finds no position
    and when the post fails or is not answered in JSON, and under the
    message of the server when the server refuses the mark with another
    category. *)
Theorem denied_geolocation_handling (w : World) (p : Page) (err : PositionError)
    (input : Element) :
  student_page p ->
  dom p !! "enrollment_no" = Some input ->
  geolocation (device w) = true ->
  geo_current w MainJsBrowser.low_accuracy_options = GeoError err ->
  geo_current w gps_options = GeoError err ->
  let browser := exec MainJsBrowser.on_submit w p in
  let submit := exec TwoStep.on_submit w p in
  (shown (js "Could not get location: " ++ error_message err) (js "error")
         (now p + 5000) browser
   /\ (disabled <$> dom browser !! "mark-btn") = Some false
   /\ (textContent <$> dom browser !! "mark-btn") = Some (js "Mark My Attendance"))
  /\ (forall error,
        let q := exec (MainJsGoogle.submit_errorCallback error) w p in
        shown error (js "error") (now p + 6000) q
        /\ (disabled <$> dom q !! "mark-btn") = Some false
        /\ (style_display <$> dom q !! "button-spinner") = Some (js "none")
        /\ (textContent <$> dom q !! "mark-btn span") = Some (js "Mark My Attendance"))
  /\ (shown gps_failed_message (js "info") (now p + 6000) submit
      /\ (disabled <$> dom submit !! "mark-btn") = Some true
      /\ (textContent <$> dom submit !! "mark-btn span") = Some (js "Getting GPS Location...")
      /\ (style_display <$> dom submit !! "wifi-prompt-modal") = Some (js "block")
      /\ modal_open submit = true)
  /\ (forall w' : World,
        let retry := exec TwoStep.on_retry_click w' submit in
        let mark_request position session :=
          mark_attendance_request w' (value input) (session_id session) position
                                  (js "google") in
        let reset :=
          (disabled <$> dom retry !! "mark-btn") = Some false
          /\ (style_display <$> dom retry !! "button-spinner") = Some (js "none")
          /\ (textContent <$> dom retry !! "mark-btn span") = Some (js "Mark My Attendance") in
        let check_failed :=
          shown google_failed_message (js "error") (now p + 6000) retry
          /\ (style_display <$> dom retry !! "troubleshooting-tips") = Some (js "block") in
        let accepted_or_retried :=
          exists position session ok st result,
            google_finds w' position
            /\ activeSessionDataStudent w' = Some session
            /\ net w' (mark_request position session) = Response ok st (Some result)
            /\ (success result = true \/ category result = js "retry_high_accuracy") in
        (accepted_or_retried -> (disabled <$> dom retry !! "mark-btn") = Some true)
        /\ (~ accepted_or_retried -> reset)
        /\ (google_fails w' -> reset /\ check_failed)
        /\ (forall position session,
              google_finds w' position ->
              activeSessionDataStudent w' = Some session ->
              (no_json (net w' (mark_request position session)) -> reset /\ check_failed)
              /\ (forall ok st result,
                    net w' (mark_request position session) = Response ok st (Some result) ->
                    success result = false ->
                    category result <> js "retry_high_accuracy" ->
                    reset
                    /\ shown (message result) (category result) (now p + 6000) retry))).
Proof.
  intros Hp Hin Hsup Hlow Hgps browser submit.
  assert (Hfails : gps_fails w) by (right; now exists err).
  pose proof (on_submit_gps_failure w p Hp Hfails) as Hsubmit.
  destruct (on_submit_gps_failure_page w p Hp Hfails) as (Hp1 & Hnow & Hin1).
  fold submit in Hsubmit, Hp1, Hnow, Hin1. rewrite Hin in Hin1.
  split; [| split; [| split]].
  - apply browser_submit_denied; try assumption; apply (student_page_has p _ Hp); simpl; tauto.
  - intros error. now apply google_errorCallback_resets.
  - exact Hsubmit.
  - intros w' retry mark_request reset check_failed accepted_or_retried.
    assert (Hfailed : google_fails w' -> reset /\ check_failed).
    { intros Hg.
      destruct (on_retry_click_google_failure w' submit Hp1 Hg) as (H1 & H2 & H3 & H4 & H5).
      rewrite Hnow in H1. repeat split; assumption. }
    assert (Hcaught : forall position,
               google_finds w' position ->
               activeSessionDataStudent w' = None
               \/ (exists session,
                     activeSessionDataStudent w' = Some session
                     /\ no_json (net w' (mark_request position session))) ->
               reset /\ check_failed).
    { intros position Hfind Hcase.
      destruct (retry_click_caught w' submit input position Hp1 Hin1 Hfind Hcase)
        as (H1 & H2 & H3).
      rewrite Hnow in H2. repeat split; try apply H1; assumption. }
    assert (Hrejected : forall position session ok st result,
               google_finds w' position ->
               activeSessionDataStudent w' = Some session ->
               net w' (mark_request position session) = Response ok st (Some result) ->
               success result = false ->
               category result <> js "retry_high_accuracy" ->
               reset /\ shown (message result) (category result) (now p + 6000) retry).
    { intros position session ok st result Hfind Hs Hnet Hok Hcat.
      destruct (retry_click_rejected w' submit input position Hp1 Hin1 Hfind session Hs
                  ok st result Hnet Hok Hcat) as (H1 & H2).
      rewrite Hnow in H2. split; assumption. }
    split; [| split; [| split]].
    + intros (position & session & ok & st & result & Hfind & Hs & Hnet & Hcase).
      subst retry.
      rewrite (retry_click_keeps_button w' submit input position Hp1 Hin1 Hfind session Hs
                 ok st result Hnet Hcase).
      apply Hsubmit.
    + intros Hnot.
      destruct (google_fails_or_finds w') as [Hg | [position Hfind]];
        [now apply Hfailed |].
      destruct (activeSessionDataStudent w') as [session|] eqn:Hs;
        [| apply (Hcaught position Hfind); now left].
      destruct (net w' (mark_request position session)) as [|ok st [result|]] eqn:Hnet.
      * apply (Hcaught position Hfind). right. exists session. split; [reflexivity |].
        now rewrite Hnet.
      * destruct (success result) eqn:Hok.
        { exfalso. apply Hnot. exists position, session, ok, st, result. auto. }
        destruct (decide (category result = js "retry_high_accuracy")) as [Hcat | Hcat].
        { exfalso. apply Hnot. exists position, session, ok, st, result. auto. }
        now apply (Hrejected position session ok st result).
      * apply (Hcaught position Hfind). right. exists session. split; [reflexivity |].
        now rewrite Hnet.
    + exact Hfailed.
    + intros position session Hfind Hs. split.
      * intros Hno. apply (Hcaught position Hfind). right. now exists session.
      * intros ok st result. now apply Hrejected.
Qed.

Lemma offline_google_fails : google_fails offline_denied.
Proof.
  intros p. unfold outcome, TwoStep.getGoogleApiLocation.
  eexists. unfold_monad. simpl. reflexivity.
Qed.

Lemma denied_geolocation_handling_witness :
  let submit := exec TwoStep.on_submit offline_denied page0 in
  let retry w' := exec TwoStep.on_retry_click w' submit in
  (disabled <$> dom (exec MainJsBrowser.on_submit offline_denied page0) !! "mark-btn")
  = Some false
  /\ (disabled <$> dom submit !! "mark-btn") = Some true
  /\ (disabled <$> dom (retry offline_denied) !! "mark-btn") = Some false
  /\ (disabled <$> dom (retry google_without_server) !! "mark-btn") = Some false
  /\ (disabled <$> dom (retry (google_and_server rejected)) !! "mark-btn") = Some false
  /\ (disabled <$> dom (retry (google_and_server accepted)) !! "mark-btn") = Some true.
Proof.
  pose proof (denied_geolocation_handling offline_denied page0 denied _ page0_student_page
                page0_input eq_refl eq_refl eq_refl) as ((_ & H1 & _) & _ & (_ & H2 & _) & H3).
  split; [exact H1 |]. split; [exact H2 |].
  split; [exact (proj1 (proj1 (proj1 (proj2 (proj2 (H3 offline_denied))) offline_google_fails))) |].
  split.
  { destruct (H3 google_without_server) as (_ & _ & _ & H4).
    destruct (H4 google_position session7 google_without_server_finds eq_refl) as (H5 & _).
    exact (proj1 (proj1 (H5 I))). }
  split.
  { destruct (H3 (google_and_server rejected)) as (_ & _ & _ & H4).
    destruct (H4 google_position session7 (google_and_server_finds rejected) eq_refl)
      as (_ & H5).
    exact (proj1 (proj1 (H5 true 200 rejected eq_refl eq_refl ltac:(discriminate)))). }
  destruct (H3 (google_and_server accepted)) as (H4 & _).
  apply H4. exists google_position, session7, true, 200, accepted.
  split; [exact (google_and_server_finds accepted) |].
  split; [reflexivity |]. split; [reflexivity |]. now left.
Defined.

(* ===================================================================== *)
(** ** Further properties of the pages *)
(* ===================================================================== *)

Local Open Scope Z_scope.
Local Open Scope string_scope.
Local Open Scope list_scope.

(** *** The Google location of part_000 *)

(** X1.  [getGoogleApiLocation] of part_000.  Without a usable key (no key,
    the empty one, or the placeholder [YOUR_GOOGLE_MAPS_API_KEY]) it throws
    the configuration error and leaves the page as it was, so it makes no
    request.  With a usable key it makes exactly one request, to the
    geolocation URL of Google with that key.  It returns a position exactly
    when the answer is OK, is JSON, and carries a location and an accuracy
    other than 0; the position then has the latitude, longitude and accuracy
    of the answer. *)
Theorem google_location_result (w : World) (p : Page) :
  let q := exec TwoStep.getGoogleApiLocation w p in
  ((forall key, ~ usable_key w key) ->
     outcome TwoStep.getGoogleApiLocation w p
     = Throw (JsError (js "Configuration error: Google Maps API key is not set."))
     /\ q = p)
  /\ (forall key, usable_key w key -> since p q = [Fetch (google_request key)])
  /\ (forall pos,
        outcome TwoStep.getGoogleApiLocation w p = Ok pos <->
        exists key st data lat lng acc,
          usable_key w key
          /\ net w (google_request key) = Response true st (Some data)
          /\ location data = Some (lat, lng) /\ data_accuracy data = Some acc
          /\ ~ (acc == 0)%Q
          /\ pos = mkPosition (mkCoords lat lng acc)).
Proof.
  intros q. subst q. split; [| split].
  - intros Hno. destruct (usable_key_dec w) as [[key Hk] | Hthrow].
    + destruct (Hno key Hk).
    + unfold outcome, exec. now rewrite Hthrow.
  - intros key Hk. apply since_app. unfold exec. rewrite (google_run w p key Hk). cbv zeta.
    destruct (net w (google_request key)) as [|[|] st [data|]]; try reflexivity.
    destruct (location data) as [[lat lng]|], (data_accuracy data) as [acc|]; try reflexivity.
    destruct (truthy_number acc); reflexivity.
  - intros pos. split.
    + intros Hok. destruct (usable_key_dec w) as [[key Hk] | Hthrow];
        [| unfold outcome in Hok; rewrite Hthrow in Hok; discriminate].
      unfold outcome in Hok. rewrite (google_run w p key Hk) in Hok. cbv zeta in Hok.
      destruct (net w (google_request key)) as [|[|] st [data|]] eqn:Hnet; try discriminate.
      destruct (location data) as [[lat lng]|] eqn:Hloc; [| discriminate].
      destruct (data_accuracy data) as [acc|] eqn:Hacc; [| discriminate].
      destruct (truthy_number acc) eqn:Ht; [| discriminate].
      injection Hok as <-. exists key, st, data, lat, lng, acc.
      repeat split; try assumption; try apply Hk. now apply truthy_number_true.
    + intros (key & st & data & lat & lng & acc & Hk & Hnet & Hloc & Hacc & Hnz & ->).
      unfold outcome. rewrite (google_run w p key Hk). cbv zeta. rewrite Hnet, Hloc, Hacc.
      apply truthy_number_true in Hnz. now rewrite Hnz.
Qed.

(** *** The countdown of [startRobustTimer] *)

Lemma two_digit_table :
  List.forallb
    (fun s => match padStart 2 (js "0") (to_string s) with
              | [a; b] => is_digit a && is_digit b && (two_digits a b =? s)%Z
              | _ => false
              end)
    (List.map Z.of_nat (List.seq 0 60)) = true.
Proof. vm_compute. reflexivity. Qed.

Lemma two_digit_seconds s :
  0 <= s < 60 ->
  exists a b, padStart 2 (js "0") (to_string s) = [a; b]
              /\ is_digit a = true /\ is_digit b = true /\ two_digits a b = s.
Proof.
  intros Hs. pose proof two_digit_table as H. rewrite forallb_forall in H.
  specialize (H s ltac:(apply in_map_iff; exists (Z.to_nat s); split;
                        [lia | apply in_seq; lia])).
  destruct (padStart 2 (js "0") (to_string s)) as [|a [|b [|c r]]]; try discriminate H.
  apply andb_true_iff in H as [H H3]. apply andb_true_iff in H as [H1 H2].
  exists a, b. repeat split; try assumption. now apply Z.eqb_eq.
Qed.

Lemma remaining_split r :
  0 < r -> 0 <= (r mod 60000) / 1000 < 60
           /\ 60 * (r / 60000) + (r mod 60000) / 1000 = r / 1000.
Proof.
  intros Hr. pose proof (Z.mod_pos_bound r 60000 ltac:(lia)) as Hk.
  split.
  - split; [apply Z.div_pos; lia | apply Z.div_lt_upper_bound; lia].
  - rewrite (Z.div_mod r 60000) at 3 by lia.
    replace (60000 * (r / 60000) + r mod 60000)
      with (60 * (r / 60000) * 1000 + r mod 60000) by lia.
    rewrite Z.div_add_l by lia. reflexivity.
Qed.

(** The page on which the callback of a fired timer runs. *)
Lemma fire_run w t time p :
  TwoStep.fire w t time p
  = exec (TwoStep.run_callback (timer_id t) (callback t)) w
      (with_timers
         (match period t with
          | Some d => remove_timer (timer_id t) (timers p)
                      ++ [mkTimer (timer_id t) (time + d) (Some d) (callback t)]
          | None => remove_timer (timer_id t) (timers p)
          end) (next_timer p) (with_now time p)).
Proof. unfold TwoStep.fire, exec. now rewrite exec_detached. Qed.

Lemma remove_timer_gone i l t : In t (remove_timer i l) -> timer_id t <> i.
Proof. intros H. now apply in_remove_timer in H. Qed.

Lemma remove_timer_twice i l : remove_timer i (remove_timer i l) = remove_timer i l.
Proof.
  unfold remove_timer. induction l as [|a l IH]; [reflexivity |]. simpl.
  destruct (negb (timer_id a =? i)%nat) eqn:Ha; simpl; rewrite ?Ha, IH; reflexivity.
Qed.

Lemma remove_timer_app i l l' :
  remove_timer i (l ++ l') = remove_timer i l ++ remove_timer i l'.
Proof. unfold remove_timer. apply List.filter_app. Qed.

(** X2.  A tick of the interval that [startRobustTimer] sets, for a timer
    element that exists.  The page is reloaded exactly when the end time is
    a date, that date is not after the time of the tick, and the page has
    the attendance form.  Once the end time is reached the interval is
    cleared, so that no timer of its id is left, and the element reads
    [Session Ended], whether the page is reloaded or not.  When the end time
    is not a date the element reads [NaNm NaNs] and the interval goes on. *)
Theorem countdown_ends (w : World) (t : Timer) (time : Z) (p : Page)
    (endTime : option Z) (el : string) :
  callback t = RobustTick endTime el ->
  has p el ->
  let q := TwoStep.fire w t time p in
  (In Reload (since p q) <->
   exists e, endTime = Some e /\ e <= time /\ has p "attendance-form")
  /\ (forall e, endTime = Some e -> e <= time ->
        (forall t', In t' (timers q) -> timer_id t' <> timer_id t)
        /\ (textContent <$> dom q !! el) = Some (js "Session Ended"))
  /\ (endTime = None ->
        (textContent <$> dom q !! el) = Some (js "NaNm NaNs")
        /\ forall d, period t = Some d ->
             In (mkTimer (timer_id t) (time + d) (Some d) (callback t)) (timers q)).
Proof.
  intros Hcb [elem Hel] q. subst q. rewrite fire_run, Hcb.
  unfold TwoStep.run_callback, TwoStep.robust_tick.
  set (p1 := with_timers _ _ _).
  assert (Hdom : dom p1 = dom p) by reflexivity.
  assert (Hlog : log p1 = log p) by reflexivity.
  destruct endTime as [e|].
  - unfold exec. rewrite (bind_step page _ w p1 p1 p1) by reflexivity. cbv zeta.
    change (now p1) with time.
    destruct (e - time <=? 0)%Z eqn:Hle.
    + apply Z.leb_le in Hle.
      unfold clearInterval, clearTimeout.
      rewrite (bind_step _ _ w p1 tt _ (eval_modify _ w p1)).
      set (p2 := with_timers _ _ p1).
      erewrite bind_step; [| apply eval_assign; change (dom p2) with (dom p); exact Hel].
      set (p3 := with_dom _ p2).
      assert (Hform : dom p3 !! "attendance-form"
                      = (if decide (el = "attendance-form")
                         then Some (set_textContent (js "Session Ended") elem)
                         else dom p !! "attendance-form")).
      { subst p3. cbn [dom with_dom]. change (dom p2) with (dom p).
        destruct (decide (el = "attendance-form")) as [-> | Hne];
          [now rewrite lookup_insert_eq | now rewrite lookup_insert_ne]. }
      erewrite bind_step; [| apply eval_getElementById; reflexivity].
      assert (Hp3el : (textContent <$> dom p3 !! el) = Some (js "Session Ended")).
      { subst p3. cbn [dom with_dom]. now rewrite lookup_insert_eq. }
      assert (Hp3t : forall t', In t' (timers p3) -> timer_id t' <> timer_id t).
      { intros t' Ht'. subst p3 p2 p1. cbn [timers with_dom with_timers] in Ht'.
        now apply remove_timer_gone in Ht'. }
      assert (Hhas : is_Some (dom p3 !! "attendance-form") <-> has p "attendance-form").
      { rewrite Hform. unfold has. destruct (decide (el = "attendance-form")) as [-> | Hne];
          [| reflexivity]. rewrite Hel. split; eauto. }
      destruct (dom p3 !! "attendance-form") as [form|] eqn:Hf3.
      * unfold reload. rewrite eval_emit. cbn [snd].
        split; [| split; [| discriminate]].
        -- rewrite (since_app p _ [Reload]) by reflexivity. split.
           ++ intros _. exists e. repeat split; [lia | apply Hhas; eauto].
           ++ intros _. now left.
        -- intros e' [= <-] _. split; [exact Hp3t | exact Hp3el].
      * cbn [snd ret]. split; [| split; [| discriminate]].
        -- rewrite (since_same p p3) by reflexivity. split; [intros [] |].
           intros (e' & _ & _ & Hh). apply Hhas in Hh. destruct Hh as [? Hh]. discriminate Hh.
        -- intros e' [= <-] _. split; [exact Hp3t | exact Hp3el].
    + apply Z.leb_gt in Hle.
      erewrite eval_assign by (rewrite Hdom; exact Hel). cbn [snd].
      split; [| split; [| discriminate]].
      * rewrite since_same by reflexivity. split; [intros [] |].
        intros (e' & [= <-] & He' & _). lia.
      * intros e' [= <-] He'. lia.
  - unfold exec. rewrite (bind_step page _ w p1 p1 p1) by reflexivity.
    erewrite eval_assign by (rewrite Hdom; exact Hel). cbn [snd].
    split; [| split; [discriminate |]].
    + rewrite since_same by reflexivity. split; [intros [] |].
      intros (e' & He' & _). discriminate He'.
    + intros _. split.
      * cbn [dom with_dom]. now rewrite lookup_insert_eq.
      * intros d Hd. cbn [timers with_dom]. subst p1. cbn [timers with_timers].
        rewrite Hd. apply in_or_app. right. now left.
Qed.

Lemma countdown_ends_witness :
  let t := mkTimer 0 1000 (Some 1000) (RobustTick (Some 125000) "timer-student") in
  let q := TwoStep.fire offline_denied t 125000 page0 in
  (In Reload (since page0 q) <->
   exists e, Some 125000 = Some e /\ e <= 125000 /\ has page0 "attendance-form")
  /\ (forall e, Some 125000 = Some e -> e <= 125000 ->
        (forall t', In t' (timers q) -> timer_id t' <> 0%nat)
        /\ (textContent <$> dom q !! "timer-student") = Some (js "Session Ended"))
  /\ (Some 125000 = None ->
        (textContent <$> dom q !! "timer-student") = Some (js "NaNm NaNs")
        /\ forall d, Some 1000 = Some d ->
             In (mkTimer 0 (125000 + d) (Some d) (RobustTick (Some 125000) "timer-student"))
                (timers q)).
Proof.
  apply (countdown_ends offline_denied
           (mkTimer 0 1000 (Some 1000) (RobustTick (Some 125000) "timer-student"))
           125000 page0 (Some 125000) "timer-student").
  - reflexivity.
  - apply page0_has. simpl. tauto.
Defined.

(** X3.  Before the end time, a tick of the interval of
    [startRobustTimer] writes the remaining time as [<minutes>m <ss>s]: the
    minutes are the whole minutes that remain, the seconds are always two
    decimal digits, and together they are the whole seconds that remain.
    The tick calls nothing of the platform and the interval is due again one
    period later. *)
Theorem countdown_shows_remaining (w : World) (t : Timer) (time : Z) (p : Page)
    (e : Z) (el : string) :
  callback t = RobustTick (Some e) el ->
  has p el ->
  time < e ->
  let q := TwoStep.fire w t time p in
  let minutes := (e - time) / 60000 in
  (exists a b,
     (textContent <$> dom q !! el) = Some (to_string minutes ++ js "m " ++ [a; b] ++ js "s")
     /\ is_digit a = true /\ is_digit b = true
     /\ 60 * minutes + two_digits a b = (e - time) / 1000)
  /\ since p q = []
  /\ (forall d, period t = Some d ->
        In (mkTimer (timer_id t) (time + d) (Some d) (callback t)) (timers q)).
Proof.
  intros Hcb [elem Hel] Hlt q minutes. subst q. rewrite fire_run, Hcb.
  unfold TwoStep.run_callback, TwoStep.robust_tick.
  set (p1 := with_timers _ _ _).
  unfold exec. rewrite (bind_step page _ w p1 p1 p1) by reflexivity. cbv zeta.
  change (now p1) with time.
  assert (Hle : (e - time <=? 0)%Z = false) by (apply Z.leb_gt; lia). rewrite Hle.
  erewrite eval_assign by (change (dom p1) with (dom p); exact Hel). cbn [snd].
  destruct (remaining_split (e - time) ltac:(lia)) as [Hs Hsum].
  destruct (two_digit_seconds _ Hs) as (a & b & Hpad & Ha & Hb & Hval).
  split; [| split].
  - exists a, b. cbn [dom with_dom]. rewrite lookup_insert_eq. cbn [fmap option_fmap option_map].
    cbn [textContent set_textContent]. rewrite Hpad. fold minutes.
    repeat split; try assumption. rewrite Hval. exact Hsum.
  - apply since_same. reflexivity.
  - intros d Hd. cbn [timers with_dom]. subst p1. cbn [timers with_timers].
    rewrite Hd. apply in_or_app. right. now left.
Qed.

Lemma countdown_shows_remaining_witness :
  let t := mkTimer 0 1000 (Some 1000) (RobustTick (Some 125000) "timer-student") in
  let q := TwoStep.fire offline_denied t 1000 page0 in
  (exists a b,
     (textContent <$> dom q !! "timer-student")
     = Some (to_string 2 ++ js "m " ++ [a; b] ++ js "s")
     /\ is_digit a = true /\ is_digit b = true
     /\ 60 * 2 + two_digits a b = 124)
  /\ since page0 q = []
  /\ (forall d, Some 1000 = Some d ->
        In (mkTimer 0 (1000 + d) (Some d) (RobustTick (Some 125000) "timer-student"))
           (timers q)).
Proof.
  apply (countdown_shows_remaining offline_denied
           (mkTimer 0 1000 (Some 1000) (RobustTick (Some 125000) "timer-student"))
           1000 page0 125000 "timer-student").
  - reflexivity.
  - apply page0_has. simpl. tauto.
  - lia.
Defined.

(** *** The debounced lookup *)

Lemma debounced_same p q :
  timers q = timers p -> next_timer q = next_timer p ->
  lookup_timeout q = lookup_timeout p -> debounced p -> debounced q.
Proof. intros Ht Hn Hl [h1 h2 h3]. split; rewrite ?Ht, ?Hn, ?Hl; assumption. Qed.

(** Script that touches neither the timers nor the variable of [debounce]. *)
Lemma deb_quiet {A} (m : M A) :
  (forall w p, timers (exec m w p) = timers p
               /\ next_timer (exec m w p) = next_timer p
               /\ lookup_timeout (exec m w p) = lookup_timeout p) ->
  keeps debounced m.
Proof. intros H w p Hp. destruct (H w p) as (Ht & Hn & Hl). now apply (debounced_same p). Qed.

Ltac deb_prim := apply deb_quiet; intros ? ?; repeat split; reflexivity.

Lemma deb_ret {A} (a : A) : keeps debounced (ret a).
Proof. deb_prim. Qed.
Lemma deb_throw {A} e : keeps debounced (@throw A e).
Proof. deb_prim. Qed.
Lemma deb_world : keeps debounced world.
Proof. deb_prim. Qed.
Lemma deb_page : keeps debounced page.
Proof. deb_prim. Qed.
Lemma deb_getElementById id : keeps debounced (getElementById id).
Proof. deb_prim. Qed.
Lemma deb_emit e : keeps debounced (emit e).
Proof. deb_prim. Qed.
Lemma deb_modal b : keeps debounced (modify (with_modal_open b)).
Proof. deb_prim. Qed.
Lemma deb_read {A} id (f : Element -> A) : keeps debounced (read id f).
Proof.
  apply deb_quiet. intros w p. unfold exec, read. destruct (dom p !! id); repeat split.
Qed.
Lemma deb_assign id f : keeps debounced (assign id f).
Proof.
  apply deb_quiet. intros w p. unfold exec, assign. destruct (dom p !! id); repeat split.
Qed.

(** A new timer that is not a lookup. *)
Lemma deb_add_timer cb delay per :
  cb <> EnrollmentLookup -> keeps debounced (add_timer cb delay per).
Proof.
  intros Hcb w p [h1 h2 h3]. unfold exec, add_timer. cbn [snd].
  assert (Hnew : is_lookup (mkTimer (next_timer p) (now p + delay) per cb) = false).
  { unfold is_lookup. cbn [callback]. destruct cb; congruence. }
  split; cbn [timers next_timer lookup_timeout with_timers].
  - intros t Ht Hl. apply in_app_or in Ht as [Ht | [<- | []]]; [now apply h1 | congruence].
  - intros t Ht. apply in_app_or in Ht as [Ht | [<- | []]]; [specialize (h2 t Ht); lia |].
    cbn [timer_id]. lia.
  - rewrite List.filter_app, length_app. cbn [List.filter]. rewrite Hnew. simpl. lia.
Qed.

Lemma filter_remove_timer_le f i l :
  (length (List.filter f (remove_timer i l)) <= length (List.filter f l))%nat.
Proof. unfold remove_timer. apply filter_filter_length. Qed.

Lemma deb_clearTimeout o : keeps debounced (clearTimeout o).
Proof.
  destruct o as [i|]; [| apply deb_ret].
  intros w p [h1 h2 h3]. unfold exec, clearTimeout, modify. cbn [snd].
  split; cbn [timers next_timer lookup_timeout with_timers].
  - intros t Ht. apply in_remove_timer in Ht as [Ht _]. now apply h1.
  - intros t Ht. apply in_remove_timer in Ht as [Ht _]. now apply h2.
  - pose proof (filter_remove_timer_le is_lookup i (timers p)). lia.
Qed.

Create HintDb debounce.
#[global] Hint Resolve deb_ret deb_throw deb_world deb_page deb_getElementById deb_emit
  deb_modal deb_read deb_assign deb_clearTimeout : debounce.
#[global] Hint Extern 1 (keeps debounced (add_timer _ _ _)) =>
  apply deb_add_timer; discriminate : debounce.

Ltac deb_step :=
  match goal with
  | |- forall _, _ => intro
  | |- keeps debounced (bind _ _) => apply keeps_bind
  | |- keeps debounced (try_catch _ _) => apply keeps_try_catch
  | |- keeps debounced (detached _) => apply keeps_detached
  | |- keeps debounced (match ?x with _ => _ end) => destruct x
  | |- keeps debounced (if ?x then _ else _) => destruct x
  | |- keeps debounced (let _ := _ in _) => cbv zeta
  | |- keeps debounced ?m =>
      first [ solve [auto with debounce] | let h := head_of m in progress unfold h ]
  end.
Ltac solve_deb := repeat deb_step.

Lemma deb_showStatusMessage msg t : keeps debounced (TwoStep.showStatusMessage msg t).
Proof. solve_deb. Qed.
Lemma deb_fetchPresentStudents sid : keeps debounced (TwoStep.fetchPresentStudents sid).
Proof. solve_deb. Qed.
Lemma deb_enrollment_lookup : keeps debounced TwoStep.enrollment_lookup.
Proof. solve_deb. Qed.
Lemma deb_handleAttendanceSubmission pos m :
  keeps debounced (TwoStep.handleAttendanceSubmission pos m).
Proof. solve_deb. Qed.
#[global] Hint Resolve deb_showStatusMessage deb_fetchPresentStudents deb_enrollment_lookup
  deb_handleAttendanceSubmission : debounce.

Lemma deb_on_submit : keeps debounced TwoStep.on_submit.
Proof. solve_deb. Qed.
Lemma deb_on_retry_click : keeps debounced TwoStep.on_retry_click.
Proof. solve_deb. Qed.
Lemma deb_closeModal modal : keeps debounced (TwoStep.closeModal modal).
Proof. solve_deb. Qed.
Lemma deb_robust_tick self endTime el : keeps debounced (TwoStep.robust_tick self endTime el).
Proof. solve_deb. Qed.
Lemma deb_startRobustTimer s el : keeps debounced (TwoStep.startRobustTimer s el).
Proof. solve_deb. Qed.
Lemma deb_addEventListener id l : keeps debounced (addEventListener id l).
Proof.
  unfold addEventListener. apply keeps_bind; [apply deb_read |]. intros _. deb_prim.
Qed.
#[global] Hint Resolve deb_startRobustTimer deb_addEventListener : debounce.
Lemma deb_initStudentPage : keeps debounced TwoStep.initStudentPage.
Proof. solve_deb. Qed.

Lemma no_lookup_left p i :
  debounced p -> lookup_timeout p = Some i ->
  List.filter is_lookup (remove_timer i (timers p)) = [].
Proof.
  intros [h1 _ _] Hl. apply filter_nil_iff. intros t Ht.
  apply in_remove_timer in Ht as [Ht Hid].
  destruct (is_lookup t) eqn:Hlk; [| reflexivity].
  specialize (h1 t Ht Hlk). congruence.
Qed.

Lemma no_lookup_pending p :
  debounced p -> lookup_timeout p = None -> List.filter is_lookup (timers p) = [].
Proof.
  intros [h1 _ _] Hl. apply filter_nil_iff. intros t Ht.
  destruct (is_lookup t) eqn:Hlk; [| reflexivity].
  specialize (h1 t Ht Hlk). congruence.
Qed.

(** A call of the debounced function drops the pending lookup and sets a
    new one. *)
Lemma debounce_one w p delay :
  debounced p ->
  let q := exec (debounce EnrollmentLookup delay) w p in
  debounced q
  /\ List.filter is_lookup (timers q)
     = [mkTimer (next_timer p) (now p + delay) None EnrollmentLookup].
Proof.
  intros Hp q. subst q. unfold exec, debounce.
  rewrite (bind_step page _ w p p p) by reflexivity.
  assert (Hold : exists old,
            clearTimeout (lookup_timeout p) w p
            = (Ok tt, with_timers old (next_timer p) p)
            /\ List.filter is_lookup old = []
            /\ (forall t, In t old -> In t (timers p))).
  { destruct (lookup_timeout p) as [i|] eqn:Hl.
    - exists (remove_timer i (timers p)). split; [reflexivity |].
      split; [now apply no_lookup_left |].
      intros t Ht. now apply in_remove_timer in Ht.
    - exists (timers p). split; [now destruct p |].
      split; [now apply no_lookup_pending | auto]. }
  destruct Hold as (old & Hrun & Hnone & Hsub).
  rewrite (bind_step _ _ w p tt _ Hrun).
  unfold setTimeout. erewrite bind_step by apply eval_add_timer.
  rewrite eval_modify. cbn [snd timers next_timer now lookup_timeout with_timers
                            with_lookup_timeout].
  assert (Hf : List.filter is_lookup
                 (old ++ [mkTimer (next_timer p) (now p + delay) None EnrollmentLookup])
               = [mkTimer (next_timer p) (now p + delay) None EnrollmentLookup]).
  { rewrite List.filter_app, Hnone. reflexivity. }
  split; [| exact Hf].
  destruct Hp as [h1 h2 h3].
  split; cbn [timers next_timer lookup_timeout with_timers with_lookup_timeout].
  - intros t Ht Hlk.
    assert (Hin : In t (List.filter is_lookup
                          (old ++ [mkTimer (next_timer p) (now p + delay) None
                                     EnrollmentLookup])))
      by (apply filter_In; now split).
    rewrite Hf in Hin. destruct Hin as [<- | []]. reflexivity.
  - intros t Ht. apply in_app_or in Ht as [Ht | [<- | []]].
    + specialize (h2 t (Hsub t Ht)). lia.
    + cbn [timer_id]. lia.
  - rewrite Hf. simpl. lia.
Qed.

Lemma deb_debounce delay : keeps debounced (debounce EnrollmentLookup delay).
Proof. intros w p Hp. now apply debounce_one. Qed.

Lemma deb_fire w t time p : debounced p -> In t (timers p) -> debounced (TwoStep.fire w t time p).
Proof.
  intros Hp Ht. rewrite fire_run.
  assert (Hq : debounced
             (with_timers
                (match period t with
                 | Some d => remove_timer (timer_id t) (timers p)
                             ++ [mkTimer (timer_id t) (time + d) (Some d) (callback t)]
                 | None => remove_timer (timer_id t) (timers p)
                 end) (next_timer p) (with_now time p))).
  { destruct Hp as [h1 h2 h3].
    split; cbn [timers next_timer lookup_timeout with_timers with_now].
    - intros t' Ht' Hlk. destruct (period t).
      + apply in_app_or in Ht' as [Ht' | [<- | []]].
        * apply in_remove_timer in Ht' as [Ht' _]. now apply h1.
        * cbn [timer_id]. apply (h1 t Ht). exact Hlk.
      + apply in_remove_timer in Ht' as [Ht' _]. now apply h1.
    - intros t' Ht'. destruct (period t).
      + apply in_app_or in Ht' as [Ht' | [<- | []]].
        * apply in_remove_timer in Ht' as [Ht' _]. now apply h2.
        * cbn [timer_id]. now apply h2.
      + apply in_remove_timer in Ht' as [Ht' _]. now apply h2.
    - destruct (is_lookup t) eqn:Hlk.
      + (* the timer that fires is the pending lookup: none is left *)
        assert (Hnone : List.filter is_lookup (remove_timer (timer_id t) (timers p)) = []).
        { apply no_lookup_left; [now split | now apply h1]. }
        destruct (period t); [| rewrite Hnone; simpl; lia].
        rewrite List.filter_app, Hnone. simpl.
        destruct (is_lookup _); simpl; lia.
      + pose proof (filter_remove_timer_le is_lookup (timer_id t) (timers p)) as Hle.
        destruct (period t); [| lia].
        rewrite List.filter_app, length_app. simpl.
        assert (Hsame : is_lookup (mkTimer (timer_id t) (time + z) (Some z) (callback t))
                        = false) by exact Hlk.
        rewrite Hsame. simpl. lia. }
  assert (Hk : keeps debounced (TwoStep.run_callback (timer_id t) (callback t))).
  { destruct (callback t); unfold TwoStep.run_callback; solve_deb. }
  exact (Hk w _ Hq).
Qed.

Lemma deb_step_relation p q : debounced p -> TwoStep.step p q -> debounced q.
Proof.
  intros Hp Hstep.
  destruct Hstep as [w v p _ _ | w p _ _ | w p _ _ | w modal p _ _ | w t time p _ Ht _ _].
  - revert Hp. apply keeps_detached. unfold TwoStep.type_enrollment, TwoStep.on_input.
    apply keeps_bind; [apply deb_assign | intros _; apply deb_debounce].
  - revert Hp. apply keeps_detached, deb_on_submit.
  - revert Hp. apply keeps_detached, deb_on_retry_click.
  - revert Hp. apply deb_closeModal.
  - now apply deb_fire.
Qed.

Lemma deb_steps p q : debounced p -> TwoStep.steps p q -> debounced q.
Proof.
  intros Hp Hsteps. induction Hsteps as [p | p q r _ IH Hstep]; [assumption |].
  eapply deb_step_relation; [apply IH, Hp | exact Hstep].
Qed.

Lemma fresh_debounced p : fresh p -> debounced p.
Proof.
  intros (Ht & _ & _). split; rewrite Ht; simpl; try lia; intros t [].
Qed.

(** X4.  On a page that [initStudentPage] has set up, whatever the user does
    and whichever timers fire afterwards, at most one name lookup is
    pending.  Typing into the enrollment field drops the pending lookup, if
    there is one, and leaves exactly one, due 250 ms after the key stroke. *)
Theorem lookup_is_debounced (w : World) (p r : Page) :
  fresh p ->
  TwoStep.steps (exec TwoStep.initStudentPage w p) r ->
  (length (List.filter is_lookup (timers r)) <= 1)%nat
  /\ forall w' v,
       has r "enrollment_no" ->
       List.filter is_lookup (timers (exec (detached (TwoStep.type_enrollment v)) w' r))
       = [mkTimer (next_timer r) (now r + 250) None EnrollmentLookup].
Proof.
  intros Hfresh Hsteps.
  assert (Hr : debounced r).
  { eapply deb_steps; [| exact Hsteps]. apply deb_initStudentPage. now apply fresh_debounced. }
  split; [apply (deb_one _ Hr) |].
  intros w' v [input Hin]. unfold exec. rewrite exec_detached.
  unfold TwoStep.type_enrollment, TwoStep.enrollmentInput.
  erewrite bind_step by (apply eval_assign; exact Hin).
  set (r1 := with_dom _ r).
  assert (Hr1 : debounced r1) by (apply (debounced_same r); [reflexivity .. | exact Hr]).
  exact (proj2 (debounce_one w' r1 250 Hr1)).
Qed.

Lemma lookup_is_debounced_witness :
  let q := exec TwoStep.initStudentPage (online 10 accepted) page0 in
  let r := exec (detached (TwoStep.type_enrollment (js "Y2412"))) (online 10 accepted) q in
  (length (List.filter is_lookup (timers r)) <= 1)%nat
  /\ forall w' v,
       has r "enrollment_no" ->
       List.filter is_lookup (timers (exec (detached (TwoStep.type_enrollment v)) w' r))
       = [mkTimer (next_timer r) (now r + 250) None EnrollmentLookup].
Proof.
  apply (lookup_is_debounced (online 10 accepted) page0).
  - exact page0_fresh.
  - eapply TwoStep.steps_cons; [apply TwoStep.steps_refl |].
    apply TwoStep.step_input.
    + unfold alive. vm_compute. intuition discriminate.
    + vm_compute. tauto.
Defined.

(** *** Status messages *)

Lemma showStatusMessage_run msg type w p e :
  dom p !! "status-message" = Some e ->
  TwoStep.showStatusMessage msg type w p
  = (Ok tt,
     mkPage (<["status-message" :=
                 set_display (js "block")
                   (set_className (js "status-message " ++ type)
                      (set_textContent msg e))]> (dom p))
            (modal_open p)
            (timers p ++ [mkTimer (next_timer p) (now p + 6000) None HideStatus])
            (S (next_timer p)) (next_watch p) (now p) (log p) (listeners p)
            (lookup_timeout p)).
Proof.
  intros He. unfold TwoStep.showStatusMessage.
  erewrite bind_step by (apply eval_getElementById; exact He).
  cbv beta iota. do 3 advance. unfold setTimeout. erewrite bind_step by apply eval_add_timer.
  tidy. rewrite !insert_insert_eq. reflexivity.
Qed.

(** X5.  [showStatusMessage] does not cancel the timer of the message
    before.  When a second message is shown less than 6 seconds after a
    first one, both timers are pending; the second message is on display,
    but the timer of the first one hides it when it fires, 6 seconds after
    the first message and so less than 6 seconds after the second. *)
Theorem status_message_hidden_early (w : World) (p : Page) (m1 t1 m2 t2 : JsString)
    (later : Z) :
  has p "status-message" ->
  now p <= later < now p + 6000 ->
  let p1 := exec (TwoStep.showStatusMessage m1 t1) w p in
  let p2 := exec (TwoStep.showStatusMessage m2 t2) w (with_now later p1) in
  let first := mkTimer (next_timer p) (now p + 6000) None HideStatus in
  timers p2 = timers p ++ [first; mkTimer (S (next_timer p)) (later + 6000) None HideStatus]
  /\ shown m2 t2 (later + 6000) p2
  /\ (style_display <$> dom (TwoStep.fire w first (now p + 6000) p2) !! "status-message")
     = Some (js "none")
  /\ (textContent <$> dom (TwoStep.fire w first (now p + 6000) p2) !! "status-message")
     = Some m2.
Proof.
  intros [e He] Hlater p1 p2 first. subst p1 p2 first. unfold exec.
  rewrite (showStatusMessage_run m1 t1 w p e He). cbn [snd].
  erewrite showStatusMessage_run by (tidy; apply lookup_insert_eq).
  cbn [snd]. tidy. split; [now rewrite <- app_assoc |]. split; [| split].
  - unfold shown. do 2 eexists. tidy. split; [apply lookup_insert_eq |].
    repeat split. apply in_or_app. right. now left.
  - rewrite fire_run. cbn [callback period timer_id]. unfold TwoStep.run_callback, exec.
    erewrite eval_assign by (tidy; apply lookup_insert_eq). tidy.
    now rewrite lookup_insert_eq.
  - rewrite fire_run. cbn [callback period timer_id]. unfold TwoStep.run_callback, exec.
    erewrite eval_assign by (tidy; apply lookup_insert_eq). tidy.
    now rewrite lookup_insert_eq.
Qed.

Lemma status_message_hidden_early_witness :
  let w := offline_denied in
  let p1 := exec (TwoStep.showStatusMessage (js "first") (js "info")) w page0 in
  let p2 := exec (TwoStep.showStatusMessage (js "second") (js "error")) w (with_now 4000 p1) in
  let first := mkTimer 0 6000 None HideStatus in
  timers p2 = [first; mkTimer 1 10000 None HideStatus]
  /\ shown (js "second") (js "error") 10000 p2
  /\ (style_display <$> dom (TwoStep.fire w first 6000 p2) !! "status-message")
     = Some (js "none")
  /\ (textContent <$> dom (TwoStep.fire w first 6000 p2) !! "status-message")
     = Some (js "second").
Proof.
  apply (status_message_hidden_early offline_denied page0 (js "first") (js "info")
           (js "second") (js "error") 4000).
  - apply page0_has. simpl. tauto.
  - simpl. lia.
Defined.

(** *** A mark that fails after the position was found *)

(** X6.  In part_000 the post to [/api/mark_attendance] runs inside the
    [try] of the GPS attempt.  When the browser has found the position but
    the post fails, or its answer is not JSON, the submit handler reports
    this as a failure of GPS: it warns [Initial GPS failed:] on the console,
    shows the message that asks for Wi-Fi, opens the Wi-Fi prompt, and leaves
    the submit button disabled with the label [Getting GPS Location...]. *)
Theorem failed_post_reads_as_gps_failure (w : World) (p : Page) (position : Position)
    (session : SessionData) (input : Element) :
  student_page p ->
  geolocation (device w) = true ->
  geo_current w gps_options = GeoSuccess position ->
  activeSessionDataStudent w = Some session ->
  dom p !! "enrollment_no" = Some input ->
  let request :=
    mark_attendance_request w (value input) (session_id session) position (js "gps") in
  (net w request = NetworkError \/ exists ok st, net w request = Response ok st None) ->
  let q := exec TwoStep.on_submit w p in
  outcome TwoStep.on_submit w p = Ok tt
  /\ since p q = [PreventDefault; GetCurrentPosition gps_options; Fetch request;
                  ConsoleWarn (js "Initial GPS failed:")]
  /\ shown gps_failed_message (js "info") (now p + 6000) q
  /\ (disabled <$> dom q !! "mark-btn") = Some true
  /\ (textContent <$> dom q !! "mark-btn span") = Some (js "Getting GPS Location...")
  /\ (style_display <$> dom q !! "wifi-prompt-modal") = Some (js "block").
Proof.
  intros Hp Hsup Hgeo Hs Hin request Hnet q. subst q request.
  unfold gps_options in *. unfold mark_attendance_request in *.
  assert (Hin' := Hin). elements.
  destruct Hnet as [Hnet | (ok & st & Hnet)].
  all: eassert (H : TwoStep.on_submit w p = _);
    [ unfold TwoStep.on_submit, TwoStep.markButton, TwoStep.spinner, TwoStep.wifiModal,
        TwoStep.getBrowserGpsLocation, TwoStep.handleAttendanceSubmission,
        TwoStep.enrollmentInput, TwoStep.formData; walk
    | unfold exec, outcome; rewrite H; clear H; tidy ].
  all: split; [reflexivity |].
  all: split; [apply since_app; tidy; rewrite <- ?app_assoc; reflexivity |].
  all: split; [| repeat split; lookups; reflexivity].
  all: unfold shown; do 2 eexists; tidy; (split; [look |]); repeat split.
  all: apply in_or_app; right; now left.
Qed.

Lemma failed_post_reads_as_gps_failure_witness :
  let w := position_without_network in
  let q := exec TwoStep.on_submit w page0 in
  let request := mark_attendance_request w (js "Y24120001") 7 (here 10) (js "gps") in
  outcome TwoStep.on_submit w page0 = Ok tt
  /\ since page0 q = [PreventDefault; GetCurrentPosition gps_options; Fetch request;
                      ConsoleWarn (js "Initial GPS failed:")]
  /\ shown gps_failed_message (js "info") (now page0 + 6000) q
  /\ (disabled <$> dom q !! "mark-btn") = Some true
  /\ (textContent <$> dom q !! "mark-btn span") = Some (js "Getting GPS Location...")
  /\ (style_display <$> dom q !! "wifi-prompt-modal") = Some (js "block").
Proof.
  apply (failed_post_reads_as_gps_failure position_without_network page0 (here 10) session7
           (set_value (js "Y24120001") blank)).
  - exact page0_student_page.
  - reflexivity.
  - reflexivity.
  - reflexivity.
  - vm_compute. reflexivity.
  - left. reflexivity.
Defined.

(** What the hypotheses say of the world and of the server's answers. *)
Ltac use_world ::=
  repeat match goal with
  | H : geolocation _ = _ |- _ => rewrite H
  | H : geo_current _ _ = _ |- _ => rewrite H
  | H : geo_watch _ _ = _ |- _ => rewrite H
  | H : net _ _ = _ |- _ => rewrite H
  | H : GOOGLE_MAPS_API_KEY _ = _ |- _ => rewrite H
  | H : activeSessionDataStudent _ = _ |- _ => rewrite H
  | H : success _ = _ |- _ => rewrite H
  | H : students _ = _ |- _ => rewrite H
  | H : location _ = _ |- _ => rewrite H
  | H : data_accuracy _ = _ |- _ => rewrite H
  | H : api_error_message _ = _ |- _ => rewrite H
  | H : jseq _ _ = _ |- _ => rewrite H
  | H : includes _ _ = _ |- _ => rewrite H
  | H : truthy_string _ = _ |- _ => rewrite H
  | H : truthy_number _ = _ |- _ => rewrite H
  | H : Qlt_bool _ _ = _ |- _ => rewrite H
  | H : (_ <=? _)%Z = _ |- _ => rewrite H
  | H : (_ =? _)%Z = _ |- _ => rewrite H
  end.

(** X7.  In the two revisions of main.js the post to
    [/api/mark_attendance] is made in a callback whose failure nobody
    handles.  When the position was found and the post fails, or is not
    answered in JSON, the handler itself returns normally, the submit button
    stays disabled with the label [Submitting...], and no message about the
    failure is shown.  In the browser revision the status line still shows
    the progress of the location request: [Getting location...] when the
    first position was accurate enough, [Improving location accuracy...]
    when the position came from the high-accuracy watch.  In the Google
    revision the status line is untouched. *)
Theorem failed_post_leaves_button_stuck (w : World) (p : Page) (position : Position)
    (session : SessionData) (input : Element) :
  student_page p ->
  activeSessionDataStudent w = Some session ->
  dom p !! "enrollment_no" = Some input ->
  no_json (net w (plain_mark_request (value input) (session_id session) position)) ->
  (forall first,
     geolocation (device w) = true ->
     geo_current w MainJsBrowser.low_accuracy_options = GeoSuccess first ->
     let q := exec MainJsBrowser.on_submit w p in
     let stuck progress :=
       outcome MainJsBrowser.on_submit w p = Ok tt
       /\ (disabled <$> dom q !! "mark-btn") = Some true
       /\ (textContent <$> dom q !! "mark-btn") = Some (js "Submitting...")
       /\ (textContent <$> dom q !! "status-message") = Some progress
       /\ (className <$> dom q !! "status-message") = Some (js "status-message info") in
     ((accuracy (coords first) < 150)%Q -> position = first ->
      stuck (js "Getting location..."))
     /\ ((150 <= accuracy (coords first))%Q ->
         geo_watch w MainJsBrowser.high_accuracy_options = GeoSuccess position ->
         stuck (js "Improving location accuracy...")))
  /\ (forall apiKey st data lat lng,
        GOOGLE_MAPS_API_KEY w = Some apiKey -> apiKey <> [] ->
        net w (google_only_request apiKey) = Response true st (Some data) ->
        location data = Some (lat, lng) ->
        position = mkPosition (mkCoords lat lng
                                 (match data_accuracy data with Some a => a | None => 0%Q end)) ->
        let q := exec MainJsGoogle.on_submit w p in
        outcome MainJsGoogle.on_submit w p = Ok tt
        /\ (disabled <$> dom q !! "mark-btn") = Some true
        /\ (textContent <$> dom q !! "mark-btn span") = Some (js "Submitting...")
        /\ dom q !! "status-message" = dom p !! "status-message"
        /\ timers q = timers p).
Proof.
  intros Hp Hs Hin Hno. unfold plain_mark_request, MainJsBrowser.formData in Hno.
  assert (Hin' := Hin). elements. split.
  - intros first Hsup Hgeo q stuck. subst q stuck.
    unfold MainJsBrowser.low_accuracy_options in Hgeo. split.
    + intros Hacc ->. apply Qlt_bool_true in Hacc.
      destruct (net w _) as [|ok st' [result|]] eqn:Hnet; [| destruct Hno |].
      all: eassert (H : MainJsBrowser.on_submit w p = _);
        [ unfold MainJsBrowser.on_submit, MainJsBrowser.getAccurateLocation,
            MainJsBrowser.low_accuracy_options, MainJsBrowser.submit_successCallback,
            MainJsBrowser.enrollmentInput, MainJsBrowser.formData, MainJsBrowser.markButton;
          walk
        | unfold exec, outcome; rewrite H; clear H; tidy ].
      all: repeat split; lookups; reflexivity.
    + intros Hacc Hwatch. apply Qlt_bool_false in Hacc.
      unfold MainJsBrowser.high_accuracy_options in Hwatch.
      destruct (net w _) as [|ok st' [result|]] eqn:Hnet; [| destruct Hno |].
      all: eassert (H : MainJsBrowser.on_submit w p = _);
        [ unfold MainJsBrowser.on_submit, MainJsBrowser.getAccurateLocation,
            MainJsBrowser.low_accuracy_options, MainJsBrowser.high_accuracy_options,
            MainJsBrowser.submit_successCallback,
            MainJsBrowser.enrollmentInput, MainJsBrowser.formData, MainJsBrowser.markButton;
          walk
        | unfold exec, outcome; rewrite H; clear H; tidy ].
      all: repeat split; lookups; reflexivity.
  - intros apiKey st data lat lng Hkey Hne Hg Hloc Hpos q. subst q.
    unfold google_only_request in Hg. subst position.
    assert (Ht : truthy_string apiKey = true) by (destruct apiKey; [congruence | reflexivity]).
    destruct (net w (mkRequest (js "/api/mark_attendance") _ _ _))
      as [|ok st' [result|]] eqn:Hnet; [| destruct Hno |].
    all: eassert (H : MainJsGoogle.on_submit w p = _);
      [ unfold MainJsGoogle.on_submit, MainJsGoogle.getAccurateLocation,
          MainJsGoogle.submit_successCallback, MainJsGoogle.enrollmentInput,
          MainJsGoogle.formData, MainJsGoogle.markButton, MainJsGoogle.spinner; walk
      | unfold exec, outcome; rewrite H; clear H; tidy ].
    all: repeat split; lookups; reflexivity.
Qed.

Lemma failed_post_leaves_button_stuck_witness :
  let direct := exec MainJsBrowser.on_submit position_without_network page0 in
  let watched := exec MainJsBrowser.on_submit coarse_position_without_network page0 in
  ((disabled <$> dom direct !! "mark-btn") = Some true
   /\ (textContent <$> dom direct !! "mark-btn") = Some (js "Submitting...")
   /\ (textContent <$> dom direct !! "status-message") = Some (js "Getting location..."))
  /\ ((disabled <$> dom watched !! "mark-btn") = Some true
      /\ (textContent <$> dom watched !! "mark-btn") = Some (js "Submitting...")
      /\ (textContent <$> dom watched !! "status-message")
         = Some (js "Improving location accuracy...")).
Proof.
  assert (Hfine : (accuracy (coords (here 10)) < 150)%Q) by (vm_compute; reflexivity).
  assert (Hcoarse : (150 <= accuracy (coords (here 150)))%Q) by (vm_compute; discriminate).
  destruct (proj1 (proj1 (failed_post_leaves_button_stuck position_without_network page0
                            (here 10) session7 _ page0_student_page eq_refl page0_input I)
                         (here 10) eq_refl eq_refl) Hfine eq_refl)
    as (_ & H1 & H2 & H3 & _).
  destruct (proj2 (proj1 (failed_post_leaves_button_stuck coarse_position_without_network
                            page0 (here 10) session7 _ page0_student_page eq_refl
                            page0_input I)
                         (here 150) eq_refl eq_refl) Hcoarse eq_refl)
    as (_ & H4 & H5 & H6 & _).
  repeat split; assumption.
Defined.

(** *** The answers of the server to a mark *)

(** X8.  What [handleAttendanceSubmission] of part_000 does with an
    answer that is not a success.  With the category [retry_high_accuracy]
    the message is shown as [info] and the Wi-Fi prompt is opened, while the
    submit button and the troubleshooting tips are left as they are.  With
    any other category the message is shown under that category, no modal
    is opened, and the troubleshooting tips are displayed exactly when the
    message contains [away]. *)
Theorem rejected_mark_feedback (w : World) (p : Page) (position : Position)
    (method : JsString) (session : SessionData) (input : Element) (result : Payload)
    (ok : bool) (st : Z) :
  student_page p ->
  activeSessionDataStudent w = Some session ->
  dom p !! "enrollment_no" = Some input ->
  net w (mark_attendance_request w (value input) (session_id session) position method)
    = Response ok st (Some result) ->
  success result = false ->
  let q := exec (TwoStep.handleAttendanceSubmission position method) w p in
  (category result = js "retry_high_accuracy" ->
     shown (message result) (js "info") (now p + 6000) q
     /\ (style_display <$> dom q !! "wifi-prompt-modal") = Some (js "block")
     /\ modal_open q = true
     /\ dom q !! "mark-btn" = dom p !! "mark-btn"
     /\ dom q !! "troubleshooting-tips" = dom p !! "troubleshooting-tips")
  /\ (category result <> js "retry_high_accuracy" ->
      shown (message result) (category result) (now p + 6000) q
      /\ modal_open q = modal_open p
      /\ (style_display <$> dom q !! "troubleshooting-tips")
         = (if includes (message result) (js "away") then Some (js "block")
            else style_display <$> dom p !! "troubleshooting-tips")).
Proof.
  intros Hp Hs Hin Hnet Hok q. subst q. unfold mark_attendance_request in Hnet.
  assert (Hin' := Hin). elements. split.
  - intros Hcat.
    assert (Hjs : jseq (category result) (js "retry_high_accuracy") = true)
      by (now apply bool_decide_eq_true).
    eassert (H : TwoStep.handleAttendanceSubmission position method w p = _);
      [ unfold TwoStep.handleAttendanceSubmission, TwoStep.enrollmentInput, TwoStep.formData,
          TwoStep.wifiModal; walk
      | unfold exec; rewrite H; clear H; tidy ].
    split; [| repeat split; lookups; reflexivity].
    unfold shown. do 2 eexists. tidy. split; [look |]. repeat split.
    apply in_or_app. right. now left.
  - intros Hcat.
    assert (Hjs : jseq (category result) (js "retry_high_accuracy") = false)
      by (now apply bool_decide_eq_false).
    destruct (includes (message result) (js "away")) eqn:Haway.
    all: eassert (H : TwoStep.handleAttendanceSubmission position method w p = _);
      [ unfold TwoStep.handleAttendanceSubmission, TwoStep.enrollmentInput, TwoStep.formData,
          TwoStep.resetSubmitButton, TwoStep.markButton, TwoStep.spinner; walk
      | unfold exec; rewrite H; clear H; tidy ].
    all: split; [| repeat split; lookups; try reflexivity].
    all: try (unfold shown; do 2 eexists; tidy; (split; [look |]); repeat split;
              apply in_or_app; right; now left).
Qed.

Lemma rejected_mark_feedback_witness :
  let w := online 10 rejected in
  let q := exec (TwoStep.handleAttendanceSubmission (here 10) (js "gps")) w page0 in
  (category rejected = js "retry_high_accuracy" ->
     shown (message rejected) (js "info") (now page0 + 6000) q
     /\ (style_display <$> dom q !! "wifi-prompt-modal") = Some (js "block")
     /\ modal_open q = true
     /\ dom q !! "mark-btn" = dom page0 !! "mark-btn"
     /\ dom q !! "troubleshooting-tips" = dom page0 !! "troubleshooting-tips")
  /\ (category rejected <> js "retry_high_accuracy" ->
      shown (message rejected) (category rejected) (now page0 + 6000) q
      /\ modal_open q = modal_open page0
      /\ (style_display <$> dom q !! "troubleshooting-tips")
         = (if includes (message rejected) (js "away") then Some (js "block")
            else style_display <$> dom page0 !! "troubleshooting-tips")).
Proof.
  apply (rejected_mark_feedback (online 10 rejected) page0 (here 10) (js "gps") session7
           (set_value (js "Y24120001") blank) rejected true 200).
  - exact page0_student_page.
  - reflexivity.
  - vm_compute. reflexivity.
  - reflexivity.
  - reflexivity.
Defined.

(** *** The errors of the Google-only revision *)

(** X9.  The errors of [getAccurateLocation] in the Google revision of
    main.js, on a submit.  The handler always returns normally, and each of
    these is reported as an error message with the submit button enabled and
    its label restored: no key or an empty key gives [Google Maps API key is
    missing.] without any request; a failed request, an answer that is not
    JSON, and an OK answer without a location all give the network error
    message; an answer that is not OK gives the message of its [error]
    field, or the unknown-error message when there is none or it is
    empty. *)
Theorem google_only_errors (w : World) (p : Page) :
  student_page p ->
  let q := exec MainJsGoogle.on_submit w p in
  let reported msg :=
    shown msg (js "error") (now p + 6000) q
    /\ (disabled <$> dom q !! "mark-btn") = Some false
    /\ (textContent <$> dom q !! "mark-btn span") = Some (js "Mark My Attendance") in
  outcome MainJsGoogle.on_submit w p = Ok tt
  /\ (GOOGLE_MAPS_API_KEY w = None \/ GOOGLE_MAPS_API_KEY w = Some [] ->
      reported (js "Google Maps API key is missing.") /\ since p q = [PreventDefault])
  /\ (forall apiKey, GOOGLE_MAPS_API_KEY w = Some apiKey -> apiKey <> [] ->
      let request := google_only_request apiKey in
      (net w request = NetworkError \/ (exists ok st, net w request = Response ok st None) ->
         reported (js "A network error occurred. Check your internet connection."))
      /\ (forall st data, net w request = Response true st (Some data) ->
            location data = None ->
            reported (js "A network error occurred. Check your internet connection."))
      /\ (forall st data msg, net w request = Response false st (Some data) ->
            api_error_message data = Some msg -> msg <> [] -> reported msg)
      /\ (forall st data, net w request = Response false st (Some data) ->
            api_error_message data = None \/ api_error_message data = Some [] ->
            reported (js "An unknown error occurred with the Geolocation API."))).
Proof.
  intros Hp q reported. subst q reported. cbv beta.
  elements. split.
  { unfold outcome, MainJsGoogle.on_submit, MainJsGoogle.markButton, MainJsGoogle.spinner.
    do 5 advance. apply detached_ok. }
  split; [| intros apiKey Hkey Hne; cbv zeta; unfold google_only_request;
            assert (Ht : truthy_string apiKey = true)
              by (destruct apiKey; [congruence | reflexivity]);
            split; [| split; [| split]]].
  - assert (Hempty : truthy_string (@nil Z) = false) by reflexivity.
    intros [Hkey | Hkey].
    all: eassert (H : MainJsGoogle.on_submit w p = _);
      [ unfold MainJsGoogle.on_submit, MainJsGoogle.getAccurateLocation,
          MainJsGoogle.submit_errorCallback, MainJsGoogle.markButton, MainJsGoogle.spinner;
        walk
      | unfold exec; rewrite H; clear H; tidy ].
    all: split; [| apply since_app; reflexivity].
    all: split; [| repeat split; lookups; reflexivity].
    all: unfold shown; do 2 eexists; tidy; (split; [look |]); repeat split.
    all: apply in_or_app; right; now left.
  - intros [Hnet | (ok & st & Hnet)].
    all: eassert (H : MainJsGoogle.on_submit w p = _);
      [ unfold MainJsGoogle.on_submit, MainJsGoogle.getAccurateLocation,
          MainJsGoogle.submit_errorCallback, MainJsGoogle.markButton, MainJsGoogle.spinner;
        walk
      | unfold exec; rewrite H; clear H; tidy ].
    all: split; [| repeat split; lookups; reflexivity].
    all: unfold shown; do 2 eexists; tidy; (split; [look |]); repeat split.
    all: apply in_or_app; right; now left.
  - intros st data Hnet Hloc.
    eassert (H : MainJsGoogle.on_submit w p = _);
      [ unfold MainJsGoogle.on_submit, MainJsGoogle.getAccurateLocation,
          MainJsGoogle.submit_errorCallback, MainJsGoogle.markButton, MainJsGoogle.spinner;
        walk
      | unfold exec; rewrite H; clear H; tidy ].
    split; [| repeat split; lookups; reflexivity].
    unfold shown; do 2 eexists; tidy; (split; [look |]); repeat split.
    apply in_or_app; right; now left.
  - intros st data msg Hnet Hmsg Hm.
    assert (Htm : truthy_string msg = true) by (destruct msg; [congruence | reflexivity]).
    eassert (H : MainJsGoogle.on_submit w p = _);
      [ unfold MainJsGoogle.on_submit, MainJsGoogle.getAccurateLocation,
          MainJsGoogle.submit_errorCallback, MainJsGoogle.markButton, MainJsGoogle.spinner;
        walk
      | unfold exec; rewrite H; clear H; tidy; rewrite Hmsg, Htm ].
    split; [| repeat split; lookups; reflexivity].
    unfold shown; do 2 eexists; tidy; (split; [look |]); repeat split.
    apply in_or_app; right; now left.
  - assert (Hempty : truthy_string (@nil Z) = false) by reflexivity.
    intros st data Hnet [Hmsg | Hmsg].
    all: eassert (H : MainJsGoogle.on_submit w p = _);
      [ unfold MainJsGoogle.on_submit, MainJsGoogle.getAccurateLocation,
          MainJsGoogle.submit_errorCallback, MainJsGoogle.markButton, MainJsGoogle.spinner;
        walk
      | unfold exec; rewrite H; clear H; tidy; rewrite Hmsg; cbv beta iota ].
    all: split; [| repeat split; lookups; reflexivity].
    all: unfold shown; do 2 eexists; tidy; (split; [look |]); repeat split.
    all: apply in_or_app; right; now left.
Qed.

Lemma google_only_errors_witness :
  let w := offline_denied in
  let q := exec MainJsGoogle.on_submit w page0 in
  outcome MainJsGoogle.on_submit w page0 = Ok tt
  /\ shown (js "Google Maps API key is missing.") (js "error") (now page0 + 6000) q
  /\ (disabled <$> dom q !! "mark-btn") = Some false
  /\ since page0 q = [PreventDefault].
Proof.
  pose proof (google_only_errors offline_denied page0 page0_student_page) as (H1 & H2 & _).
  destruct (H2 (or_introl eq_refl)) as ((H3 & H4 & _) & H5).
  repeat split; assumption.
Defined.

(** *** A browser without geolocation, in main.js *)

(** X10.  The browser revision of main.js does not test that the
    browser has geolocation.  On a browser without it the submit handler
    throws a [TypeError] after it has prevented the default action, disabled
    the button under the label [Verifying...] and shown [Getting
    location...], to be hidden 5 seconds later; the button is left
    disabled. *)
Theorem unsupported_geolocation_throws (w : World) (p : Page) :
  student_page p ->
  geolocation (device w) = false ->
  let q := exec MainJsBrowser.on_submit w p in
  outcome MainJsBrowser.on_submit w p = Throw TypeError
  /\ since p q = [PreventDefault]
  /\ shown (js "Getting location...") (js "info") (now p + 5000) q
  /\ (disabled <$> dom q !! "mark-btn") = Some true
  /\ (textContent <$> dom q !! "mark-btn") = Some (js "Verifying...").
Proof.
  intros Hp Hsup q. subst q. elements.
  eassert (H : MainJsBrowser.on_submit w p = _);
    [ unfold MainJsBrowser.on_submit, MainJsBrowser.getAccurateLocation,
        MainJsBrowser.markButton; walk
    | unfold exec, outcome; rewrite H; clear H; tidy ].
  split; [reflexivity |]. split; [apply since_app; reflexivity |].
  split; [| repeat split; lookups; reflexivity].
  unfold shown. do 2 eexists. tidy. split; [look |]. repeat split.
  apply in_or_app. right. now left.
Qed.

Lemma unsupported_geolocation_throws_witness :
  let w := mkWorld sample_device_no_geolocation None (Some session7)
             (fun _ => GeoError denied) (fun _ => GeoError denied)
             (fun _ => NetworkError) (fun _ => None) in
  let q := exec MainJsBrowser.on_submit w page0 in
  outcome MainJsBrowser.on_submit w page0 = Throw TypeError
  /\ since page0 q = [PreventDefault]
  /\ shown (js "Getting location...") (js "info") (now page0 + 5000) q
  /\ (disabled <$> dom q !! "mark-btn") = Some true
  /\ (textContent <$> dom q !! "mark-btn") = Some (js "Verifying...").
Proof.
  apply (unsupported_geolocation_throws
           (mkWorld sample_device_no_geolocation None (Some session7)
              (fun _ => GeoError denied) (fun _ => GeoError denied)
              (fun _ => NetworkError) (fun _ => None)) page0).
  - exact page0_student_page.
  - reflexivity.
Defined.

(** *** Setting up the student page *)

(** X11.  [initStudentPage] of part_000.  Without an attendance form it
    does nothing.  With the form, the enrollment field and the retry button,
    and no active session (or one of id 0), it adds the three listeners, for
    input, submit and the retry click, and nothing else: no timer, no request
    and no change of the document.  With the form but without the enrollment
    field it throws a [TypeError] and adds no listener at all. *)
Theorem init_needs_its_elements (w : World) (p : Page) :
  let q := exec TwoStep.initStudentPage w p in
  (dom p !! "attendance-form" = None ->
     outcome TwoStep.initStudentPage w p = Ok tt /\ q = p)
  /\ (has p "attendance-form" -> has p "enrollment_no" -> has p "retry-with-google-btn" ->
      (activeSessionDataStudent w = None
       \/ exists session, activeSessionDataStudent w = Some session /\ session_id session = 0) ->
      outcome TwoStep.initStudentPage w p = Ok tt
      /\ listeners q = listeners p ++ [OnInput; OnSubmit; OnRetryClick]
      /\ timers q = timers p /\ since p q = [] /\ dom q = dom p)
  /\ (has p "attendance-form" -> dom p !! "enrollment_no" = None ->
      outcome TwoStep.initStudentPage w p = Throw TypeError
      /\ listeners q = listeners p).
Proof.
  intros q. subst q. split; [| split].
  - intros Hform. unfold outcome, exec, TwoStep.initStudentPage, TwoStep.attendanceForm.
    erewrite bind_step by (apply eval_getElementById; exact Hform). split; reflexivity.
  - intros [form Hform] [input Hinput] [retry Hretry] Hsession.
    destruct Hsession as [Hs | (session & Hs & Hid)];
      [| apply Z.eqb_eq in Hid].
    all: eassert (H : TwoStep.initStudentPage w p = _);
      [ unfold TwoStep.initStudentPage, TwoStep.attendanceForm, TwoStep.enrollmentInput,
          TwoStep.retryWithGoogleBtn, addEventListener; walk
      | unfold exec, outcome; rewrite H; clear H; tidy ].
    all: repeat split; try reflexivity.
    all: try (rewrite <- !app_assoc; reflexivity).
    all: apply since_same; reflexivity.
  - intros [form Hform] Hinput.
    unfold outcome, exec, TwoStep.initStudentPage, TwoStep.attendanceForm.
    erewrite bind_step by (apply eval_getElementById; exact Hform). cbv beta iota.
    erewrite bind_step by apply eval_world.
    set (setup := match activeSessionDataStudent w with Some _ => _ | None => _ end).
    assert (Hf : frames ["present-students-list"] setup).
    { subst setup. destruct (activeSessionDataStudent w) as [session|]; [| auto with frames].
      destruct (negb _); [| auto with frames].
      cbv zeta. pose proof frames_startRobustTimer. unfold setInterval. solve_frames. }
    assert (Hok : exists a, setup w p = (Ok a, exec setup w p)).
    { subst setup. unfold exec. destruct (activeSessionDataStudent w) as [session|];
        [| now exists tt]. destruct (negb _); [| now exists tt]. cbv zeta.
      pose proof (startRobustTimer_ok (end_time session) "timer-student" w p) as H1.
      unfold outcome in H1.
      destruct (TwoStep.startRobustTimer (end_time session) "timer-student" w p)
        as [r1 p1] eqn:Hr1. cbn [fst] in H1. subst r1.
      rewrite (bind_step _ _ w p tt p1 Hr1).
      pose proof (detached_ok (TwoStep.fetchPresentStudents (session_id session)) w p1) as H2.
      unfold outcome in H2.
      destruct (detached (TwoStep.fetchPresentStudents (session_id session)) w p1)
        as [r2 p2] eqn:Hr2. cbn [fst] in H2. subst r2.
      rewrite (bind_step _ _ w p1 tt p2 Hr2).
      unfold setInterval. erewrite bind_step by apply eval_add_timer. now exists tt. }
    destruct Hok as [a Hrun]. rewrite (bind_step _ _ w p a _ Hrun).
    specialize (Hf w p). set (p1 := exec setup w p) in *.
    assert (Hnone : dom p1 !! "enrollment_no" = None).
    { destruct (dom p1 !! "enrollment_no") as [e|] eqn:He; [| reflexivity].
      assert (Hs : is_Some (dom p !! "enrollment_no")) by (apply (ext_keys _ _ _ Hf); eauto).
      rewrite Hinput in Hs. destruct Hs as [? Hs]. discriminate Hs. }
    assert (Hthrow : addEventListener TwoStep.enrollmentInput OnInput w p1
                     = (Throw TypeError, p1)).
    { unfold addEventListener, TwoStep.enrollmentInput. apply eval_bind_throw.
      unfold read. now rewrite Hnone. }
    rewrite (eval_bind_throw _ _ w p1 TypeError p1 Hthrow). cbn [fst snd].
    split; [reflexivity | apply (ext_listeners _ _ _ Hf)].
Qed.

(** *** Refreshing the present-students list *)

(** X12.  [fetchPresentStudents] on a page that has the list.  It never
    throws and writes no element but the list.  When the server answers with
    success and an array of students, the markup assigned to the [innerHTML]
    of the list is [<li>name</li>] for each student, in the order of the
    answer and with the names as the server sent them, not escaped; for an
    empty array it is the single line [No one has marked attendance yet.].
    The list then holds what the browser parses from that markup.  When the
    request fails, the answer is not JSON, or it lacks success or the
    students, the document stays as it was, so the list of the last refresh
    stays on display. *)
Theorem present_list_refresh (w : World) (p : Page) (sessionId : Z) :
  has p "present-students-list" ->
  let q := exec (TwoStep.fetchPresentStudents sessionId) w p in
  let request := present_students_request sessionId in
  outcome (TwoStep.fetchPresentStudents sessionId) w p = Ok tt
  /\ (forall id, id <> "present-students-list" -> dom q !! id = dom p !! id)
  /\ (forall ok st data names,
        net w request = Response ok st (Some data) ->
        success data = true -> students data = Some names ->
        (children <$> dom q !! "present-students-list")
        = Some (parse_fragment
                  (match names with
                   | [] => js "<li>No one has marked attendance yet.</li>"
                   | _ => join_empty (List.map (fun s => js "<li>" ++ s ++ js "</li>") names)
                   end)))
  /\ (net w request = NetworkError
      \/ (exists ok st, net w request = Response ok st None)
      \/ (exists ok st data, net w request = Response ok st (Some data)
                             /\ (success data = false \/ students data = None)) ->
      dom q = dom p).
Proof.
  intros [list Hlist] q request. subst q request. unfold present_students_request.
  split; [| split; [| split]].
  - unfold outcome, TwoStep.fetchPresentStudents.
    erewrite bind_step by (apply eval_getElementById; exact Hlist). cbv beta iota.
    destruct (try_catch _ _ w p) as [[[]|e] q] eqn:Hrun; [reflexivity |].
    exfalso. unfold try_catch in Hrun.
    destruct (bind _ _ w p) as [[[]|e'] q']; [discriminate | discriminate].
  - intros id Hid.
    apply (ext_same _ _ _ (frames_fetchPresentStudents ["present-students-list"] sessionId
                             ltac:(now left) w p)).
    intros [<- | []]. congruence.
  - intros ok st data names Hnet Hok Hnames.
    eassert (H : TwoStep.fetchPresentStudents sessionId w p = _);
      [ unfold TwoStep.fetchPresentStudents; walk
      | unfold exec; rewrite H; clear H; tidy ].
    rewrite ?Hnames. cbv beta iota. rewrite lookup_insert_eq. cbn [fmap option_fmap option_map].
    f_equal. cbn [children set_innerHTML]. f_equal.
    destruct names as [|n names]; [reflexivity |].
    replace (0 <? jslength_list (n :: names))%Z with true; [reflexivity |].
    symmetry. apply Z.ltb_lt. unfold jslength_list. cbn [length]. lia.
  - intros [Hnet | [(ok & st & Hnet) | (ok & st & data & Hnet & Hbad)]].
    3: destruct (students data) as [names|] eqn:Hnames, (success data) eqn:Hok;
       [destruct Hbad; congruence | | |].
    all: eassert (H : TwoStep.fetchPresentStudents sessionId w p = _);
      [ unfold TwoStep.fetchPresentStudents; walk
      | unfold exec; rewrite H; clear H; tidy ].
    all: reflexivity.
Qed.

Lemma present_list_refresh_witness :
  let q := exec (TwoStep.fetchPresentStudents 7) (online 10 accepted) page0 in
  outcome (TwoStep.fetchPresentStudents 7) (online 10 accepted) page0 = Ok tt
  /\ (children <$> dom q !! "present-students-list")
     = Some (parse_fragment (js "<li>ANSHUL TAMRAKAR</li>")).
Proof.
  assert (H1 : has page0 "present-students-list")
    by (eexists; vm_compute; reflexivity).
  pose proof (present_list_refresh (online 10 accepted) page0 7 H1) as (Ha & _ & Hb & _).
  split; [exact Ha |].
  exact (Hb true 200 accepted [js "ANSHUL TAMRAKAR"] eq_refl eq_refl eq_refl).
Defined.

(* ===================================================================== *)
(** ** Further properties of the schema *)
(* ===================================================================== *)

Section SchemaIntegrity.
Import Schema Constraints Integrity SchemaFacts.
Local Open Scope Z_scope.

Lemma mem_true x l : mem x l = true <-> In x l.
Proof.
  unfold mem. rewrite existsb_exists. split.
  - intros (y & Hy & Heq). apply Z.eqb_eq in Heq. now subst.
  - intros H. exists x. split; [assumption | apply Z.eqb_refl].
Qed.

Lemma references_Some k l : references (Some k) l = true <-> In k l.
Proof. apply mem_true. Qed.

Lemma references_mono key l l' :
  (forall k, In k l -> In k l') -> references key l = true -> references key l' = true.
Proof.
  destruct key as [k|]; [| reflexivity]. rewrite !references_Some. auto.
Qed.

Lemma references_filter key l id :
  same_key key (Some id) = false ->
  references key l = true ->
  references key (List.filter (fun k => negb (k =? id)) l) = true.
Proof.
  destruct key as [k|]; [| reflexivity]. intros Hne. cbn [same_key] in Hne.
  rewrite !references_Some.
  intros Hin. apply filter_In. split; [assumption |]. now rewrite Hne.
Qed.

Lemma referenced_created : referenced created.
Proof. split; intros r []. Qed.

Lemma referenced_apply db st : referenced db -> referenced (apply db st).
Proof.
  intros [H1 H2]. destruct st; unfold apply, execute.
  - unfold insert_attendance_record. destruct (_ || _); [now split |].
    destruct (references session _ && references student _) eqn:Hr; [| now split].
    apply andb_true_iff in Hr as [Hs Ht]. split; [| exact H2]. cbn.
    intros r Hin. apply in_app_or in Hin as [Hin | [<- | []]]; [now apply H1 | now split].
  - unfold update_attendance_record.
    destruct (List.map _ _) as [|row more] eqn:Hmap; [now split |].
    destruct (List.existsb _ _); [now split |].
    destruct (references session _ && references student _) eqn:Hr; [| now split].
    apply andb_true_iff in Hr as [Hs Ht]. split; [| exact H2]. cbn.
    intros r Hin. apply in_app_or in Hin as [Hin | Hin].
    + apply filter_In in Hin as [Hin _]. now apply H1.
    + rewrite <- Hmap in Hin. apply in_map_iff in Hin as (r0 & <- & _). now split.
  - split; [| exact H2]. cbn. intros r Hin. apply filter_In in Hin as [Hin _]. now apply H1.
  - unfold insert_device_fingerprint. destruct (_ || _); [now split |].
    destruct (references session _ && references student _) eqn:Hr; [| now split].
    apply andb_true_iff in Hr as [Hs Ht]. split; [exact H1 |]. cbn.
    intros r Hin. apply in_app_or in Hin as [Hin | [<- | []]]; [now apply H2 | now split].
  - unfold update_device_fingerprint.
    destruct (List.map _ _) as [|row more] eqn:Hmap; [now split |].
    destruct (_ || _); [now split |].
    destruct (references session _ && references student _) eqn:Hr; [| now split].
    apply andb_true_iff in Hr as [Hs Ht]. split; [exact H1 |]. cbn.
    intros r Hin. apply in_app_or in Hin as [Hin | Hin].
    + apply filter_In in Hin as [Hin _]. now apply H2.
    + rewrite <- Hmap in Hin. apply in_map_iff in Hin as (r0 & <- & _). now split.
  - split; [exact H1 |]. cbn. intros r Hin. apply filter_In in Hin as [Hin _]. now apply H2.
  - unfold insert_session. destruct (mem id _); [now split |]. split; cbn.
    + intros r Hin. destruct (H1 r Hin) as [Ha Hb]. split; [| exact Hb].
      revert Ha. apply references_mono. intros k Hk. now right.
    + intros r Hin. destruct (H2 r Hin) as [Ha Hb]. split; [| exact Hb].
      revert Ha. apply references_mono. intros k Hk. now right.
  - unfold insert_student. destruct (mem id _); [now split |]. split; cbn.
    + intros r Hin. destruct (H1 r Hin) as [Ha Hb]. split; [exact Ha |].
      revert Hb. apply references_mono. intros k Hk. now right.
    + intros r Hin. destruct (H2 r Hin) as [Ha Hb]. split; [exact Ha |].
      revert Hb. apply references_mono. intros k Hk. now right.
  - unfold delete_session. split; cbn.
    + intros r Hin. apply filter_In in Hin as [Hin Hk]. apply negb_true_iff in Hk.
      destruct (H1 r Hin) as [Ha Hb]. split; [now apply references_filter | exact Hb].
    + intros r Hin. apply filter_In in Hin as [Hin Hk]. apply negb_true_iff in Hk.
      destruct (H2 r Hin) as [Ha Hb]. split; [now apply references_filter | exact Hb].
  - unfold delete_student.
    destruct (List.existsb _ _) eqn:Hex; [now split |]. split; cbn.
    + intros r Hin. destruct (H1 r Hin) as [Ha Hb]. split; [exact Ha |].
      apply references_filter; [| exact Hb].
      rewrite existsb_false_iff in Hex. now apply Hex.
    + intros r Hin. apply filter_In in Hin as [Hin Hk]. apply negb_true_iff in Hk.
      destruct (H2 r Hin) as [Ha Hb]. split; [exact Ha | now apply references_filter].
Qed.

Lemma referenced_run sts db : referenced db -> referenced (run sts db).
Proof.
  revert db. induction sts as [|st sts IH]; intros db H; simpl; [assumption |].
  apply IH, referenced_apply, H.
Qed.

(** X13.  In every state of the store that statements reach from the
    created tables, the four references of [attendance_records] and
    [session_device_fingerprints] hold: a session id or student id that is
    not null names an existing session or student. *)
Theorem foreign_keys_hold (sts : list Statement) :
  let db := run sts created in
  (forall r s, In r (attendance_records db) -> record_session_id r = Some s ->
     In s (attendance_sessions db))
  /\ (forall r t, In r (attendance_records db) -> record_student_id r = Some t ->
      In t (students db))
  /\ (forall r s, In r (session_device_fingerprints db) -> fp_session_id r = Some s ->
      In s (attendance_sessions db))
  /\ (forall r t, In r (session_device_fingerprints db) -> fp_student_id r = Some t ->
      In t (students db)).
Proof.
  intros db. destruct (referenced_run sts created referenced_created) as [H1 H2].
  fold db in H1, H2. repeat split.
  - intros r s Hin Hs. apply references_Some. rewrite <- Hs. now apply H1.
  - intros r t Hin Ht. apply references_Some. rewrite <- Ht. now apply H1.
  - intros r s Hin Hs. apply references_Some. rewrite <- Hs. now apply H2.
  - intros r t Hin Ht. apply references_Some. rewrite <- Ht. now apply H2.
Qed.

Lemma ids_below_created : ids_below created.
Proof. split; intros r []. Qed.

Lemma ids_below_apply db st : ids_below db -> ids_below (apply db st).
Proof.
  intros [H1 H2]. destruct st; unfold apply, execute.
  - unfold insert_attendance_record. destruct (_ || _).
    + split; [| exact H2]. cbn. intros r Hin. specialize (H1 r Hin). lia.
    + destruct (_ && _); (split; [| exact H2]); cbn; intros r Hin.
      * apply in_app_or in Hin as [Hin | [<- | []]]; [specialize (H1 r Hin) |]; cbn; lia.
      * specialize (H1 r Hin). lia.
  - unfold update_attendance_record.
    destruct (List.map _ _) as [|row more] eqn:Hmap; [now split |].
    destruct (List.existsb _ _); [now split |].
    destruct (_ && _); [| now split]. split; [| exact H2]. cbn.
    intros r Hin. apply in_app_or in Hin as [Hin | Hin].
    + apply filter_In in Hin as [Hin _]. now apply H1.
    + rewrite <- Hmap in Hin. apply in_map_iff in Hin as (r0 & <- & Hr0).
      apply filter_In in Hr0 as [Hr0 _]. cbn. now apply H1.
  - split; [| exact H2]. cbn. intros r Hin. apply filter_In in Hin as [Hin _]. now apply H1.
  - unfold insert_device_fingerprint. destruct (_ || _).
    + split; [exact H1 |]. cbn. intros r Hin. specialize (H2 r Hin). lia.
    + destruct (_ && _); (split; [exact H1 |]); cbn; intros r Hin.
      * apply in_app_or in Hin as [Hin | [<- | []]]; [specialize (H2 r Hin) |]; cbn; lia.
      * specialize (H2 r Hin). lia.
  - unfold update_device_fingerprint.
    destruct (List.map _ _) as [|row more] eqn:Hmap; [now split |].
    destruct (_ || _); [now split |].
    destruct (_ && _); [| now split]. split; [exact H1 |]. cbn.
    intros r Hin. apply in_app_or in Hin as [Hin | Hin].
    + apply filter_In in Hin as [Hin _]. now apply H2.
    + rewrite <- Hmap in Hin. apply in_map_iff in Hin as (r0 & <- & Hr0).
      apply filter_In in Hr0 as [Hr0 _]. cbn. now apply H2.
  - split; [exact H1 |]. cbn. intros r Hin. apply filter_In in Hin as [Hin _]. now apply H2.
  - unfold insert_session. destruct (mem id _); now split.
  - unfold insert_student. destruct (mem id _); now split.
  - unfold delete_session. split; cbn; intros r Hin; apply filter_In in Hin as [Hin _];
      [now apply H1 | now apply H2].
  - unfold delete_student. destruct (List.existsb _ _); [now split |].
    split; cbn; [exact H1 |]. intros r Hin. apply filter_In in Hin as [Hin _]. now apply H2.
Qed.

Lemma ids_below_run sts db : ids_below db -> ids_below (run sts db).
Proof.
  revert db. induction sts as [|st sts IH]; intros db H; simpl; [assumption |].
  apply IH, ids_below_apply, H.
Qed.

Lemma filter_false_nil {A} (f : A -> bool) l :
  (forall x, In x l -> f x = false) -> List.filter f l = [].
Proof. intros H. now apply filter_nil_iff. Qed.

(** X14.  In a reachable state of the store, the first record of an
    existing student in an existing session is accepted: the insert does
    not fail, the pair then has exactly that one row, under the next id of
    the sequence, and the rows of every other pair are as before. *)
Theorem first_mark_is_recorded (sts : list Statement) (s t ts : Z) (la lo : option Q)
    (ip : option JsString) :
  let db := run sts created in
  In s (attendance_sessions db) ->
  In t (students db) ->
  records_of s t db = [] ->
  failed (insert_attendance_record (Some s) (Some t) ts la lo ip db) = None
  /\ records_of s t (apply db (InsertRecord (Some s) (Some t) ts la lo ip))
     = [mkRecord (attendance_records_id_seq db) (Some s) (Some t) ts la lo ip]
  /\ (forall s' t', (s', t') <> (s, t) ->
        records_of s' t' (apply db (InsertRecord (Some s) (Some t) ts la lo ip))
        = records_of s' t' db).
Proof.
  intros db Hs Ht Hnone.
  destruct (ids_below_run sts created ids_below_created) as [Hid _]. fold db in Hid.
  assert (Hrun : insert_attendance_record (Some s) (Some t) ts la lo ip db
                 = Done (with_records
                           (attendance_records db
                            ++ [mkRecord (attendance_records_id_seq db) (Some s) (Some t)
                                  ts la lo ip])
                           (attendance_records_id_seq db + 1) db)).
  { unfold insert_attendance_record.
    assert (H1 : List.existsb
                   (fun r => record_id r =? attendance_records_id_seq db)
                   (attendance_records db) = false).
    { apply existsb_false_iff. intros r Hr. apply Z.eqb_neq. specialize (Hid r Hr). lia. }
    assert (H2 : List.existsb
                   (record_conflict
                      (mkRecord (attendance_records_id_seq db) (Some s) (Some t) ts la lo ip))
                   (attendance_records db) = false).
    { apply existsb_false_iff. intros r Hr.
      unfold records_of in Hnone. rewrite filter_nil_iff in Hnone. specialize (Hnone r Hr).
      unfold record_conflict. cbn [record_session_id record_student_id].
      destruct (record_session_id r) as [a|], (record_student_id r) as [b|];
        cbn [same_key] in *; try reflexivity; try (now rewrite andb_false_r).
      rewrite (Z.eqb_sym s a), (Z.eqb_sym t b). exact Hnone. }
    cbn [record_id]. rewrite H1, H2. cbn [orb].
    apply references_Some in Hs, Ht. now rewrite Hs, Ht. }
  unfold apply, execute. rewrite Hrun. cbn [failed]. split; [reflexivity |]. split.
  - unfold records_of in *. cbn [attendance_records with_records].
    rewrite List.filter_app, Hnone. cbn [List.filter record_session_id record_student_id app].
    now rewrite !same_key_refl.
  - intros s' t' Hne. unfold records_of. cbn [attendance_records with_records].
    rewrite List.filter_app. cbn [List.filter record_session_id record_student_id].
    destruct (same_key (Some s) (Some s') && same_key (Some t) (Some t')) eqn:Hk;
      [| apply app_nil_r].
    apply andb_true_iff in Hk as [Ha Hb]. apply same_key_Some in Ha, Hb. congruence.
Qed.

Lemma first_mark_is_recorded_witness :
  let db := run [InsertSession 7; InsertStudent 1; InsertStudent 2;
                 InsertRecord (Some 7) (Some 1) 100 None None None] created in
  (In 7 (attendance_sessions db) /\ In 2 (students db) /\ records_of 7 2 db = [])
  /\ failed (insert_attendance_record (Some 7) (Some 2) 200 None None None db) = None
  /\ records_of 7 2 (apply db (InsertRecord (Some 7) (Some 2) 200 None None None))
     = [mkRecord (attendance_records_id_seq db) (Some 7) (Some 2) 200 None None None]
  /\ (forall s' t', (s', t') <> (7, 2) ->
        records_of s' t' (apply db (InsertRecord (Some 7) (Some 2) 200 None None None))
        = records_of s' t' db).
Proof.
  assert (H1 : In 7 (attendance_sessions
                       (run [InsertSession 7; InsertStudent 1; InsertStudent 2;
                             InsertRecord (Some 7) (Some 1) 100 None None None] created)))
    by (vm_compute; tauto).
  assert (H2 : In 2 (students
                       (run [InsertSession 7; InsertStudent 1; InsertStudent 2;
                             InsertRecord (Some 7) (Some 1) 100 None None None] created)))
    by (vm_compute; tauto).
  assert (H3 : records_of 7 2
                 (run [InsertSession 7; InsertStudent 1; InsertStudent 2;
                       InsertRecord (Some 7) (Some 1) 100 None None None] created) = [])
    by (vm_compute; reflexivity).
  split; [repeat split; assumption |].
  exact (first_mark_is_recorded
           [InsertSession 7; InsertStudent 1; InsertStudent 2;
            InsertRecord (Some 7) (Some 1) 100 None None None]
           7 2 200 None None None H1 H2 H3).
Defined.

Lemma filter_other_session {A} (sess : A -> option Z) (rest : A -> bool) l s s' :
  s' <> s ->
  List.filter (fun r => same_key (sess r) (Some s') && rest r)
              (List.filter (fun r => negb (same_key (sess r) (Some s))) l)
  = List.filter (fun r => same_key (sess r) (Some s') && rest r) l.
Proof.
  intros Hne. induction l as [|r l IH]; [reflexivity |]. cbn.
  destruct (same_key (sess r) (Some s)) eqn:Hk; cbn; rewrite IH; [| reflexivity].
  apply same_key_Some in Hk. rewrite Hk. cbn [same_key].
  assert (Hs : (s =? s') = false) by (apply Z.eqb_neq; congruence). now rewrite Hs.
Qed.

(** X15.  The two delete rules of [attendance_records].  Let all the
    records of a student be in one session.  While the student has a record
    there, the student cannot be deleted: the delete fails with a foreign
    key violation and changes nothing.  Deleting the session removes the
    records and fingerprints of that session and no others; after that the
    student can be deleted, and then no record or fingerprint of the student
    is left. *)
Theorem session_delete_unblocks_student (db : Database) (s t : Z) :
  (forall r, In r (attendance_records db) ->
     record_student_id r = Some t -> record_session_id r = Some s) ->
  let db1 := apply db (DeleteSession s) in
  let db2 := apply db1 (DeleteStudent t) in
  (records_of s t db <> [] ->
     failed (delete_student t db) = Some foreign_key_violation
     /\ apply db (DeleteStudent t) = db)
  /\ (forall t', records_of s t' db1 = [] /\ fingerprints_of_student s t' db1 = [])
  /\ (forall s' t', s' <> s ->
        records_of s' t' db1 = records_of s' t' db
        /\ fingerprints_of_student s' t' db1 = fingerprints_of_student s' t' db)
  /\ failed (delete_student t db1) = None
  /\ ~ In t (students db2)
  /\ (forall r, In r (attendance_records db2) -> record_student_id r <> Some t)
  /\ (forall r, In r (session_device_fingerprints db2) -> fp_student_id r <> Some t).
Proof.
  intros Hall db1 db2.
  assert (Hnone : List.existsb (fun r => same_key (record_student_id r) (Some t))
                    (attendance_records db1) = false).
  { apply existsb_false_iff. intros r Hr. subst db1. unfold apply, execute, delete_session in Hr.
    cbn in Hr. apply filter_In in Hr as [Hr Hk]. apply negb_true_iff in Hk.
    destruct (same_key (record_student_id r) (Some t)) eqn:Ht; [| reflexivity].
    apply same_key_Some in Ht. rewrite (Hall r Hr Ht), same_key_refl in Hk. discriminate. }
  assert (Hrun : delete_student t db1
                 = Done (mkDatabase
                           (List.filter (fun k => negb (k =? t)) (students db1))
                           (attendance_sessions db1) (attendance_records db1)
                           (List.filter (fun r => negb (same_key (fp_student_id r) (Some t)))
                                        (session_device_fingerprints db1))
                           (attendance_records_id_seq db1)
                           (session_device_fingerprints_id_seq db1))).
  { unfold delete_student. now rewrite Hnone. }
  split; [| split; [| split; [| split; [| split; [| split]]]]].
  - intros Hne. unfold apply, execute, delete_student.
    assert (Hex : List.existsb (fun r => same_key (record_student_id r) (Some t))
                    (attendance_records db) = true).
    { destruct (records_of s t db) as [|r l] eqn:Hf; [congruence |].
      assert (Hin : In r (records_of s t db)) by (rewrite Hf; now left).
      unfold records_of in Hin.
      apply filter_In in Hin as [Hin Hk]. apply andb_true_iff in Hk as [_ Hk].
      apply existsb_exists. now exists r. }
    rewrite Hex. split; reflexivity.
  - intros t'. subst db1. unfold apply, execute, delete_session, records_of,
      fingerprints_of_student. cbn. split; apply filter_false_nil; intros r Hr;
      apply filter_In in Hr as [_ Hk]; apply negb_true_iff in Hk; now rewrite Hk.
  - intros s' t' Hne. subst db1. unfold apply, execute, delete_session, records_of,
      fingerprints_of_student. cbn. split.
    + now apply (filter_other_session record_session_id).
    + now apply (filter_other_session fp_session_id).
  - now rewrite Hrun.
  - subst db2. unfold apply, execute. rewrite Hrun. cbn. intros Hin.
    apply filter_In in Hin as [_ Hk]. now rewrite Z.eqb_refl in Hk.
  - subst db2. unfold apply, execute. rewrite Hrun. cbn. intros r Hr Ht.
    rewrite existsb_false_iff in Hnone. specialize (Hnone r Hr).
    now rewrite Ht, same_key_refl in Hnone.
  - subst db2. unfold apply, execute. rewrite Hrun. cbn. intros r Hr Ht.
    apply filter_In in Hr as [_ Hk]. now rewrite Ht, same_key_refl in Hk.
Qed.

Lemma session_delete_unblocks_student_witness :
  let db := run [InsertSession 7; InsertStudent 1;
                 InsertRecord (Some 7) (Some 1) 100 None None None;
                 InsertFingerprint (Some 7) (Some 1) (js "e376ec0ba2f044a7")] created in
  let db1 := apply db (DeleteSession 7) in
  let db2 := apply db1 (DeleteStudent 1) in
  failed (delete_student 1 db) = Some foreign_key_violation
  /\ failed (delete_student 1 db1) = None
  /\ ~ In 1 (students db2).
Proof.
  assert (Hall : forall r,
            In r (attendance_records
                    (run [InsertSession 7; InsertStudent 1;
                          InsertRecord (Some 7) (Some 1) 100 None None None;
                          InsertFingerprint (Some 7) (Some 1) (js "e376ec0ba2f044a7")]
                         created)) ->
            record_student_id r = Some 1 -> record_session_id r = Some 7).
  { intros r Hr _. vm_compute in Hr. destruct Hr as [<- | []]. reflexivity. }
  pose proof (session_delete_unblocks_student _ 7 1 Hall) as (H1 & _ & _ & H4 & H5 & _).
  split; [apply H1; vm_compute; discriminate |]. split; [exact H4 | exact H5].
Defined.

End SchemaIntegrity.

(* ===================================================================== *)
(** ** The dashboard and the report page *)
(* ===================================================================== *)

(** X16.  A click on the start button of part_000 makes exactly one
    request, the POST to [/api/start_session], with the button disabled under
    the label [Starting Session...].  On success the page is reloaded and no
    message is shown.  On a refusal the message of the server is shown as an
    error and the button is enabled again under [Start New Session].  When
    the request fails or the answer is not JSON the handler throws: no
    message is shown, no timer is set, and the button stays disabled under
    [Starting Session...]. *)
Theorem start_session_click (w : World) (p : Page) :
  has p "start-session-btn" ->
  has p "status-message" ->
  let q := exec Controller.on_start_click w p in
  let started := (disabled <$> dom q !! "start-session-btn") = Some true
                 /\ (textContent <$> dom q !! "start-session-btn")
                    = Some (js "Starting Session...") in
  (forall ok st result,
     net w start_session_request = Response ok st (Some result) ->
     (success result = true ->
        outcome Controller.on_start_click w p = Ok tt
        /\ since p q = [Fetch start_session_request; Reload]
        /\ started /\ dom q !! "status-message" = dom p !! "status-message")
     /\ (success result = false ->
         outcome Controller.on_start_click w p = Ok tt
         /\ since p q = [Fetch start_session_request]
         /\ shown (message result) (js "error") (now p + 6000) q
         /\ (disabled <$> dom q !! "start-session-btn") = Some false
         /\ (textContent <$> dom q !! "start-session-btn") = Some (js "Start New Session")))
  /\ (no_json (net w start_session_request) ->
      (exists e, outcome Controller.on_start_click w p = Throw e)
      /\ since p q = [Fetch start_session_request]
      /\ started /\ dom q !! "status-message" = dom p !! "status-message"
      /\ timers q = timers p).
Proof.
  intros [btn Hbtn] [status Hstatus] q started. subst q started.
  unfold start_session_request. split.
  - intros ok st result Hnet. split; intros Hok.
    all: eassert (H : Controller.on_start_click w p = _);
      [ unfold Controller.on_start_click, Controller.startButton, reload; walk
      | unfold exec, outcome; rewrite H; clear H; tidy ].
    all: split; [reflexivity |].
    all: split; [apply since_app; rewrite <- ?app_assoc; reflexivity |].
    + repeat split; lookups; reflexivity.
    + split; [| repeat split; lookups; reflexivity].
      unfold shown. do 2 eexists. tidy. split; [look |]. repeat split.
      apply in_or_app. right. now left.
  - intros Hno.
    destruct (net w (mkRequest (js "/api/start_session") POST
                       [("Content-Type", "application/json")] (TextBody (json_stringify []))))
      as [|ok st [result|]] eqn:Hnet; [| destruct Hno |].
    all: eassert (H : Controller.on_start_click w p = _);
      [ unfold Controller.on_start_click, Controller.startButton, reload; walk
      | unfold exec, outcome; rewrite H; clear H; tidy ].
    all: split; [eexists; reflexivity |].
    all: split; [apply since_app; rewrite <- ?app_assoc; reflexivity |].
    all: repeat split; lookups; reflexivity.
Qed.

Lemma start_session_click_witness :
  let q := exec Controller.on_start_click (online 10 rejected) dashboard_page in
  since dashboard_page q = [Fetch start_session_request]
  /\ (disabled <$> dom q !! "start-session-btn") = Some false
  /\ (textContent <$> dom q !! "start-session-btn") = Some (js "Start New Session").
Proof.
  assert (H1 : has dashboard_page "start-session-btn")
    by (exists blank; vm_compute; reflexivity).
  assert (H2 : has dashboard_page "status-message")
    by (exists blank; vm_compute; reflexivity).
  pose proof (start_session_click (online 10 rejected) dashboard_page H1 H2) as (Ha & _).
  destruct (Ha true 200 rejected eq_refl) as (_ & Hb).
  destruct (Hb eq_refl) as (_ & Hc & _ & Hd & He).
  repeat split; assumption.
Defined.

(** X17.  A click on the end button of part_000 disables the button and
    posts to [/api/end_session/<id>].  Whatever the server answers, success
    or not, JSON or not, the page is then reloaded, since the answer is never
    read; only when the request itself fails does the handler throw, without
    a reload and with the button left disabled. *)
Theorem end_session_click (w : World) (p : Page) (sessionId : JsString) :
  has p ".end-session-btn" ->
  let q := exec (Controller.on_end_click sessionId) w p in
  let request := end_session_request sessionId in
  (disabled <$> dom q !! ".end-session-btn") = Some true
  /\ (answered (net w request) ->
      outcome (Controller.on_end_click sessionId) w p = Ok tt
      /\ since p q = [Fetch request; Reload])
  /\ (net w request = NetworkError ->
      outcome (Controller.on_end_click sessionId) w p = Throw NetworkFailure
      /\ since p q = [Fetch request]).
Proof.
  intros [btn Hbtn] q request. subst q request. unfold end_session_request.
  destruct (net w (mkRequest (js "/api/end_session/" ++ sessionId) POST [] NoBody))
    as [|ok st j] eqn:Hnet.
  all: eassert (H : Controller.on_end_click sessionId w p = _);
    [ unfold Controller.on_end_click, Controller.endButton, reload; walk
    | unfold exec, outcome; rewrite H; clear H; tidy ].
  all: split; [lookups; reflexivity |].
  all: split; [intros Ha; try destruct Ha | intros Hn; try discriminate Hn].
  all: split; [reflexivity | apply since_app; rewrite <- ?app_assoc; reflexivity].
Qed.

Lemma end_session_click_witness :
  let q := exec (Controller.on_end_click (js "7")) offline_denied dashboard_page in
  (disabled <$> dom q !! ".end-session-btn") = Some true
  /\ outcome (Controller.on_end_click (js "7")) offline_denied dashboard_page
     = Throw NetworkFailure
  /\ since dashboard_page q = [Fetch (end_session_request (js "7"))].
Proof.
  assert (H1 : has dashboard_page ".end-session-btn")
    by (exists blank; vm_compute; reflexivity).
  pose proof (end_session_click offline_denied dashboard_page (js "7") H1) as (Ha & _ & Hb).
  destruct (Hb eq_refl) as (Hc & Hd).
  repeat split; assumption.
Defined.

Lemma row_is_not_fixed date id :
  In id ["status-message"; "confirm-delete-btn"; "confirm-delete-modal"] ->
  ("row-" ++ date)%string <> id.
Proof. intros [<- | [<- | [<- | []]]]; discriminate. Qed.

(** Lookups under keys that are only known to differ. *)
Ltac lookups ::=
  repeat first
    [ rewrite lookup_insert_eq
    | rewrite lookup_insert_ne by (first [intro; discriminate | congruence])
    | rewrite lookup_delete_eq
    | rewrite lookup_delete_ne by (first [intro; discriminate | congruence])
    | match goal with H : _ !! _ = _ |- _ => rewrite H end ].

(** The script of the goal is evaluated along the path the hypotheses
    describe. *)
Ltac run_script :=
  match goal with
  | |- context [bind ?m ?k ?W ?P] =>
      let H := fresh "Hrun" in
      eassert (H : bind m k W P = _); [walk | rewrite H; clear H; tidy]
  end.

(** X18.  Deleting a day on the report page of part_000: a click on a
    delete button, then on the confirm button.  The date of the clicked
    button is the one that is deleted, by exactly one DELETE request to
    [/api/delete_day/<date>].  When the answer is JSON the message of the
    server is shown, as a success or as an error, the row of the date is
    removed exactly on success, no element changes but the status line, the
    confirm button, the modal, its date display and the row, the confirm
    button is enabled again and the modal is closed.  When the request fails or the answer is not JSON the handler
    throws, the confirm button stays disabled, and the row and the modal stay
    as they were. *)
Theorem confirm_delete_day (w : World) (s : Controller.Report) (date : string) :
  has (Controller.document s) "confirm-delete-btn" ->
  has (Controller.document s) "confirm-delete-modal" ->
  has (Controller.document s) "status-message" ->
  date <> EmptyString ->
  let p := Controller.document s in
  let chosen := snd (Controller.on_delete_click (Some date) w s) in
  let p1 := Controller.document chosen in
  let done := Controller.on_confirm_click w chosen in
  let q := Controller.document (snd done) in
  let request := delete_day_request date in
  Controller.dateToDelete chosen = Some date
  /\ since p1 q = [Fetch request]
  /\ (forall ok st result,
        net w request = Response ok st (Some result) ->
        fst done = Ok tt
        /\ shown (message result) (if success result then js "success" else js "error")
                 (now p + 6000) q
        /\ dom q !! ("row-" ++ date)%string
           = (if success result then None else dom p !! ("row-" ++ date)%string)
        /\ (forall id, ~ In id ["status-message"; "confirm-delete-btn"; "confirm-delete-modal";
                                "modal-delete-date-display"; ("row-" ++ date)%string] ->
              dom q !! id = dom p !! id)
        /\ (disabled <$> dom q !! "confirm-delete-btn") = Some false
        /\ (style_display <$> dom q !! "confirm-delete-modal") = Some (js "none")
        /\ modal_open q = false)
  /\ (no_json (net w request) ->
      (exists e, fst done = Throw e)
      /\ (disabled <$> dom q !! "confirm-delete-btn") = Some true
      /\ dom q !! ("row-" ++ date)%string = dom p !! ("row-" ++ date)%string
      /\ modal_open q = modal_open p1).
Proof.
  intros [btn Hbtn] [modal Hmodal] [status Hstatus] Hdate p chosen p1 done q request.
  subst p chosen p1 done q request. unfold delete_day_request.
  destruct s as [p d0]. cbn [Controller.document] in *.
  destruct date as [|c date]; [congruence |]. clear Hdate.
  set (date' := String c date).
  (* the click on the delete button *)
  cbv beta zeta delta [Controller.on_delete_click Controller.on_confirm_click
                       Controller.on_document].
  cbn [Controller.document Controller.dateToDelete snd fst].
  set (choose := bind _ _ w p).
  assert (Hchoose : extends ["modal-delete-date-display"; "confirm-delete-modal"] p (snd choose)).
  { subst choose. apply (frames_bind (A := unit) (B := unit)
                          ["modal-delete-date-display"; "confirm-delete-modal"]).
    - apply frames_assign. simpl. tauto.
    - intros _. apply frames_openModal. simpl. tauto. }
  set (p1 := snd choose) in *.
  assert (Hbtn1 : exists b, dom p1 !! "confirm-delete-btn" = Some b
                            /\ dom p !! "confirm-delete-btn" = Some b).
  { exists btn. split; [| assumption].
    rewrite (ext_same _ _ _ Hchoose); [assumption |]. simpl. intuition discriminate. }
  assert (Hstatus1 : dom p1 !! "status-message" = Some status).
  { rewrite (ext_same _ _ _ Hchoose); [assumption |]. simpl. intuition discriminate. }
  assert (Hmodal1 : is_Some (dom p1 !! "confirm-delete-modal")).
  { apply (ext_keys _ _ _ Hchoose). eauto. }
  assert (Hrow1 : dom p1 !! ("row-" ++ date')%string = dom p !! ("row-" ++ date')%string).
  { apply (ext_same _ _ _ Hchoose). subst date'. simpl. intuition discriminate. }
  assert (Hnow1 : now p1 = now p) by apply (ext_now _ _ _ Hchoose).
  assert (Hother : forall id,
            ~ In id ["modal-delete-date-display"; "confirm-delete-modal"] ->
            dom p1 !! id = dom p !! id) by apply (ext_same _ _ _ Hchoose).
  clearbody p1. clear choose Hchoose Hbtn Hstatus Hmodal.
  destruct Hbtn1 as (btn1 & Hbtn1 & _). destruct Hmodal1 as [modal1 Hmodal1].
  split; [reflexivity |].
  change (Controller.confirm_delete (Some date'))
    with (Controller.confirm_delete (Some (String c date))).
  cbn [Controller.confirm_delete]. fold date'.
  assert (Hne1 : ("row-" ++ date')%string <> "status-message") by (apply row_is_not_fixed; simpl; tauto).
  assert (Hne2 : ("row-" ++ date')%string <> "confirm-delete-btn") by (apply row_is_not_fixed; simpl; tauto).
  assert (Hne3 : ("row-" ++ date')%string <> "confirm-delete-modal")
    by (apply row_is_not_fixed; simpl; tauto).
  unfold Controller.confirmDeleteBtn, Controller.deleteModal, Controller.remove,
    TwoStep.closeModal.
  generalize dependent ("row-" ++ date')%string. intros row Hrow1 Hne1 Hne2 Hne3.
  destruct (net w (mkRequest (js "/api/delete_day/" ++ js date') DELETE [] NoBody))
    as [|ok st [result|]] eqn:Hnet.
  - (* the request fails *)
    run_script.
    split; [apply since_app; reflexivity |]. split; [intros ok st result [=] |].
    intros _. split; [eexists; reflexivity |].
    rewrite lookup_insert_eq, lookup_insert_ne by congruence. repeat split. exact Hrow1.
  - (* the server answers with JSON *)
    destruct (success result) eqn:Hok; destruct (dom p1 !! row) as [r|] eqn:Hr.
    all: run_script.
    all: split; [apply since_app; reflexivity |].
    all: split; [| intros []].
    all: intros ok' st' result' [= -> -> <-]; rewrite ?Hok.
    all: split; [reflexivity |].
    all: split;
      [ unfold shown; do 2 eexists; tidy; (split; [look |]); rewrite ?Hnow1; repeat split;
        apply in_or_app; right; now left |].
    all: split; [lookups; first [reflexivity | exact Hrow1] |].
    all: split;
      [ intros id Hid;
        repeat first
          [ rewrite lookup_insert_ne by (intros <-; apply Hid; simpl; tauto)
          | rewrite lookup_delete_ne by (intros <-; apply Hid; simpl; tauto) ];
        apply Hother; intros Hin; apply Hid; simpl in *; tauto |].
    all: repeat split; lookups; reflexivity.
  - (* the answer is not JSON *)
    run_script.
    split; [apply since_app; reflexivity |]. split; [intros ok' st' result [=] |].
    intros _. split; [eexists; reflexivity |].
    rewrite lookup_insert_eq, lookup_insert_ne by congruence. repeat split. exact Hrow1.
Qed.

Lemma confirm_delete_day_witness :
  let w := online 10 accepted in
  let chosen := snd (Controller.on_delete_click (Some "2025-01-31") w report0) in
  let done := Controller.on_confirm_click w chosen in
  let q := Controller.document (snd done) in
  Controller.dateToDelete chosen = Some "2025-01-31"
  /\ since (Controller.document chosen) q = [Fetch (delete_day_request "2025-01-31")]
  /\ fst done = Ok tt
  /\ dom q !! "row-2025-01-31" = None
  /\ (disabled <$> dom q !! "confirm-delete-btn") = Some false
  /\ modal_open q = false.
Proof.
  assert (H1 : has report_page "confirm-delete-btn") by (exists blank; vm_compute; reflexivity).
  assert (H2 : has report_page "confirm-delete-modal") by (exists blank; vm_compute; reflexivity).
  assert (H3 : has report_page "status-message") by (exists blank; vm_compute; reflexivity).
  assert (H4 : "2025-01-31" <> EmptyString) by discriminate.
  pose proof (confirm_delete_day (online 10 accepted) report0 "2025-01-31" H1 H2 H3 H4)
    as (Ha & Hb & Hc & _).
  destruct (Hc true 200 accepted eq_refl) as (Hd & _ & He & _ & Hf & _ & Hg).
  repeat split; assumption.
Defined.

Lemma eval_read_null {A} id (f : Element -> A) w p :
  dom p !! id = None -> read id f w p = (Throw TypeError, p).
Proof. intros H. unfold read. rewrite H. reflexivity. Qed.

(** The path evaluator, with reads of elements that are missing. *)
Ltac walk ::=
  tidy;
  lazymatch goal with
  | |- bind _ _ _ _ = _ =>
      first [ eapply eval_bind_ok; [walk | walk] | eapply eval_bind_throw; walk ]
  | |- try_catch _ _ _ _ = _ =>
      first [ eapply eval_try_ok; walk | eapply eval_try_throw; [walk | walk] ]
  | |- detached _ _ _ = _ => unfold detached; walk
  | |- assign _ _ _ _ = _ =>
      first [ eapply eval_assign; look | eapply eval_assign_null; look ]
  | |- read _ _ _ _ = _ =>
      first [ eapply eval_read; look | eapply eval_read_null; look ]
  | |- getElementById _ _ _ = _ => eapply eval_getElementById; look
  | |- assign_span_text _ _ _ _ = _ =>
      unfold assign_span_text, span_of; cbv delta [String.append]; walk
  | |- ret _ _ _ = _ => apply eval_ret
  | |- throw _ _ _ = _ => apply eval_throw
  | |- world _ _ = _ => apply eval_world
  | |- page _ _ = _ => apply eval_page
  | |- modify _ _ _ = _ => apply eval_modify
  | |- emit _ _ _ = _ => apply eval_emit
  | |- add_timer _ _ _ _ _ = _ => apply eval_add_timer
  | |- setTimeout _ _ _ _ = _ => apply eval_add_timer
  | |- setInterval _ _ _ _ = _ => apply eval_add_timer
  | |- fetch _ _ _ = _ => unfold fetch; walk
  | |- response_json _ _ _ = _ => unfold response_json; simpl_page; walk
  | |- getCurrentPosition _ _ _ = _ => unfold getCurrentPosition; walk
  | |- (match ?x with _ => _ end) _ _ = _ =>
      first [ progress use_world; cbv beta iota delta [negb]; walk
            | progress (cbn [negb andb orb]); walk ]
  | |- (if ?x then _ else _) _ _ = _ =>
      first [ progress use_world; cbv beta iota delta [negb]; walk
            | progress (cbn [negb andb orb]); walk ]
  | |- ?t = _ => let h := head_of t in progress unfold h; walk
  end.

(** X19.  The confirm handler of main.js removes the row of the
    deleted day without testing that it exists, which the one of part_000
    does.  When the server reports success and the page has no such row,
    main.js throws a [TypeError] after it has shown the message of the
    server: the confirm button stays disabled and the modal is not closed.
    part_000 completes on the same page, with the button enabled and the
    modal closed. *)
Theorem confirm_delete_missing_row (w : World) (p : Page) (date : string)
    (ok : bool) (st : Z) (result : Payload) :
  has p "confirm-delete-btn" ->
  has p "status-message" ->
  date <> EmptyString ->
  net w (delete_day_request date) = Response ok st (Some result) ->
  success result = true ->
  dom p !! ("row-" ++ date)%string = None ->
  let q := exec (MainJsReport.confirm_delete (Some date)) w p in
  let q' := exec (Controller.confirm_delete (Some date)) w p in
  (outcome (MainJsReport.confirm_delete (Some date)) w p = Throw TypeError
   /\ shown (message result) (js "success") (now p + 6000) q
   /\ (disabled <$> dom q !! "confirm-delete-btn") = Some true
   /\ modal_open q = modal_open p
   /\ dom q !! "confirm-delete-modal" = dom p !! "confirm-delete-modal")
  /\ (outcome (Controller.confirm_delete (Some date)) w p = Ok tt
      /\ (disabled <$> dom q' !! "confirm-delete-btn") = Some false
      /\ modal_open q' = false).
Proof.
  intros [btn Hbtn] [status Hstatus] Hdate Hnet Hok Hrow q q'. subst q q'.
  unfold delete_day_request in Hnet.
  destruct date as [|c date]; [congruence |]. clear Hdate.
  unfold outcome, exec. cbn [MainJsReport.confirm_delete Controller.confirm_delete].
  unfold Controller.confirmDeleteBtn, Controller.deleteModal, Controller.remove,
    TwoStep.closeModal, MainJsReport.closeModal.
  assert (Hne1 : ("row-" ++ String c date)%string <> "status-message") by discriminate.
  assert (Hne2 : ("row-" ++ String c date)%string <> "confirm-delete-btn") by discriminate.
  assert (Hne3 : ("row-" ++ String c date)%string <> "confirm-delete-modal") by discriminate.
  set (date' := String c date) in *.
  generalize dependent ("row-" ++ date')%string. intros row Hrow Hne1 Hne2 Hne3.
  destruct (dom p !! "confirm-delete-modal") as [modal|] eqn:Hmodal.
  all: split.
  all: run_script.
  all: split; [reflexivity |].
  all: try (split;
      [ unfold shown; do 2 eexists; tidy; (split; [look |]); repeat split;
        apply in_or_app; right; now left |]).
  all: repeat split; lookups; reflexivity.
Qed.

Lemma confirm_delete_missing_row_witness :
  outcome (MainJsReport.confirm_delete (Some "2025-01-31")) (online 10 accepted)
          report_without_row = Throw TypeError
  /\ outcome (Controller.confirm_delete (Some "2025-01-31")) (online 10 accepted)
             report_without_row = Ok tt.
Proof.
  assert (H1 : has report_without_row "confirm-delete-btn")
    by (exists blank; vm_compute; reflexivity).
  assert (H2 : has report_without_row "status-message")
    by (exists blank; vm_compute; reflexivity).
  assert (H3 : "2025-01-31" <> EmptyString) by discriminate.
  pose proof (confirm_delete_missing_row (online 10 accepted) report_without_row "2025-01-31"
                true 200 accepted H1 H2 H3 eq_refl eq_refl ltac:(vm_compute; reflexivity))
    as ((Ha & _) & (Hb & _)).
  split; assumption.
Defined.
